(** * Shrimp-Shop-System: traceability batch / package subsystem

    A shallow embedding of the Django models and views that mint
    identifiers, deduct inventory and attach QR artifacts:

    - [shrimp_panel/models.py]  ShrimpProduct.save
    - [shrimp_panel/views.py]   EditProductView.post
    - [export_panel/models.py]  default_expiration_date, ProductPackage.save,
                                ProductPackage.generate_qr_code
    - [export_panel/views.py]   CreatePackageView.post
    - [export_panel/admin.py]   ProductPackageAdmin.generate_qr_codes

    Tables are finite maps from primary keys to rows, Python exceptions are
    an error outcome of a state monad, and the three sources of
    nondeterminism (the wall clock, [os.urandom] and the QR renderer) are
    oracles consulted in call order. *)

From Stdlib Require Import ZArith QArith Qround Lqa Lia Ascii String.
From stdpp Require Import base option list gmap strings.

Local Open Scope Z_scope.

(** ** Identifier generator *)

Module Ident.

(** [uuid.uuid4()]: sixteen random bytes read as a big-endian integer, with
    the variant and version bits forced as [uuid.UUID.__init__] does. *)
Definition from_bytes16 (r : Z) : Z := Z.land r (Z.ones 128).

Definition uuid4 (r : Z) : Z :=
  let i := from_bytes16 r in
  let i := Z.land i (Z.lnot (Z.shiftl 0xc000 48)) in
  let i := Z.lor i (Z.shiftl 0x8000 48) in
  let i := Z.land i (Z.lnot (Z.shiftl 0xf000 64)) in
  Z.lor i (Z.shiftl 4 76).

Definition hexdigit (d : Z) : ascii :=
  match d with
  | 0 => "0" | 1 => "1" | 2 => "2" | 3 => "3" | 4 => "4" | 5 => "5"
  | 6 => "6" | 7 => "7" | 8 => "8" | 9 => "9" | 10 => "a" | 11 => "b"
  | 12 => "c" | 13 => "d" | 14 => "e" | _ => "f"
  end%char.

Definition nibble (v : Z) (k : Z) : Z := Z.land (Z.shiftr v (4 * k)) 15.

(** [UUID.hex], i.e. ['%032x' % self.int]. *)
Definition hex (v : Z) : string :=
  string_of_list_ascii
    (List.map (fun k => hexdigit (nibble v k))
       [31;30;29;28;27;26;25;24;23;22;21;20;19;18;17;16;
        15;14;13;12;11;10;9;8;7;6;5;4;3;2;1;0]).

(** Python slices [s[a:b]] on strings that are long enough or not. *)
Definition slice (a b : nat) (s : string) : string := substring a (b - a) s.

(** [str(uuid)]: the 8-4-4-4-12 form. *)
Definition str (v : Z) : string :=
  let h := hex v in
  (slice 0 8 h +:+ "-" +:+ slice 8 12 h +:+ "-" +:+ slice 12 16 h +:+ "-"
   +:+ slice 16 20 h +:+ "-" +:+ substring 20 12 h)%string.

Definition upper_ascii (c : ascii) : ascii :=
  let n := nat_of_ascii c in
  if (97 <=? n)%nat && (n <=? 122)%nat then ascii_of_nat (n - 32) else c.

Fixpoint upper (s : string) : string :=
  match s with
  | EmptyString => EmptyString
  | String c s' => String (upper_ascii c) (upper s')
  end.

(** [str(uuid.uuid4())[:8].upper()] *)
Definition new_support_code (r : Z) : string :=
  upper (slice 0 8 (str (uuid4 r))).

(** [f"BATCH-{uuid.uuid4().hex[:10].upper()}"] *)
Definition new_batch_number (r : Z) : string :=
  ("BATCH-" +:+ upper (slice 0 10 (hex (uuid4 r))))%string.

(** Character classes and the two regular expressions of the format. *)
Definition is_digit (c : ascii) : bool :=
  let n := nat_of_ascii c in (48 <=? n)%nat && (n <=? 57)%nat.
Definition is_upper_hex (c : ascii) : bool :=
  let n := nat_of_ascii c in is_digit c || ((65 <=? n)%nat && (n <=? 70)%nat).
Definition is_upper_alnum (c : ascii) : bool :=
  let n := nat_of_ascii c in is_digit c || ((65 <=? n)%nat && (n <=? 90)%nat).
Definition is_G_to_Z (c : ascii) : bool :=
  let n := nat_of_ascii c in (71 <=? n)%nat && (n <=? 90)%nat.

Definition all_chars (P : ascii -> bool) (s : string) : bool :=
  forallb P (list_ascii_of_string s).

(** [re.fullmatch("BATCH-" + cls + "{10}", s)] for a character class [cls]. *)
Definition batch_format (cls : ascii -> bool) (s : string) : bool :=
  String.eqb (substring 0 6 s) "BATCH-"
  && (String.length s =? 16)%nat
  && all_chars cls (substring 6 10 s).

(** [re.fullmatch(cls + "{8}", s)] *)
Definition code_format (cls : ascii -> bool) (s : string) : bool :=
  (String.length s =? 8)%nat && all_chars cls s.

End Ident.

(** ** Data model

    [Decimal] values are carried as the rational they denote, and the
    operations below compute with that exact value.  This is what the code
    computes as long as the numbers are values of the columns they are
    written to: a [DecimalField(max_digits, decimal_places)] column gives
    back a value rounded to [decimal_places] places ([DecimalField] below),
    and the view's product and difference are exact only within the 28
    significant digits of the default decimal context.  A statement that
    depends on the value of a weight therefore asks that the weights involved
    be column values ([in_column]).

    Datetimes are seconds and dates are day numbers.  [date] is the day of a
    clock reading as [timezone.now().date()] gives it; the day a [DateField]
    makes of a datetime is the day in [settings.TIME_ZONE], a setting that is
    not part of the source and is a parameter of the environment
    ([local_date]). *)

Record Company := { company_name : string }.

Record ShrimpProduct := {
  product_id : option Z;
  company : Z;
  product_name : string;
  weight : Q;
  shrimp_type : string;
  price : Q;
  support_code : string;
}.

Record ProductPackage := {
  package_id : option Z;
  shrimp_product : Z;
  farming_company : Z;
  exporting_company : Z;
  package_weight : Q;
  quantity : Z;
  production_date : option Z;
  expiration_date : option Z;
  batch_number : string;
  qr_code : string;
  created_at : option Z;
  updated_at : option Z;
}.

Definition set_weight (w : Q) (p : ShrimpProduct) : ShrimpProduct :=
  {| product_id := product_id p; company := company p;
     product_name := product_name p; weight := w;
     shrimp_type := shrimp_type p; price := price p;
     support_code := support_code p |}.

Definition set_product_name (n : string) (p : ShrimpProduct) : ShrimpProduct :=
  {| product_id := product_id p; company := company p;
     product_name := n; weight := weight p;
     shrimp_type := shrimp_type p; price := price p;
     support_code := support_code p |}.

Definition set_price (x : Q) (p : ShrimpProduct) : ShrimpProduct :=
  {| product_id := product_id p; company := company p;
     product_name := product_name p; weight := weight p;
     shrimp_type := shrimp_type p; price := x;
     support_code := support_code p |}.

Definition set_support_code (c : string) (p : ShrimpProduct) : ShrimpProduct :=
  {| product_id := product_id p; company := company p;
     product_name := product_name p; weight := weight p;
     shrimp_type := shrimp_type p; price := price p;
     support_code := c |}.

Definition set_product_id (k : option Z) (p : ShrimpProduct) : ShrimpProduct :=
  {| product_id := k; company := company p;
     product_name := product_name p; weight := weight p;
     shrimp_type := shrimp_type p; price := price p;
     support_code := support_code p |}.

Definition set_package_id (k : option Z) (p : ProductPackage) : ProductPackage :=
  {| package_id := k; shrimp_product := shrimp_product p;
     farming_company := farming_company p;
     exporting_company := exporting_company p;
     package_weight := package_weight p; quantity := quantity p;
     production_date := production_date p;
     expiration_date := expiration_date p;
     batch_number := batch_number p; qr_code := qr_code p;
     created_at := created_at p; updated_at := updated_at p |}.

Definition set_batch_number (b : string) (p : ProductPackage) : ProductPackage :=
  {| package_id := package_id p; shrimp_product := shrimp_product p;
     farming_company := farming_company p;
     exporting_company := exporting_company p;
     package_weight := package_weight p; quantity := quantity p;
     production_date := production_date p;
     expiration_date := expiration_date p;
     batch_number := b; qr_code := qr_code p;
     created_at := created_at p; updated_at := updated_at p |}.

Definition set_production_date (d : option Z) (p : ProductPackage) : ProductPackage :=
  {| package_id := package_id p; shrimp_product := shrimp_product p;
     farming_company := farming_company p;
     exporting_company := exporting_company p;
     package_weight := package_weight p; quantity := quantity p;
     production_date := d;
     expiration_date := expiration_date p;
     batch_number := batch_number p; qr_code := qr_code p;
     created_at := created_at p; updated_at := updated_at p |}.

Definition set_expiration_date (d : option Z) (p : ProductPackage) : ProductPackage :=
  {| package_id := package_id p; shrimp_product := shrimp_product p;
     farming_company := farming_company p;
     exporting_company := exporting_company p;
     package_weight := package_weight p; quantity := quantity p;
     production_date := production_date p;
     expiration_date := d;
     batch_number := batch_number p; qr_code := qr_code p;
     created_at := created_at p; updated_at := updated_at p |}.

Definition set_qr_code (n : string) (p : ProductPackage) : ProductPackage :=
  {| package_id := package_id p; shrimp_product := shrimp_product p;
     farming_company := farming_company p;
     exporting_company := exporting_company p;
     package_weight := package_weight p; quantity := quantity p;
     production_date := production_date p;
     expiration_date := expiration_date p;
     batch_number := batch_number p; qr_code := n;
     created_at := created_at p; updated_at := updated_at p |}.

Definition set_timestamps (c u : option Z) (p : ProductPackage) : ProductPackage :=
  {| package_id := package_id p; shrimp_product := shrimp_product p;
     farming_company := farming_company p;
     exporting_company := exporting_company p;
     package_weight := package_weight p; quantity := quantity p;
     production_date := production_date p;
     expiration_date := expiration_date p;
     batch_number := batch_number p; qr_code := qr_code p;
     created_at := c; updated_at := u |}.

(** The text block that [generate_qr_code] formats, field by field. *)
Record QrData := {
  qr_batch_number : string;
  qr_product_name : string;
  qr_shrimp_type : string;
  qr_farming_company : string;
  qr_exporting_company : string;
  qr_package_weight : Q;
  qr_quantity : Z;
  qr_total_weight : Q;
  qr_production_date : option Z;
  qr_expiration_date : option Z;
  qr_support_code : string;
}.

(** PNG bytes. *)
Definition Png := list Z.

Record Db := {
  farming_companies : gmap Z Company;
  exporting_companies : gmap Z Company;
  products : gmap Z ShrimpProduct;
  packages : gmap Z ProductPackage;
}.

(** The database, the media storage (which no transaction covers) and how
    many times the clock and the random source have been consulted. *)
Record World := {
  db : Db;
  media : list (string * Png);
  ticks : nat;
  draws : nat;
}.

Definition set_db (d : Db) (w : World) : World :=
  {| db := d; media := media w; ticks := ticks w; draws := draws w |}.

Definition set_products (t : gmap Z ShrimpProduct) (d : Db) : Db :=
  {| farming_companies := farming_companies d;
     exporting_companies := exporting_companies d;
     products := t; packages := packages d |}.

Definition set_packages (t : gmap Z ProductPackage) (d : Db) : Db :=
  {| farming_companies := farming_companies d;
     exporting_companies := exporting_companies d;
     products := products d; packages := t |}.

(** The environment of one run. *)
Record Env := {
  clock : nat -> Z;               (* k-th reading of timezone.now() *)
  urandom : nat -> Z;             (* k-th call of os.urandom(16) *)
  qr_render : QrData -> option Png; (* qrcode + PIL; None when they raise *)
  local_date : Z -> Z;            (* the day of a datetime in settings.TIME_ZONE *)
}.

(** ** Exceptions and the state monad *)

Inductive exn :=
| ProductDoesNotExist      (* ShrimpProduct.DoesNotExist *)
| CompanyDoesNotExist      (* <company model>.DoesNotExist *)
| ValueError
| InvalidOperation         (* decimal.InvalidOperation *)
| ValidationError
| IntegrityError
| DatabaseError
| RenderError              (* whatever the QR pipeline raised *)
| AttributeError
| Http404.

Inductive outcome (A : Type) :=
| Ok (a : A)
| Raise (e : exn).
Arguments Ok {A} a.
Arguments Raise {A} e.

Definition M (A : Type) : Type := World -> outcome A * World.

Definition ret {A} (a : A) : M A := fun w => (Ok a, w).
Definition raise {A} (e : exn) : M A := fun w => (Raise e, w).
Definition bind {A B} (m : M A) (k : A -> M B) : M B :=
  fun w => match m w with
           | (Ok a, w') => k a w'
           | (Raise e, w') => (Raise e, w')
           end.

Declare Scope py_scope.
Delimit Scope py_scope with py.
Notation "x <- m ;; k" := (bind m (fun x => k))
  (at level 20, m at level 99, k at level 200, only parsing) : py_scope.
Notation "'exec' m ;; k" := (bind m (fun _ => k))
  (at level 20, m at level 99, k at level 200, only parsing) : py_scope.
Local Open Scope py_scope.

(** [try: m except e: h e] *)
Definition try_except {A} (m : M A) (h : exn -> M A) : M A :=
  fun w => match m w with
           | (Ok a, w') => (Ok a, w')
           | (Raise e, w') => h e w'
           end.

(** [with transaction.atomic(): m] -- an exception leaving the block rolls
    the database back to what it was on entry and propagates; the media
    storage and the oracles are not rolled back. *)
Definition atomic {A} (m : M A) : M A :=
  fun w => match m w with
           | (Ok a, w') => (Ok a, w')
           | (Raise e, w') => (Raise e, set_db (db w) w')
           end.

Definition get_db : M Db := fun w => (Ok (db w), w).
Definition put_db (d : Db) : M unit := fun w => (Ok tt, set_db d w).

(** ** The object-relational layer and the views *)

(** A POST field as [request.POST.get] and the conversion applied to it see
    it: absent, present but rejected by the conversion, or converted (to an
    integer, or to a finite decimal: the strings [Decimal] reads as NaN or
    an infinity are left out). *)
Inductive field (A : Type) :=
| Missing
| Malformed
| Value (a : A).
Arguments Missing {A}.
Arguments Malformed {A}.
Arguments Value {A} a.

Inductive url := UrlLogin | UrlCreatePackage.

Inductive flash :=
| LoginRequired
| NoProductSelected
| InvalidQuantity
| InsufficientStock (available : Q)
| ProductNotFound.

Inductive response :=
| Redirect (to : url) (msg : flash)
| Summary (package : ProductPackage) (package_count : Z)
          (package_weight total_weight original_weight remaining_weight : Q).

Inductive json := JsonSuccess.

Record Request := {
  session_company_id : option Z;
  session_company_type : option string;
  POST_shrimp_product : option Z;
  POST_package_weight : field Q;
  POST_package_count : field Z;
}.

Record EditRequest := {
  POST_product_name : option string;
  POST_weight : field Q;
  POST_price : field Q;
}.

(** What [CreatePackageView.post] holds in local variables when it reaches
    [with transaction.atomic()]. *)
Record Checked := {
  ck_company : Z;
  ck_product_id : Z;
  ck_product : ShrimpProduct;
  ck_weight : Q;
  ck_count : Z;
  ck_total : Q;
}.

(** Primary key handed out by the database on INSERT: a key above every key
    in the table.  Statements about an inserted row ask of its key only that
    it was not in use. *)
Definition next_pk {A} (t : gmap Z A) : Z :=
  1 + foldr Z.max 0 ((map_to_list t).*1).

(** A [unique=True] column: does a row other than [k] hold [v]? *)
Definition taken {A} (col : A -> string) (t : gmap Z A) (k : Z) (v : string) : bool :=
  bool_decide (map_Exists (fun k' row => k' <> k /\ col row = v) t).

Definition date (t : Z) : Z := t / 86400.

(** The nearest integer, a tie going to the even one: [ROUND_HALF_EVEN], the
    rounding of the default decimal context. *)
Definition round_half_even (q : Q) : Z :=
  let f := Qfloor q in
  match (q - inject_Z f ?= 1 # 2)%Q with
  | Lt => f
  | Gt => f + 1
  | Eq => if Z.even f then f else f + 1
  end.

(** What a [DecimalField(max_digits, decimal_places)] column gives back of a
    value written to it: the value rounded to [decimal_places] places, and
    nothing when that takes more than [max_digits] digits. *)
Definition DecimalField (max_digits decimal_places : Z) (q : Q) : option Q :=
  let z := round_half_even (q * inject_Z (10 ^ decimal_places)) in
  if Z.abs z <? 10 ^ max_digits
  then Some (inject_Z z / inject_Z (10 ^ decimal_places))%Q
  else None.

Section Program.
Context (env : Env).

Definition now : M Z :=
  fun w => (Ok (clock env (ticks w)),
            {| db := db w; media := media w;
               ticks := S (ticks w); draws := draws w |}).

Definition os_urandom16 : M Z :=
  fun w => (Ok (urandom env (draws w)),
            {| db := db w; media := media w;
               ticks := ticks w; draws := S (draws w) |}).

(** [FileField.save(name, content, save=False)]: the file goes to the media
    storage, which is taken to keep the requested name.  A storage that
    already holds a file of that name picks another; statements about the
    name of a stored file ask that the storage holds none of that name. *)
Definition storage_save (name : string) (content : Png) : M string :=
  fun w => (Ok name,
            {| db := db w; media := (name, content) :: media w;
               ticks := ticks w; draws := draws w |}).

Definition related {A} (tbl : Db -> gmap Z A) (k : Z) (e : exn) : M A :=
  d <- get_db;;
  match tbl d !! k with
  | Some a => ret a
  | None => raise e
  end.

(** *** shrimp_panel/models.py *)

Definition ShrimpProduct_get (k : Z) : M ShrimpProduct :=
  p <- related products k ProductDoesNotExist;;
  ret (set_product_id (Some k) p).

(** [models.Model.save] on a product: UPDATE the row of its key, or INSERT
    under a new key; the unique index on [support_code] rejects a value
    another row holds. *)
Definition ShrimpProduct_super_save (self : ShrimpProduct) : M ShrimpProduct :=
  d <- get_db;;
  let k := match product_id self with
           | Some k => k
           | None => next_pk (products d)
           end in
  if taken support_code (products d) k (support_code self)
  then raise IntegrityError
  else
    let self := set_product_id (Some k) self in
    exec put_db (set_products (<[k := self]> (products d)) d);;
    ret self.

(** [if not self.support_code: self.support_code = ...] *)
Definition ShrimpProduct_assign_code (self : ShrimpProduct) : M ShrimpProduct :=
  if decide (support_code self = ""%string)
  then r <- os_urandom16;;
       ret (set_support_code (Ident.new_support_code r) self)
  else ret self.

Definition ShrimpProduct_save (self : ShrimpProduct) : M ShrimpProduct :=
  self <- ShrimpProduct_assign_code self;;
  ShrimpProduct_super_save self.

(** *** export_panel/models.py *)

Definition qr_code_path (instance : ProductPackage) (filename : string) : string :=
  ("qrcodes/" +:+ batch_number instance +:+ "_" +:+ filename)%string.

Definition default_expiration_date : M Z :=
  t <- now;;
  ret (date t + 365).

(** [models.Model.save] on a package.  An existing row is UPDATEd and
    [auto_now] refreshes [updated_at]; otherwise the row is INSERTed and
    [auto_now_add] / [auto_now] stamp both columns.  The unique index on
    [batch_number] rejects a value another row holds. *)
Definition ProductPackage_super_save (self : ProductPackage) : M ProductPackage :=
  d <- get_db;;
  let existing := match package_id self with
                  | Some k => match packages d !! k with
                              | Some _ => Some k
                              | None => None
                              end
                  | None => None
                  end in
  match existing with
  | Some k =>
      t <- now;;
      let self := set_timestamps (created_at self) (Some t) self in
      if taken batch_number (packages d) k (batch_number self)
      then raise IntegrityError
      else
        exec put_db (set_packages (<[k := self]> (packages d)) d);;
        ret self
  | None =>
      t1 <- now;;
      t2 <- now;;
      let k := match package_id self with
               | Some k => k
               | None => next_pk (packages d)
               end in
      let self := set_package_id (Some k) (set_timestamps (Some t1) (Some t2) self) in
      if taken batch_number (packages d) k (batch_number self)
      then raise IntegrityError
      else
        exec put_db (set_packages (<[k := self]> (packages d)) d);;
        ret self
  end.

(** [super().save(update_fields=['qr_code'])]: one column of one row. *)
Definition ProductPackage_save_qr_code (self : ProductPackage) : M ProductPackage :=
  match package_id self with
  | None => raise ValueError
  | Some k =>
      d <- get_db;;
      match packages d !! k with
      | None => raise DatabaseError
      | Some row =>
          exec put_db (set_packages
                         (<[k := set_qr_code (qr_code self) row]> (packages d)) d);;
          ret self
      end
  end.

(** The [qr_data] f-string of [generate_qr_code]. *)
Definition qr_payload (self : ProductPackage) (product : ShrimpProduct)
    (farming exporting : Company) : QrData :=
  let total_weight := (package_weight self * inject_Z (quantity self))%Q in
  {| qr_batch_number := batch_number self;
     qr_product_name := product_name product;
     qr_shrimp_type := shrimp_type product;
     qr_farming_company := company_name farming;
     qr_exporting_company := company_name exporting;
     qr_package_weight := package_weight self;
     qr_quantity := quantity self;
     qr_total_weight := total_weight;
     qr_production_date := production_date self;
     qr_expiration_date := expiration_date self;
     qr_support_code := support_code product |}.

Definition generate_qr_code (self : ProductPackage) : M ProductPackage :=
  product <- related products (shrimp_product self) ProductDoesNotExist;;
  farming <- related farming_companies (farming_company self) CompanyDoesNotExist;;
  exporting <- related exporting_companies (exporting_company self) CompanyDoesNotExist;;
  let qr_data := qr_payload self product farming exporting in
  img <- match qr_render env qr_data with
         | Some img => ret img
         | None => raise RenderError
         end;;
  let filename := ("qr_code_" +:+ batch_number self +:+ ".png")%string in
  name <- storage_save (qr_code_path self filename) img;;
  let self := set_qr_code name self in
  ProductPackage_save_qr_code self.

Definition ProductPackage_save (self : ProductPackage) : M ProductPackage :=
  self <- (if decide (batch_number self = ""%string)
           then r <- os_urandom16;;
                ret (set_batch_number (Ident.new_batch_number r) self)
           else ret self);;
  self <- match production_date self with
          | None => t <- now;; ret (set_production_date (Some (date t)) self)
          | Some _ => ret self
          end;;
  self <- match expiration_date self with
          | None => ret (set_expiration_date
                           ((fun d => d + 365) <$> production_date self) self)
          | Some _ => ret self
          end;;
  self <- ProductPackage_super_save self;;
  if decide (qr_code self = ""%string)
  then generate_qr_code self
  else ret self.

(** [ProductPackage(...)] with keyword arguments: a date keyword that is
    absent gets the field default ([timezone.now] and
    [default_expiration_date], called in field order); one that is present is
    taken as given, [None] included.  The production default is a datetime:
    the [DateField] stores its day in [settings.TIME_ZONE], which is the value
    the row carries here, whereas [default_expiration_date] takes the day with
    [timezone.now().date()]. *)
Definition ProductPackage_init (shrimp_product farming_company exporting_company : Z)
    (package_weight : Q) (quantity : Z)
    (production_date expiration_date : option (option Z)) : M ProductPackage :=
  production_date <- match production_date with
                     | Some d => ret d
                     | None => t <- now;; ret (Some (local_date env t))
                     end;;
  expiration_date <- match expiration_date with
                     | Some d => ret d
                     | None => d <- default_expiration_date;; ret (Some d)
                     end;;
  ret {| package_id := None; shrimp_product := shrimp_product;
         farming_company := farming_company;
         exporting_company := exporting_company;
         package_weight := package_weight; quantity := quantity;
         production_date := production_date;
         expiration_date := expiration_date;
         batch_number := ""; qr_code := "";
         created_at := None; updated_at := None |}.

(** [ProductPackage.objects.create(...)] *)
Definition ProductPackage_create (shrimp_product farming_company exporting_company : Z)
    (package_weight : Q) (quantity : Z)
    (production_date expiration_date : option (option Z)) : M ProductPackage :=
  obj <- ProductPackage_init shrimp_product farming_company exporting_company
           package_weight quantity production_date expiration_date;;
  ProductPackage_save obj.

(** *** export_panel/views.py *)

Definition get_company_from_session (request : Request) : M (option Z) :=
  match session_company_id request, session_company_type request with
  | Some company_id, Some company_type =>
      if negb (company_id =? 0) && String.eqb company_type "export"
      then try_except
             (exec related exporting_companies company_id CompanyDoesNotExist;;
              ret (Some company_id))
             (fun e => match e with
                       | CompanyDoesNotExist => ret None
                       | _ => raise e
                       end)
      else ret None
  | _, _ => ret None
  end.

(** [Decimal(request.POST.get(key, '0'))] and [int(request.POST.get(key, '0'))] *)
Definition Decimal (f : field Q) : M Q :=
  match f with
  | Missing => ret 0%Q
  | Malformed => raise InvalidOperation
  | Value q => ret q
  end.

Definition int (f : field Z) : M Z :=
  match f with
  | Missing => ret 0
  | Malformed => raise ValueError
  | Value n => ret n
  end.

(** The [except] clauses of [CreatePackageView.post].  The second clause
    names [Decimal.InvalidOperation], an attribute the [Decimal] class does
    not have: whenever the first clause does not match, evaluating the
    second raises [AttributeError], which leaves the view. *)
Definition post_except (e : exn) : M response :=
  match e with
  | ProductDoesNotExist => ret (Redirect UrlCreatePackage ProductNotFound)
  | _ => raise AttributeError
  end.

(** The body of the [try] up to the stock check. *)
Definition post_validate (request : Request) (company_id shrimp_product_id : Z)
  : M (response + Checked) :=
  package_weight <- Decimal (POST_package_weight request);;
  package_count <- int (POST_package_count request);;
  if Qle_bool package_weight 0 || (package_count <=? 0)
  then ret (inl (Redirect UrlCreatePackage InvalidQuantity))
  else
    shrimp_product <- ShrimpProduct_get shrimp_product_id;;
    let total_weight_needed := (package_weight * inject_Z package_count)%Q in
    if negb (Qle_bool total_weight_needed (weight shrimp_product))
    then ret (inl (Redirect UrlCreatePackage
                     (InsufficientStock (weight shrimp_product))))
    else ret (inr {| ck_company := company_id;
                     ck_product_id := shrimp_product_id;
                     ck_product := shrimp_product;
                     ck_weight := package_weight;
                     ck_count := package_count;
                     ck_total := total_weight_needed |}).

(** The rest of the [try]: the atomic block and the summary page. *)
Definition post_transaction (c : Checked) : M response :=
  let shrimp_product := ck_product c in
  let original_weight := weight shrimp_product in
  r <- atomic
         (today <- now;;
          today' <- now;;
          package <- ProductPackage_create
                       (ck_product_id c) (company shrimp_product) (ck_company c)
                       (ck_weight c) (ck_count c)
                       (Some (Some (date today)))
                       (Some (Some (date today' + 365)));;
          shrimp_product <- ShrimpProduct_save
                              (set_weight (weight shrimp_product - ck_total c)%Q
                                          shrimp_product);;
          ret (package, shrimp_product));;
  let remaining_weight := weight (snd r) in
  ret (Summary (fst r) (ck_count c) (ck_weight c) (ck_total c)
               original_weight remaining_weight).

Definition post (request : Request) : M response :=
  company <- get_company_from_session request;;
  match company with
  | None => ret (Redirect UrlLogin LoginRequired)
  | Some company_id =>
      match POST_shrimp_product request with
      | None => ret (Redirect UrlCreatePackage NoProductSelected)
      | Some shrimp_product_id =>
          try_except
            (v <- post_validate request company_id shrimp_product_id;;
             match v with
             | inl r => ret r
             | inr c => post_transaction c
             end)
            post_except
      end
  end.

(** *** shrimp_panel/views.py *)

Definition get_object_or_404 (k : Z) : M ShrimpProduct :=
  try_except (ShrimpProduct_get k)
    (fun e => match e with
              | ProductDoesNotExist => raise Http404
              | _ => raise e
              end).

(** [DecimalField.to_python] on what [request.POST.get(key, 0)] returned. *)
Definition to_python (f : field Q) : M Q :=
  match f with
  | Missing => ret 0%Q
  | Malformed => raise ValidationError
  | Value q => ret q
  end.

(** [EditProductView.post].  The weight and price are assigned as received
    and converted when [save] writes the row, after [save] has looked at
    the support code. *)
Definition EditProductView_post (product_id : Z) (request : EditRequest) : M json :=
  product <- get_object_or_404 product_id;;
  let product :=
    set_product_name (default ""%string (POST_product_name request)) product in
  product <- ShrimpProduct_assign_code product;;
  weight <- to_python (POST_weight request);;
  price <- to_python (POST_price request);;
  exec ShrimpProduct_super_save (set_price price (set_weight weight product));;
  ret JsonSuccess.

(** *** export_panel/admin.py *)

Fixpoint generate_each (queryset : list ProductPackage) (updated_count : Z) : M Z :=
  match queryset with
  | [] => ret updated_count
  | package :: queryset =>
      exec generate_qr_code package;;
      generate_each queryset (updated_count + 1)
  end.

Definition generate_qr_codes (selected : list Z) : M Z :=
  d <- get_db;;
  let queryset :=
    omap (fun k => set_package_id (Some k) <$> packages d !! k) selected in
  generate_each queryset 0.

End Program.

(** ** Threads: concurrent requests

    A request reads what it needs outside any transaction and only then
    enters [transaction.atomic()].  The two halves are the atomic steps of
    a thread; a schedule says which thread moves next. *)

Section Threads.
Context (env : Env).

(** [post] from its first line to the stock check, handlers included. *)
Definition post_check (request : Request) : M (response + Checked) :=
  company <- get_company_from_session request;;
  match company with
  | None => ret (inl (Redirect UrlLogin LoginRequired))
  | Some company_id =>
      match POST_shrimp_product request with
      | None => ret (inl (Redirect UrlCreatePackage NoProductSelected))
      | Some shrimp_product_id =>
          try_except
            (post_validate request company_id shrimp_product_id)
            (fun e => r <- post_except e;; ret (inl r))
      end
  end.

(** [post] from [with transaction.atomic()] on, handlers included. *)
Definition post_commit (c : Checked) : M response :=
  try_except (post_transaction env c) post_except.

Inductive thread :=
| Pending (request : Request)
| InTransaction (c : Checked)
| Finished (o : outcome response).

Definition thread_step (t : thread) (w : World) : thread * World :=
  match t with
  | Pending request =>
      match post_check request w with
      | (Ok (inl r), w') => (Finished (Ok r), w')
      | (Ok (inr c), w') => (InTransaction c, w')
      | (Raise e, w') => (Finished (Raise e), w')
      end
  | InTransaction c =>
      match post_commit c w with
      | (o, w') => (Finished o, w')
      end
  | Finished o => (Finished o, w)
  end.

Fixpoint run_schedule (schedule : list nat) (threads : list thread) (w : World)
  : list thread * World :=
  match schedule with
  | [] => (threads, w)
  | i :: schedule =>
      match threads !! i with
      | None => run_schedule schedule threads w
      | Some t =>
          let (t', w') := thread_step t w in
          run_schedule schedule (<[i := t']> threads) w'
      end
  end.

End Threads.

(** ** Requests in sequence

    Each request is served to completion; an exception leaving a view is
    the server's error page and the next request goes on from the world as
    it then is. *)

Record PackageEdits := {
  new_package_weight : Q;
  new_production_date : Z;
  new_expiration_date : Z;
  clear_qr_code : bool;
}.

Inductive action :=
| CreatePackage (request : Request)                 (* CreatePackageView.post *)
| EditProduct (product_id : Z) (request : EditRequest) (* EditProductView.post *)
| GenerateQrCodes (selected : list Z)               (* admin action *)
| ChangePackage (k : Z) (edits : PackageEdits).     (* admin change form *)

Section Server.
Context (env : Env).

(** [ProductPackageAdmin]'s change form: [batch_number] is among the
    [readonly_fields], the submitted fields are assigned and [save] runs.
    The submissions modelled are those that leave the product, the two
    companies and the quantity of the package as they are; the form can
    change these too. *)
Definition change_package (k : Z) (edits : PackageEdits) : M ProductPackage :=
  row <- related packages k Http404;;
  let obj := set_package_id (Some k) row in
  let obj := set_expiration_date (Some (new_expiration_date edits))
               (set_production_date (Some (new_production_date edits)) obj) in
  let obj :=
    {| package_id := package_id obj; shrimp_product := shrimp_product obj;
       farming_company := farming_company obj;
       exporting_company := exporting_company obj;
       package_weight := new_package_weight edits; quantity := quantity obj;
       production_date := production_date obj;
       expiration_date := expiration_date obj;
       batch_number := batch_number obj;
       qr_code := if clear_qr_code edits then ""%string else qr_code obj;
       created_at := created_at obj; updated_at := updated_at obj |} in
  ProductPackage_save env obj.

Definition serve (a : action) (w : World) : World :=
  match a with
  | CreatePackage request => snd (post env request w)
  | EditProduct product_id request => snd (EditProductView_post env product_id request w)
  | GenerateQrCodes selected => snd (generate_qr_codes env selected w)
  | ChangePackage k edits => snd (change_package k edits w)
  end.

Definition serve_all (actions : list action) (w : World) : World :=
  foldl (fun w a => serve a w) w actions.

(** A run of package-creation requests, with the responses it produced. *)
Fixpoint post_all (requests : list Request) (w : World)
  : list (outcome response) * World :=
  match requests with
  | [] => ([], w)
  | request :: requests =>
      let (o, w') := post env request w in
      let (os, w'') := post_all requests w' in
      (o :: os, w'')
  end.

End Server.

(** ** Properties of states *)

(** [q] is a value of a [DecimalField(max_digits, decimal_places)] column: a
    number of hundredths (for two places) that fits the width.  Such a value
    is read back as it was written ([in_column_DecimalField]). *)
Definition in_column (max_digits decimal_places : Z) (q : Q) : Prop :=
  exists z : Z,
    Z.abs z < 10 ^ max_digits /\
    (q == inject_Z z / inject_Z (10 ^ decimal_places))%Q.

(** The numbers of a package-creation request are values of the columns they
    are written to: [package_weight] is [DecimalField(8, 2)] and [quantity]
    a [PositiveIntegerField].  The product of two such numbers has fewer
    than 28 digits, so the view computes it exactly. *)
Definition fits_columns (request : Request) : Prop :=
  (forall uw, POST_package_weight request = Value uw -> in_column 8 2 uw) /\
  (forall n, POST_package_count request = Value n -> n <= 2147483647).

Definition unique_on {A} (col : A -> string) (t : gmap Z A) : Prop :=
  forall i j a b, t !! i = Some a -> t !! j = Some b -> col a = col b -> i = j.

(** The declared constraints the views lean on: the two [unique=True]
    columns, the product's foreign key to its farming company, and that
    every stored product went through [save] and so carries a code. *)
Record db_constraints (d : Db) : Prop := {
  support_code_unique : unique_on support_code (products d);
  support_code_assigned :
    forall k p, products d !! k = Some p -> support_code p <> ""%string;
  batch_number_unique : unique_on batch_number (packages d);
  product_company_exists :
    forall k p, products d !! k = Some p ->
                is_Some (farming_companies d !! company p);
}.

Definition logged_in (request : Request) (d : Db) (company_id : Z) : Prop :=
  session_company_id request = Some company_id /\
  company_id <> 0 /\
  session_company_type request = Some "export"%string /\
  is_Some (exporting_companies d !! company_id).

Definition is_summary (o : outcome response) : bool :=
  match o with
  | Ok (Summary _ _ _ _ _ _) => true
  | _ => false
  end.

(** [packageWeight * quantity] of the package a summary page reports. *)
Definition summary_total (o : outcome response) : Q :=
  match o with
  | Ok (Summary package _ _ _ _ _) =>
      (package_weight package * inject_Z (quantity package))%Q
  | _ => 0%Q
  end.

Definition sumQ (l : list Q) : Q := foldr Qplus 0%Q l.

(** [packageWeight * quantity] of a package row. *)
Definition total_weight (pkg : ProductPackage) : Q :=
  (package_weight pkg * inject_Z (quantity pkg))%Q.

(** Did a thread end on the summary page, and what did it deduct? *)
Definition succeeded (t : thread) : bool :=
  match t with
  | Finished o => is_summary o
  | _ => false
  end.

Definition deducted (t : thread) : Q :=
  match t with
  | Finished o => summary_total o
  | _ => 0%Q
  end.

Definition nonneg_weights (d : Db) : Prop :=
  map_Forall (fun _ p => (0 <= weight p)%Q) (products d).

Definition batch_numbers_ok (d : Db) : Prop :=
  unique_on batch_number (packages d) /\
  map_Forall (fun _ p => Ident.batch_format Ident.is_upper_alnum (batch_number p) = true)
             (packages d).

(** The world after two readings of the clock. *)
Definition tick2 (w : World) : World :=
  {| db := db w; media := media w; ticks := S (S (ticks w)); draws := draws w |}.

(** The row [ProductPackage.objects.create] inserts in world [w] when both
    dates are given, before any QR artifact is attached. *)
Definition inserted_package (env : Env) (w : World) (pid fc ec : Z)
    (uw : Q) (n : Z) (d1 d2 : Z) : ProductPackage :=
  {| package_id := Some (next_pk (packages (db w)));
     shrimp_product := pid; farming_company := fc; exporting_company := ec;
     package_weight := uw; quantity := n;
     production_date := Some d1; expiration_date := Some d2;
     batch_number := Ident.new_batch_number (urandom env (draws w));
     qr_code := "";
     created_at := Some (clock env (ticks w));
     updated_at := Some (clock env (S (ticks w))) |}.

(** What the view knows about the product when the stock check passes. *)
Definition checked_for (request : Request) (w : World) (c : Checked) : Prop :=
  exists p,
    POST_shrimp_product request = Some (ck_product_id c) /\
    products (db w) !! ck_product_id c = Some p /\
    ck_product c = set_product_id (Some (ck_product_id c)) p /\
    ck_total c = (ck_weight c * inject_Z (ck_count c))%Q /\
    (0 < ck_weight c)%Q /\ 0 < ck_count c /\
    (ck_total c <= weight p)%Q.

(** What a finished atomic block of the view has done. *)
Definition committed (env : Env) (c : Checked) (w w' : World) (o : outcome response) : Prop :=
  let k := next_pk (packages (db w)) in
  exists pkg sp data img,
    o = Ok (Summary pkg (ck_count c) (ck_weight c) (ck_total c)
              (weight (ck_product c)) (weight (ck_product c) - ck_total c)%Q) /\
    package_id pkg = Some k /\
    shrimp_product pkg = ck_product_id c /\
    package_weight pkg = ck_weight c /\
    quantity pkg = ck_count c /\
    batch_number pkg = Ident.new_batch_number (urandom env (draws w)) /\
    taken batch_number (packages (db w)) k (batch_number pkg) = false /\
    qr_render env data = Some img /\
    qr_batch_number data = batch_number pkg /\
    qr_code pkg <> ""%string /\
    sp = set_support_code (support_code sp)
           (set_weight (weight (ck_product c) - ck_total c)%Q (ck_product c)) /\
    (support_code (ck_product c) <> ""%string ->
     support_code sp = support_code (ck_product c)) /\
    taken support_code (products (db w)) (ck_product_id c) (support_code sp) = false /\
    db w' = set_products (<[ck_product_id c := sp]> (products (db w)))
              (set_packages (<[k := pkg]> (packages (db w))) (db w)).

(** The weight an edit request asks for, once converted. *)
Definition submitted_weight (request : EditRequest) : option Q :=
  match POST_weight request with
  | Missing => Some 0%Q
  | Malformed => None
  | Value q => Some q
  end.

(** Package tables that agree except for [qr_code] values. *)
Definition same_but_qr (t t' : gmap Z ProductPackage) : Prop :=
  forall k,
    (t !! k = None /\ t' !! k = None) \/
    (exists row name, t !! k = Some row /\ t' !! k = Some (set_qr_code name row)).

(** Every row of [t] is still in [t'] under its batch number. *)
Definition keeps_batch_numbers (t t' : gmap Z ProductPackage) : Prop :=
  forall k p, t !! k = Some p ->
              exists p', t' !! k = Some p' /\ batch_number p' = batch_number p.

(** The edits of a run that submit a weight submit a non-negative one. *)
Definition edit_weights_nonneg (a : action) : Prop :=
  match a with
  | EditProduct _ request =>
      forall q, submitted_weight request = Some q -> (0 <= q)%Q
  | _ => True
  end.

(** The same environment with another QR renderer. *)
Definition with_render (render : QrData -> option Png) (env : Env) : Env :=
  {| clock := clock env; urandom := urandom env; qr_render := render;
     local_date := local_date env |}.

(** ** Scenarios *)

Module Scenario.

Definition env_ok : Env :=
  {| clock := fun k => 1700000000 + Z.of_nat k;
     urandom := fun k => Z.shiftl (Z.of_nat k) 96;
     qr_render := fun _ => Some [137; 80; 78; 71];
     local_date := date |}.

(** The renderer raises on every payload. *)
Definition env_no_render : Env := with_render (fun _ => None) env_ok.



Definition tiger : ShrimpProduct :=
  {| product_id := Some 3; company := 1; product_name := "Tiger";
     weight := 100; shrimp_type := "tiger"; price := 5;
     support_code := "AB12CD34" |}.

Definition shop : Db :=
  {| farming_companies := {[ 1 := {| company_name := "Farm" |} ]};
     exporting_companies := {[ 7 := {| company_name := "Exporter" |} ]};
     products := {[ 3 := tiger ]};
     packages := ∅ |}.

Definition world : World := {| db := shop; media := []; ticks := 0; draws := 0 |}.

Definition request (unit_weight : Q) (count : Z) : Request :=
  {| session_company_id := Some 7;
     session_company_type := Some "export"%string;
     POST_shrimp_product := Some 3;
     POST_package_weight := Value unit_weight;
     POST_package_count := Value count |}.

(** A shop that already holds the package [BATCH-0000000000], the number
    the next draw of [env_ok] produces. *)
Definition old_package : ProductPackage :=
  {| package_id := Some 1; shrimp_product := 3; farming_company := 1;
     exporting_company := 7; package_weight := 1; quantity := 1;
     production_date := Some 19000; expiration_date := Some 19365;
     batch_number := "BATCH-0000000000"; qr_code := "qrcodes/old.png";
     created_at := Some 1600000000; updated_at := Some 1600000000 |}.

Definition shop_with_package : Db := set_packages {[ 1 := old_package ]} shop.

Definition world_with_package : World :=
  {| db := shop_with_package; media := []; ticks := 0; draws := 0 |}.




Definition negative_edit : EditRequest :=
  {| POST_product_name := Some "Tiger"%string;
     POST_weight := Value (-5)%Q; POST_price := Value 5%Q |}.

End Scenario.

(** ** Further properties of states *)

(** A thread inside its transaction holds a snapshot of the product that
    passed the stock check. *)
Definition thread_ok (t : thread) : Prop :=
  match t with
  | InTransaction c =>
      product_id (ck_product c) = Some (ck_product_id c) /\
      (ck_total c <= weight (ck_product c))%Q
  | _ => True
  end.

(** Every product has a support code and no two share one. *)
Definition support_codes_ok (d : Db) : Prop :=
  unique_on support_code (products d) /\
  forall k p, products d !! k = Some p -> support_code p <> ""%string.

(** Every product of [t] is still in [t'] under its support code. *)
Definition keeps_support_codes (t t' : gmap Z ShrimpProduct) : Prop :=
  forall k p, t !! k = Some p ->
              exists p', t' !! k = Some p' /\ support_code p' = support_code p.

(** The price an edit request asks for, once converted. *)
Definition submitted_price (request : EditRequest) : option Q :=
  match POST_price request with
  | Missing => Some 0%Q
  | Malformed => None
  | Value q => Some q
  end.

(** The row [EditProductView.post] writes over row [k] holding [p]. *)
Definition edited_product (request : EditRequest) (q pr : Q) (k : Z)
    (p : ShrimpProduct) : ShrimpProduct :=
  set_price pr
    (set_weight q
       (set_product_name (default ""%string (POST_product_name request))
          (set_product_id (Some k) p))).

(** The name [generate_qr_code] asks the storage for, for batch number [b]:
    [upload_to] applied to [qr_code_<b>.png]. *)
Definition artifact_name (b : string) : string :=
  ("qrcodes/" +:+ b +:+ "_" +:+ "qr_code_" +:+ b +:+ ".png")%string.

(** The package the creation view stores for a checked request [c] entered
    in world [w]: the inserted row with its artifact attached. *)
Definition created_package (env : Env) (w : World) (c : Checked) : ProductPackage :=
  let row := inserted_package env (tick2 w)
               (ck_product_id c) (company (ck_product c)) (ck_company c)
               (ck_weight c) (ck_count c)
               (date (clock env (ticks w)))
               (date (clock env (S (ticks w))) + 365) in
  set_qr_code
    (qr_code_path row ("qr_code_" +:+ batch_number row +:+ ".png")%string) row.


Module Scenario2.

(** An edit that sends a new name only. *)
Definition rename_only : EditRequest :=
  {| POST_product_name := Some "Tiger XL"%string;
     POST_weight := Missing; POST_price := Missing |}.


(** The exporter's request for 5 kg x 10 of product 3 has passed the stock
    check against the 100 kg the shop holds. *)
Definition checked : Checked :=
  {| ck_company := 7; ck_product_id := 3; ck_product := Scenario.tiger;
     ck_weight := 5; ck_count := 10; ck_total := 5 * inject_Z 10 |}.

(** Meanwhile the farmer renames the product and restocks it to 500 kg. *)
Definition restock : EditRequest :=
  {| POST_product_name := Some "Tiger XL"%string;
     POST_weight := Value 500%Q; POST_price := Value 9%Q |}.

Definition restocked_world : World :=
  serve Scenario.env_ok (EditProduct 3 restock) Scenario.world.

End Scenario2.

(** ** Purchase requests, product registration and deletion

    The views around package creation: an exporter asks for a product
    ([page/views.py]), the farming company that owns it approves, rejects or
    deletes the request, registers products and deletes them
    ([shrimp_panel/views.py]), and the exporter's packaging page lists what
    has been approved ([export_panel/views.py]). *)

Module Market.

(** [shrimp_panel.models.RequestsProduct].  [status] is a [CharField]; its
    [choices] are checked by forms only, [save] stores any string. *)
Record RequestsProduct := {
  request_support_code : string;
  buyer_company : Z;
  product : Z;
  owner_company : Z;
  status : string;
  operation_date : option Z;
}.

Definition set_status (s : string) (r : RequestsProduct) : RequestsProduct :=
  {| request_support_code := request_support_code r;
     buyer_company := buyer_company r; product := product r;
     owner_company := owner_company r; status := s;
     operation_date := operation_date r |}.

Definition set_operation_date (t : option Z) (r : RequestsProduct) : RequestsProduct :=
  {| request_support_code := request_support_code r;
     buyer_company := buyer_company r; product := product r;
     owner_company := owner_company r; status := status r;
     operation_date := t |}.

(** [request.session] *)
Record Session := {
  company_id : option Z;
  company_type : option string;
}.

(** What the request views read of an [HttpRequest]. *)
Record HttpRequest := {
  method : string;
  session : Session;
  X_Requested_With : option string;
}.

(** The fields of [ShrimpProductForm] as the form's cleaning leaves them. *)
Record ProductForm := {
  form_product_name : field string;
  form_weight : field Q;
  form_shrimp_type : field string;
  form_price : field Q;
}.

(** The world together with the table of purchase requests. *)
Record Site := {
  world : World;
  requests : gmap Z RequestsProduct;
}.

Definition View (A : Type) : Type := Site -> outcome A * Site.

Definition vret {A} (a : A) : View A := fun s => (Ok a, s).
Definition vraise {A} (e : exn) : View A := fun s => (Raise e, s).
Definition vbind {A B} (m : View A) (k : A -> View B) : View B :=
  fun s => match m s with
           | (Ok a, s') => k a s'
           | (Raise e, s') => (Raise e, s')
           end.

(** A computation on the world, run inside a site. *)
Definition lift {A} (m : M A) : View A :=
  fun s => let (o, w) := m (world s) in
           (o, {| world := w; requests := requests s |}).

Definition get_requests : View (gmap Z RequestsProduct) :=
  fun s => (Ok (requests s), s).
Definition put_requests (t : gmap Z RequestsProduct) : View unit :=
  fun s => (Ok tt, {| world := world s; requests := t |}).

Declare Scope view_scope.
Notation "x <- m ;; k" := (vbind m (fun x => k))
  (at level 20, m at level 99, k at level 200, only parsing) : view_scope.
Notation "'exec' m ;; k" := (vbind m (fun _ => k))
  (at level 20, m at level 99, k at level 200, only parsing) : view_scope.
Local Open Scope view_scope.

Inductive page := PageLogin | PageProduct | PageRequestsList | PageAddProduct.

Inductive notice :=
| PleaseLogin
| OnlyExporters
| ExporterNotFound
| RequestRegistered
| InvalidRequest
| NoCompany
| StatusChanged
| RequestDeleted
| ProductRegistered
| ProductRejected.

Inductive reply :=
| RedirectTo (to : page) (msg : notice)
| JsonResponse (success : bool) (msg : option notice)
| RenderPurchased (purchased_products : gmap Z ShrimpProduct)
| RenderForm (msg : notice).

(** [not company_id] *)
Definition truthy (company_id : option Z) : option Z :=
  match company_id with
  | Some k => if k =? 0 then None else Some k
  | None => None
  end.

Section Views.
Context (env : Env).

(** [RequestsProduct.objects.create]: [auto_now_add] stamps
    [operation_date], the row goes in under a new key, and the database
    refuses a foreign key that points at no row. *)
Definition RequestsProduct_objects_create (r : RequestsProduct) : View RequestsProduct :=
  t <- lift (now env);;
  d <- lift get_db;;
  rs <- get_requests;;
  match exporting_companies d !! buyer_company r,
        products d !! product r,
        farming_companies d !! owner_company r with
  | Some _, Some _, Some _ =>
      let r := set_operation_date (Some t) r in
      exec put_requests (<[next_pk rs := r]> rs);;
      vret r
  | _, _, _ => vraise IntegrityError
  end.

(** *** page/views.py *)

(** [RequestProductView.post] *)
Definition RequestProductView_post (session : Session) (product_id : Z) : View reply :=
  match company_type session, truthy (company_id session) with
  | Some company_type, Some company_id =>
      if String.eqb company_type "export"
      then
        d <- lift get_db;;
        match exporting_companies d !! company_id with
        | None => vret (RedirectTo PageProduct ExporterNotFound)
        | Some _ =>
            product <- lift (get_object_or_404 product_id);;
            exec RequestsProduct_objects_create
                 {| request_support_code := support_code product;
                    buyer_company := company_id;
                    product := product_id;
                    owner_company := company product;
                    status := "pending";
                    operation_date := None |};;
            vret (RedirectTo PageProduct RequestRegistered)
        end
      else vret (RedirectTo PageProduct OnlyExporters)
  | _, _ => vret (RedirectTo PageProduct OnlyExporters)
  end.

(** *** shrimp_panel/views.py *)

(** [get_object_or_404(ShrimpFarmingCompany, id=company_id)] *)
Definition get_farming_company_or_404 (company_id : Z) : View Z :=
  exec lift (related farming_companies company_id Http404);;
  vret company_id.

(** [get_object_or_404(RequestsProduct, pk=pk, owner_company=farming_company)] *)
Definition get_request_or_404 (pk : Z) (farming_company : Z) : View RequestsProduct :=
  rs <- get_requests;;
  match rs !! pk with
  | Some r => if owner_company r =? farming_company then vret r else vraise Http404
  | None => vraise Http404
  end.

(** [request_obj.save()] on a fetched row: an UPDATE of that row. *)
Definition RequestsProduct_save (pk : Z) (r : RequestsProduct) : View unit :=
  rs <- get_requests;;
  put_requests (<[pk := r]> rs).

(** [request_obj.delete()]; no model refers to a request. *)
Definition RequestsProduct_delete (pk : Z) : View unit :=
  rs <- get_requests;;
  put_requests (delete pk rs).

Definition update_request_status (request : HttpRequest) (pk : Z) (new_status : string)
  : View reply :=
  if negb (String.eqb (method request) "POST")
  then vret (JsonResponse false (Some InvalidRequest))
  else
    match truthy (company_id (session request)) with
    | None => vret (JsonResponse false (Some NoCompany))
    | Some company_id =>
        farming_company <- get_farming_company_or_404 company_id;;
        request_obj <- get_request_or_404 pk farming_company;;
        exec RequestsProduct_save pk (set_status new_status request_obj);;
        match X_Requested_With request with
        | Some h =>
            if String.eqb h "XMLHttpRequest"
            then vret (JsonResponse true (Some StatusChanged))
            else vret (RedirectTo PageRequestsList StatusChanged)
        | None => vret (RedirectTo PageRequestsList StatusChanged)
        end
    end.

Definition confirm_request (request : HttpRequest) (pk : Z) : View reply :=
  update_request_status request pk "approved".

Definition reject_request (request : HttpRequest) (pk : Z) : View reply :=
  update_request_status request pk "rejected".

Definition delete_request (request : HttpRequest) (pk : Z) : View reply :=
  if negb (String.eqb (method request) "POST")
  then vret (RedirectTo PageRequestsList InvalidRequest)
  else
    match truthy (company_id (session request)) with
    | None => vret (RedirectTo PageRequestsList NoCompany)
    | Some company_id =>
        farming_company <- get_farming_company_or_404 company_id;;
        exec get_request_or_404 pk farming_company;;
        exec RequestsProduct_delete pk;;
        vret (RedirectTo PageRequestsList RequestDeleted)
    end.

(** [product.delete()]: the collector removes the rows whose foreign key to
    the product is declared [on_delete=CASCADE] -- the packages made from it
    and the requests for it -- and then the product.  Files are not rows:
    the media storage keeps the artifacts of the deleted packages. *)
Definition ShrimpProduct_delete (k : Z) : View unit :=
  rs <- get_requests;;
  exec put_requests (filter (fun kr => product kr.2 <> k) rs);;
  lift (d <- get_db;;
        put_db
          (set_products (delete k (products d))
             (set_packages
                (filter (fun kp => shrimp_product kp.2 <> k) (packages d)) d)))%py.

(** [DeleteProductView.post] *)
Definition DeleteProductView_post (product_id : Z) : View reply :=
  exec lift (get_object_or_404 product_id);;
  exec ShrimpProduct_delete product_id;;
  vret (JsonResponse true None).

(** [AddProductView.get_company_from_session] *)
Definition AddProductView_get_company_from_session (session : Session) : M (option Z) :=
  match company_id session, company_type session with
  | Some company_id, Some company_type =>
      if negb (company_id =? 0) && String.eqb company_type "shrimp"
      then try_except
             (exec related farming_companies company_id CompanyDoesNotExist;;
              ret (Some company_id))%py
             (fun e => match e with
                       | CompanyDoesNotExist => ret None
                       | _ => raise e
                       end)
      else ret None
  | _, _ => ret None
  end.

(** [form.is_valid()] followed by [form.save(commit=False)]: the instance
    built from the cleaned fields, when every field was accepted.  Its
    company is not set yet (written 0 here); the view assigns it before it
    saves. *)
Definition ShrimpProductForm_save (form : ProductForm) : option ShrimpProduct :=
  match form_product_name form, form_weight form,
        form_shrimp_type form, form_price form with
  | Value n, Value w, Value t, Value p =>
      Some {| product_id := None; company := 0; product_name := n;
              weight := w; shrimp_type := t; price := p;
              support_code := "" |}
  | _, _, _, _ => None
  end.

Definition set_company (c : Z) (p : ShrimpProduct) : ShrimpProduct :=
  {| product_id := product_id p; company := c;
     product_name := product_name p; weight := weight p;
     shrimp_type := shrimp_type p; price := price p;
     support_code := support_code p |}.

(** [AddProductView.post] *)
Definition AddProductView_post (session : Session) (form : ProductForm) : View reply :=
  company <- lift (AddProductView_get_company_from_session session);;
  match company with
  | None => vret (RedirectTo PageLogin PleaseLogin)
  | Some company =>
      match ShrimpProductForm_save form with
      | Some product =>
          exec lift (ShrimpProduct_save env (set_company company product));;
          vret (RedirectTo PageAddProduct ProductRegistered)
      | None => vret (RenderForm ProductRejected)
      end
  end.

(** *** export_panel/views.py *)

(** [requests__buyer_company=company, requests__status='approved'] *)
Definition purchased (rs : gmap Z RequestsProduct) (company : Z) (k : Z) : bool :=
  bool_decide
    (map_Exists (fun _ r => product r = k /\ buyer_company r = company /\
                            status r = "approved"%string) rs).

(** [CreatePackageView.get]; the products it hands to the template, as a
    table (the order of the list is not modelled). *)
Definition CreatePackageView_get (request : Request) : View reply :=
  company <- lift (get_company_from_session request);;
  match company with
  | None => vret (RedirectTo PageLogin PleaseLogin)
  | Some company =>
      d <- lift get_db;;
      rs <- get_requests;;
      vret (RenderPurchased
              (filter (fun kp => purchased rs company kp.1 = true) (products d)))
  end.

(** [CreatePackageView.post], run in a site. *)
Definition CreatePackageView_post (request : Request) : View response :=
  lift (post env request).

End Views.

(** One request to the site. *)
Inductive site_action :=
| Shop (a : action)
| RequestProduct (session : Session) (product_id : Z)
| UpdateRequestStatus (request : HttpRequest) (pk : Z) (new_status : string)
| DeleteRequest (request : HttpRequest) (pk : Z)
| DeleteProduct (product_id : Z)
| AddProduct (session : Session) (form : ProductForm).

Definition site_serve (env : Env) (a : site_action) (s : Site) : Site :=
  match a with
  | Shop a => {| world := serve env a (world s); requests := requests s |}
  | RequestProduct session product_id =>
      snd (RequestProductView_post env session product_id s)
  | UpdateRequestStatus request pk new_status =>
      snd (update_request_status request pk new_status s)
  | DeleteRequest request pk => snd (delete_request request pk s)
  | DeleteProduct product_id => snd (DeleteProductView_post product_id s)
  | AddProduct session form => snd (AddProductView_post env session form s)
  end.

Definition site_serve_all (env : Env) (actions : list site_action) (s : Site) : Site :=
  foldl (fun s a => site_serve env a s) s actions.

(** The requests that go through a view or through the admin's regeneration
    action.  The admin's change form of a package is the one left out: its
    form can give a package another product and other companies. *)
Definition by_a_view (a : site_action) : Prop :=
  match a with
  | Shop (ChangePackage _ _) => False
  | _ => True
  end.

(** The copies a row keeps of its product's columns agree with the product:
    a request names an existing product, carries its support code and its
    owner; a package names an existing product and its farming company. *)
Definition requests_agree (ps : gmap Z ShrimpProduct)
    (rs : gmap Z RequestsProduct) : Prop :=
  forall k r, rs !! k = Some r ->
    exists p, ps !! product r = Some p /\
              request_support_code r = support_code p /\
              owner_company r = company p.

Definition packages_agree (ps : gmap Z ShrimpProduct)
    (pkgs : gmap Z ProductPackage) : Prop :=
  forall k pkg, pkgs !! k = Some pkg ->
    exists p, ps !! shrimp_product pkg = Some p /\
              farming_company pkg = company p.

Definition copies_agree (s : Site) : Prop :=
  requests_agree (products (db (world s))) (requests s) /\
  packages_agree (products (db (world s))) (packages (db (world s))).

(** Two product tables with the same keys whose rows agree on the support
    code and on the owner. *)
Definition same_owner_and_code (t t' : gmap Z ShrimpProduct) : Prop :=
  forall k,
    (t !! k = None /\ t' !! k = None) \/
    (exists p p', t !! k = Some p /\ t' !! k = Some p' /\
                  support_code p' = support_code p /\ company p' = company p).

(** Where the product and farming company of the packages of [w'] come
    from: an earlier package, or a product of [w] and its owner. *)
Definition package_refs_from (w w' : World) : Prop :=
  forall k x, packages (db w') !! k = Some x ->
    (exists j x0, packages (db w) !! j = Some x0 /\
                  shrimp_product x = shrimp_product x0 /\
                  farming_company x = farming_company x0) \/
    (exists p, products (db w) !! shrimp_product x = Some p /\
               farming_company x = company p).

(** A farming company is logged in. *)
Definition farmer_logged_in (session : Session) (d : Db) (cid : Z) : Prop :=
  company_id session = Some cid /\ cid <> 0 /\
  company_type session = Some "shrimp"%string /\
  is_Some (farming_companies d !! cid).

(** The product [AddProductView.post] stores for company [cid] from the
    cleaned form [x], in world [w]. *)
Definition added_product (env : Env) (w : World) (cid : Z)
    (x : ShrimpProduct) : ShrimpProduct :=
  set_product_id (Some (next_pk (products (db w))))
    (set_support_code (Ident.new_support_code (urandom env (draws w)))
       (set_company cid x)).

Definition site_ok (s : Site) : Prop :=
  support_codes_ok (db (world s)) /\
  (forall k p, products (db (world s)) !! k = Some p ->
               is_Some (farming_companies (db (world s)) !! company p)) /\
  copies_agree s.

(** Who may ask for product [pid]: a session of type [export] whose
    company exists, for an existing product with an existing owner. *)
Definition can_request (session : Session) (d : Db) (cid pid : Z)
    (p : ShrimpProduct) : Prop :=
  company_type session = Some "export"%string /\
  company_id session = Some cid /\ cid <> 0 /\
  is_Some (exporting_companies d !! cid) /\
  products d !! pid = Some p /\
  is_Some (farming_companies d !! company p).

(** The request [RequestProductView.post] stores in site [s]. *)
Definition new_request (env : Env) (s : Site) (cid pid : Z)
    (p : ShrimpProduct) : RequestsProduct :=
  {| request_support_code := support_code p;
     buyer_company := cid; product := pid;
     owner_company := company p; status := "pending";
     operation_date := Some (clock env (ticks (world s))) |}.

(** Who may decide on or delete request [pk]: a POST from a session whose
    [company_id] is the key of a farming company and the owner of the
    request. *)
Definition can_decide (request : HttpRequest) (s : Site) (pk : Z)
    (r : RequestsProduct) : Prop :=
  method request = "POST"%string /\
  company_id (session request) = Some (owner_company r) /\
  owner_company r <> 0 /\
  is_Some (farming_companies (db (world s)) !! owner_company r) /\
  requests s !! pk = Some r.

(** The products [CreatePackageView.get] shows, when it shows the page. *)
Definition listed (request : Request) (s : Site) : option (gmap Z ShrimpProduct) :=
  match CreatePackageView_get request s with
  | (Ok (RenderPurchased purchased_products), _) => Some purchased_products
  | _ => None
  end.

(** Some request of company [cid] for product [k] is approved. *)
Definition approved_for (rs : gmap Z RequestsProduct) (cid k : Z) : Prop :=
  exists j r, rs !! j = Some r /\ product r = k /\ buyer_company r = cid /\
              status r = "approved"%string.

Module Sample.

(** The exporter of the shop has asked for the tiger product. *)
Definition asked : RequestsProduct :=
  {| request_support_code := "AB12CD34"; buyer_company := 7; product := 3;
     owner_company := 1; status := "pending";
     operation_date := Some 1700000000 |}.

Definition site : Site := {| world := Scenario.world; requests := ∅ |}.

Definition site_asked : Site :=
  {| world := Scenario.world; requests := {[ 1 := asked ]} |}.

Definition exporter : Session :=
  {| company_id := Some 7; company_type := Some "export"%string |}.

Definition farmer : Session :=
  {| company_id := Some 1; company_type := Some "shrimp"%string |}.

(** An exporting company whose key happens to be that of the farm. *)
Definition other_exporter : Session :=
  {| company_id := Some 1; company_type := Some "export"%string |}.

Definition by_post (session : Session) : HttpRequest :=
  {| method := "POST"; session := session; X_Requested_With := None |}.

Definition whiteleg : ProductForm :=
  {| form_product_name := Value "Whiteleg"%string; form_weight := Value 20%Q;
     form_shrimp_type := Value "whiteleg"%string; form_price := Value 4%Q |}.

End Sample.

End Market.

(** ** Basic facts *)

(** *** Decimal columns *)

Lemma round_half_even_Z (q : Q) (z : Z) :
  (q == inject_Z z)%Q -> round_half_even q = z.
Proof.
  intros Hq. unfold round_half_even.
  assert (Hf : Qfloor q = z) by (rewrite Hq; apply Qfloor_Z).
  rewrite Hf.
  assert (Hc : (q - inject_Z z ?= 1 # 2)%Q = Lt)
    by (change (q - inject_Z z < 1 # 2)%Q; lra).
  by rewrite Hc.
Qed.

Lemma pow10_pos (k : Z) : 0 <= k -> (0 < inject_Z (10 ^ k))%Q.
Proof.
  intros Hk. change 0%Q with (inject_Z 0). rewrite <- Zlt_Qlt.
  by apply Z.pow_pos_nonneg.
Qed.

(** A column value is read back as it was written. *)
Lemma in_column_DecimalField (max_digits decimal_places : Z) (q : Q) :
  0 <= decimal_places ->
  in_column max_digits decimal_places q ->
  exists q', DecimalField max_digits decimal_places q = Some q' /\ (q' == q)%Q.
Proof.
  intros Hdp (z & Hz & Hq). unfold DecimalField.
  pose proof (pow10_pos decimal_places Hdp) as Hpos.
  assert (Hr : round_half_even (q * inject_Z (10 ^ decimal_places)) = z).
  { apply round_half_even_Z. rewrite Hq. field. lra. }
  cbv zeta. rewrite Hr.
  apply Z.ltb_lt in Hz. rewrite Hz. eexists. split; [reflexivity|].
  by rewrite Hq.
Qed.

(** Taking an in-stock total of packages off a stock leaves a column value. *)
Lemma in_column_deduct (w uw : Q) (n : Z) :
  in_column 10 2 w -> in_column 8 2 uw ->
  (0 <= uw * inject_Z n)%Q -> (uw * inject_Z n <= w)%Q ->
  in_column 10 2 (w - uw * inject_Z n).
Proof.
  intros (zw & Hzw & Hw) (zu & Hzu & Hu) H0 Hle.
  change (inject_Z (10 ^ 2)) with (inject_Z 100) in *.
  set (t := (uw * inject_Z n)%Q) in *.
  assert (Ht : (t == inject_Z (zu * n) / inject_Z 100)%Q).
  { unfold t. rewrite Hu, inject_Z_mult. field. }
  assert (Hzt : 0 <= zu * n <= zw).
  { split; rewrite Zle_Qle; change (inject_Z 0) with 0%Q.
    - assert (inject_Z (zu * n) == t * inject_Z 100)%Q by (rewrite Ht; field).
      change (inject_Z 100) with (100 # 1)%Q in *. lra.
    - assert (inject_Z (zu * n) == t * inject_Z 100)%Q by (rewrite Ht; field).
      assert (inject_Z zw == w * inject_Z 100)%Q by (rewrite Hw; field).
      change (inject_Z 100) with (100 # 1)%Q in *. lra. }
  exists (zw - zu * n). split; [lia|].
  assert (Hd : (inject_Z (zw - zu * n) == inject_Z zw - inject_Z (zu * n))%Q).
  { unfold Z.sub. rewrite inject_Z_plus, inject_Z_opp. ring. }
  change (inject_Z (10 ^ 2)) with (inject_Z 100).
  rewrite Hd, Ht, Hw. field.
Qed.

Module IdentFacts.
Import Ident.

Lemma nibble_range v k : 0 <= nibble v k < 16.
Proof.
  unfold nibble. change 15 with (Z.ones 4).
  rewrite Z.land_ones by lia. apply Z.mod_pos_bound. lia.
Qed.

Lemma upper_hexdigit d :
  is_upper_hex (upper_ascii (hexdigit d)) = true.
Proof.
  destruct d as [|p|p]; try reflexivity.
  do 4 (destruct p as [p|p|]; try reflexivity).
Qed.

Lemma upper_hex_alnum c : is_upper_hex c = true -> is_upper_alnum c = true.
Proof.
  unfold is_upper_hex, is_upper_alnum, is_digit; cbv zeta.
  rewrite !orb_true_iff, !andb_true_iff, !Nat.leb_le. lia.
Qed.

Lemma upper_hex_not_G_to_Z c : is_upper_hex c = true -> is_G_to_Z c = false.
Proof.
  unfold is_upper_hex, is_G_to_Z, is_digit; cbv zeta.
  rewrite orb_true_iff, !andb_true_iff, andb_false_iff, !Nat.leb_le, !Nat.leb_gt.
  lia.
Qed.

Lemma all_chars_impl (P Q : ascii -> bool) s :
  (forall c, P c = true -> Q c = true) ->
  all_chars P s = true -> all_chars Q s = true.
Proof.
  unfold all_chars. intros HPQ. rewrite !forallb_forall. auto.
Qed.

Lemma batch_format_impl (P Q : ascii -> bool) s :
  (forall c, P c = true -> Q c = true) ->
  batch_format P s = true -> batch_format Q s = true.
Proof.
  unfold batch_format. intros HPQ.
  rewrite !andb_true_iff. intros [? ?]; eauto using all_chars_impl.
Qed.

(** Whatever bytes the random source returns, the identifiers are upper-case
    hexadecimal. *)
Lemma new_batch_number_hex r :
  batch_format is_upper_hex (new_batch_number r) = true.
Proof.
  unfold new_batch_number, hex, slice, batch_format, all_chars.
  cbv -[nibble hexdigit upper_ascii is_upper_hex uuid4 andb].
  rewrite !upper_hexdigit. reflexivity.
Qed.

Lemma new_support_code_hex r :
  code_format is_upper_hex (new_support_code r) = true.
Proof.
  unfold new_support_code, str, hex, slice, code_format, all_chars.
  cbv -[nibble hexdigit upper_ascii is_upper_hex uuid4 andb].
  rewrite !upper_hexdigit. reflexivity.
Qed.

Lemma new_batch_number_nonempty r : new_batch_number r <> ""%string.
Proof. unfold new_batch_number. discriminate. Qed.

End IdentFacts.


Lemma next_pk_fresh {A} (t : gmap Z A) : t !! next_pk t = None.
Proof.
  destruct (t !! next_pk t) as [a|] eqn:E; [|done].
  apply elem_of_map_to_list in E.
  assert (Hin : next_pk t ∈ (map_to_list t).*1).
  { apply list_elem_of_fmap. by exists (next_pk t, a). }
  assert (Hle : forall (l : list Z) x, x ∈ l -> x <= foldr Z.max 0 l).
  { induction l as [|y l IH]; intros x Hx.
    - by apply elem_of_nil in Hx.
    - apply elem_of_cons in Hx as [->|Hx]; simpl; [lia|].
      specialize (IH x Hx). lia. }
  apply Hle in Hin. unfold next_pk in Hin at 1. lia.
Qed.

Lemma taken_false {A} (col : A -> string) (t : gmap Z A) k v :
  taken col t k v = false <->
  forall k' row, t !! k' = Some row -> k' <> k -> col row <> v.
Proof.
  unfold taken. rewrite bool_decide_eq_false. unfold map_Exists. split.
  - intros H k' row Hk Hne Hv. apply H. by exists k', row.
  - intros H (k' & row & Hk & Hne & Hv). by eapply H.
Qed.

Lemma unique_on_insert {A} (col : A -> string) (t : gmap Z A) k x :
  unique_on col t -> taken col t k (col x) = false ->
  unique_on col (<[k := x]> t).
Proof.
  intros Hu Ht i j a b Hi Hj Hab. rewrite taken_false in Ht.
  destruct (decide (i = k)) as [->|Hik], (decide (j = k)) as [->|Hjk]; [done|..].
  - rewrite lookup_insert_eq in Hi. rewrite lookup_insert_ne in Hj by done.
    simplify_eq. exfalso. by eapply Ht.
  - rewrite lookup_insert_eq in Hj. rewrite lookup_insert_ne in Hi by done.
    simplify_eq. exfalso. by eapply Ht.
  - rewrite lookup_insert_ne in Hi, Hj by done. eauto.
Qed.

Lemma bind_inv {A B} (m : M A) (k : A -> M B) w o w' :
  bind m k w = (o, w') ->
  (exists e, m w = (Raise e, w') /\ o = Raise e) \/
  (exists a w1, m w = (Ok a, w1) /\ k a w1 = (o, w')).
Proof.
  unfold bind. destruct (m w) as [[a|e] w1]; intros H.
  - right. eauto.
  - left. simplify_eq. eauto.
Qed.

Lemma bind_Ok {A B} (m : M A) (k : A -> M B) w b w' :
  bind m k w = (Ok b, w') ->
  exists a w1, m w = (Ok a, w1) /\ k a w1 = (Ok b, w').
Proof.
  intros H. apply bind_inv in H as [(e & _ & ?)|H]; [done|exact H].
Qed.

Lemma bind_eq {A B} (m : M A) (k : A -> M B) w a w1 :
  m w = (Ok a, w1) -> bind m k w = k a w1.
Proof. unfold bind. by intros ->. Qed.

Lemma related_eq {A} (tbl : Db -> gmap Z A) k e w :
  related tbl k e w =
  match tbl (db w) !! k with
  | Some a => (Ok a, w)
  | None => (Raise e, w)
  end.
Proof. unfold related, bind, get_db. by destruct (tbl (db w) !! k). Qed.

Lemma atomic_raise {A} (m : M A) w e w' :
  atomic m w = (Raise e, w') -> db w' = db w.
Proof.
  unfold atomic. destruct (m w) as [[a|e'] w1]; intros H; simplify_eq. done.
Qed.

Lemma atomic_Ok {A} (m : M A) w a w' :
  atomic m w = (Ok a, w') -> m w = (Ok a, w').
Proof.
  unfold atomic. destruct (m w) as [[a'|e'] w1]; intros H; by simplify_eq.
Qed.

(** A call that stopped on an exception before writing anything. *)
Ltac raised := intros [= <- <-]; split_and!; try done; left; eauto.

Section Facts.
Context (env : Env).

Lemma get_company_from_session_eq request w :
  exists c, get_company_from_session request w = (Ok c, w) /\
            (forall cid, logged_in request (db w) cid -> c = Some cid).
Proof.
  unfold get_company_from_session, logged_in.
  destruct (session_company_id request) as [cid|] eqn:Hid;
    [destruct (session_company_type request) as [ty|] eqn:Hty|].
  - destruct (negb (cid =? 0) && String.eqb ty "export") eqn:Hc.
    + unfold try_except, bind. rewrite related_eq.
      destruct (exporting_companies (db w) !! cid) eqn:Hl.
      * eexists; split; [reflexivity|]. by intros ? (? & _); simplify_eq.
      * eexists; split; [reflexivity|].
        intros ? (? & _ & _ & [? ?]); simplify_eq.
    + eexists; split; [reflexivity|].
      intros ? (? & Hne & ? & _); simplify_eq.
      apply andb_false_iff in Hc as [Hc|Hc].
      * apply negb_false_iff, Z.eqb_eq in Hc. done.
      * by rewrite String.eqb_refl in Hc.
  - eexists; split; [reflexivity|]. intros ? (? & _ & ? & _); simplify_eq.
  - eexists; split; [reflexivity|]. intros ? (? & _); simplify_eq.
Qed.

Lemma post_validate_eq request cid pid uw n w :
  POST_package_weight request = Value uw ->
  POST_package_count request = Value n ->
  post_validate request cid pid w =
  if Qle_bool uw 0 || (n <=? 0)
  then (Ok (inl (Redirect UrlCreatePackage InvalidQuantity)), w)
  else match products (db w) !! pid with
       | None => (Raise ProductDoesNotExist, w)
       | Some p =>
           if negb (Qle_bool (uw * inject_Z n) (weight p))
           then (Ok (inl (Redirect UrlCreatePackage (InsufficientStock (weight p)))), w)
           else (Ok (inr {| ck_company := cid; ck_product_id := pid;
                            ck_product := set_product_id (Some pid) p;
                            ck_weight := uw; ck_count := n;
                            ck_total := (uw * inject_Z n)%Q |}), w)
       end.
Proof.
  intros Hw Hn. unfold post_validate, Decimal, int. rewrite Hw, Hn.
  unfold bind at 1. unfold ret at 1. unfold bind at 1. unfold ret at 1.
  destruct (Qle_bool uw 0 || (n <=? 0)); [reflexivity|].
  unfold ShrimpProduct_get, bind. rewrite related_eq.
  destruct (products (db w) !! pid) as [p|]; [|reflexivity].
  unfold ret at 1. cbn [weight set_product_id].
  destruct (negb (Qle_bool (uw * inject_Z n) (weight p))); reflexivity.
Qed.

Lemma post_validate_inv request cid pid w o w' :
  post_validate request cid pid w = (o, w') ->
  w' = w /\
  (forall r, o = Ok (inl r) -> is_summary (Ok r) = false) /\
  forall c, o = Ok (inr c) ->
    exists p, products (db w) !! pid = Some p /\
      c = {| ck_company := cid; ck_product_id := pid;
             ck_product := set_product_id (Some pid) p;
             ck_weight := ck_weight c; ck_count := ck_count c;
             ck_total := (ck_weight c * inject_Z (ck_count c))%Q |} /\
      (0 < ck_weight c)%Q /\ 0 < ck_count c /\
      (ck_weight c * inject_Z (ck_count c) <= weight p)%Q.
Proof.
  assert (Hval : forall uw n,
    (uw' <- ret uw;; n' <- ret n;;
     if Qle_bool uw' 0 || (n' <=? 0)
     then ret (inl (Redirect UrlCreatePackage InvalidQuantity))
     else
       shrimp_product <- ShrimpProduct_get pid;;
       if negb (Qle_bool (uw' * inject_Z n') (weight shrimp_product))
       then ret (inl (Redirect UrlCreatePackage
                        (InsufficientStock (weight shrimp_product))))
       else ret (inr {| ck_company := cid; ck_product_id := pid;
                        ck_product := shrimp_product;
                        ck_weight := uw'; ck_count := n';
                        ck_total := (uw' * inject_Z n')%Q |})) w = (o, w') ->
    w' = w /\
    (forall r, o = Ok (inl r) -> is_summary (Ok r) = false) /\
    forall c, o = Ok (inr c) ->
      exists p, products (db w) !! pid = Some p /\
        c = {| ck_company := cid; ck_product_id := pid;
               ck_product := set_product_id (Some pid) p;
               ck_weight := ck_weight c; ck_count := ck_count c;
               ck_total := (ck_weight c * inject_Z (ck_count c))%Q |} /\
        (0 < ck_weight c)%Q /\ 0 < ck_count c /\
        (ck_weight c * inject_Z (ck_count c) <= weight p)%Q).
  { intros uw n. unfold bind at 1 2. unfold ret at 1 2.
    destruct (Qle_bool uw 0 || (n <=? 0)) eqn:Hb.
    { intros [= <- <-]. split; [done|]. split; [by intros r [= <-]|]. intros c [=]. }
    unfold ShrimpProduct_get, bind. rewrite related_eq.
    destruct (products (db w) !! pid) as [p|]; [|by intros [= <- <-]].
    unfold ret at 1. cbn [weight set_product_id].
    destruct (negb (Qle_bool (uw * inject_Z n) (weight p))) eqn:Hs.
    { intros [= <- <-]. split; [done|]. split; [by intros r [= <-]|]. intros c [=]. }
    intros [= <- <-]. split; [done|]. split; [done|].
    intros c [= <-]. exists p. simpl.
    apply orb_false_iff in Hb as [Hb1 Hb2].
    apply negb_false_iff, Qle_bool_iff in Hs.
    apply Z.leb_gt in Hb2.
    assert (~ (uw <= 0)%Q) as Hb1'.
    { rewrite <- Qle_bool_iff. by rewrite Hb1. }
    apply Qnot_le_lt in Hb1'. done. }
  unfold post_validate, Decimal, int.
  destruct (POST_package_weight request) as [| |uw];
    destruct (POST_package_count request) as [| |n];
    try apply Hval; by intros [= <- <-].
Qed.

Lemma generate_qr_code_eq self w :
  generate_qr_code env self w =
  match products (db w) !! shrimp_product self with
  | None => (Raise ProductDoesNotExist, w)
  | Some p =>
    match farming_companies (db w) !! farming_company self with
    | None => (Raise CompanyDoesNotExist, w)
    | Some f =>
      match exporting_companies (db w) !! exporting_company self with
      | None => (Raise CompanyDoesNotExist, w)
      | Some e =>
        match qr_render env (qr_payload self p f e) with
        | None => (Raise RenderError, w)
        | Some img =>
          let name := qr_code_path self
                        ("qr_code_" +:+ batch_number self +:+ ".png")%string in
          let w1 := {| db := db w; media := (name, img) :: media w;
                       ticks := ticks w; draws := draws w |} in
          match package_id self with
          | None => (Raise ValueError, w1)
          | Some k =>
            match packages (db w) !! k with
            | None => (Raise DatabaseError, w1)
            | Some row =>
                (Ok (set_qr_code name self),
                 set_db (set_packages
                           (<[k := set_qr_code name row]> (packages (db w)))
                           (db w)) w1)
            end
          end
        end
      end
    end
  end.
Proof.
  unfold generate_qr_code, bind. rewrite !related_eq.
  destruct (products (db w) !! shrimp_product self) as [p|]; [|done].
  rewrite related_eq.
  destruct (farming_companies (db w) !! farming_company self) as [f|]; [|done].
  rewrite related_eq.
  destruct (exporting_companies (db w) !! exporting_company self) as [e|]; [|done].
  destruct (qr_render env (qr_payload self p f e)) as [img|]; [|done].
  unfold ret at 1. unfold storage_save, ProductPackage_save_qr_code.
  cbn [package_id set_qr_code qr_code].
  destruct (package_id self) as [k|]; [|done].
  unfold bind, get_db, put_db, ret. cbn [db].
  destruct (packages (db w) !! k) as [row|]; done.
Qed.

Lemma ProductPackage_super_save_insert self w :
  package_id self = None ->
  ProductPackage_super_save env self w =
  let k := next_pk (packages (db w)) in
  let self' := set_package_id (Some k)
                 (set_timestamps (Some (clock env (ticks w)))
                                 (Some (clock env (S (ticks w)))) self) in
  if taken batch_number (packages (db w)) k (batch_number self)
  then (Raise IntegrityError, tick2 w)
  else (Ok self',
        set_db (set_packages (<[k := self']> (packages (db w))) (db w)) (tick2 w)).
Proof.
  intros Hid. unfold ProductPackage_super_save, bind, get_db, now, put_db, ret, raise.
  rewrite Hid. cbn [db ticks batch_number set_package_id set_timestamps].
  destruct (taken batch_number (packages (db w)) (next_pk (packages (db w)))
              (batch_number self)); reflexivity.
Qed.

Lemma ProductPackage_create_eq pid fc ec uw n d1 d2 w :
  ProductPackage_create env pid fc ec uw n (Some (Some d1)) (Some (Some d2)) w =
  let row := inserted_package env w pid fc ec uw n d1 d2 in
  let k := next_pk (packages (db w)) in
  let w1 := {| db := db w; media := media w;
               ticks := S (S (ticks w)); draws := S (draws w) |} in
  if taken batch_number (packages (db w)) k (batch_number row)
  then (Raise IntegrityError, w1)
  else generate_qr_code env row
         (set_db (set_packages (<[k := row]> (packages (db w))) (db w)) w1).
Proof.
  unfold ProductPackage_create, ProductPackage_init, ProductPackage_save.
  unfold bind at 1 2 3. unfold ret at 1 2 3.
  unfold bind at 1. cbn [batch_number]. rewrite decide_True by done.
  unfold bind at 1. unfold os_urandom16 at 1. unfold ret at 1.
  unfold bind at 1. cbn [production_date set_batch_number]. unfold ret at 1.
  unfold bind at 1. cbn [expiration_date set_batch_number]. unfold ret at 1.
  unfold bind at 1.
  rewrite ProductPackage_super_save_insert by done.
  cbn [db ticks draws media tick2 batch_number set_batch_number inserted_package].
  destruct (taken _ _ _ _); [reflexivity|].
  cbn [qr_code set_package_id set_timestamps set_batch_number].
  rewrite decide_True by done. reflexivity.
Qed.

Lemma ShrimpProduct_save_eq self k w :
  product_id self = Some k ->
  support_code self <> ""%string ->
  ShrimpProduct_save env self w =
  if taken support_code (products (db w)) k (support_code self)
  then (Raise IntegrityError, w)
  else (Ok self, set_db (set_products (<[k := self]> (products (db w))) (db w)) w).
Proof.
  intros Hk Hc. unfold ShrimpProduct_save, ShrimpProduct_assign_code.
  rewrite decide_False by done. unfold bind at 1. unfold ret at 1.
  unfold ShrimpProduct_super_save, bind, get_db, put_db, ret, raise.
  rewrite Hk. cbn [support_code set_product_id].
  destruct (taken _ _ _ _); [reflexivity|].
  destruct self; simpl in *; by subst.
Qed.

Lemma ShrimpProduct_save_inv self k w sp w' :
  product_id self = Some k ->
  ShrimpProduct_save env self w = (Ok sp, w') ->
  sp = set_support_code (support_code sp) self /\
  (support_code self <> ""%string -> support_code sp = support_code self) /\
  taken support_code (products (db w)) k (support_code sp) = false /\
  db w' = set_products (<[k := sp]> (products (db w))) (db w) /\
  media w' = media w.
Proof.
  intros Hk. unfold ShrimpProduct_save, ShrimpProduct_assign_code.
  intros (self1 & w1 & H1 & H2)%bind_Ok.
  assert (product_id self1 = Some k /\ db w1 = db w /\ media w1 = media w /\
          self1 = set_support_code (support_code self1) self /\
          (support_code self <> ""%string -> support_code self1 = support_code self))
    as (Hk1 & Hdb & Hmedia & Hs & Hc).
  { destruct (decide (support_code self = ""%string)).
    - unfold bind, os_urandom16, ret in H1. injection H1 as <- <-. done.
    - unfold ret in H1. injection H1 as <- <-.
      repeat split; try done. by destruct self. }
  unfold ShrimpProduct_super_save, bind, get_db, put_db, ret, raise in H2.
  rewrite Hk1, Hdb in H2. cbn [support_code set_product_id] in H2.
  destruct (taken support_code (products (db w)) k (support_code self1)) eqn:Ht;
    [done|].
  assert (set_product_id (Some k) self1 = self1) as Hid.
  { destruct self1; simpl in *; by subst. }
  rewrite Hid in H2. injection H2 as <- <-. cbn [db media set_db].
  rewrite ?Hdb, ?Hmedia. done.
Qed.

Lemma post_transaction_cases c w o w' :
  product_id (ck_product c) = Some (ck_product_id c) ->
  post_transaction env c w = (o, w') ->
  (exists e, o = Raise e /\ db w' = db w) \/ committed env c w w' o.
Proof.
  intros Hid. unfold post_transaction.
  intros [(e & Hat & ->)|([pkg sp] & w1 & Hat & Hret)]%bind_inv.
  { left. exists e. split; [done|]. by eapply atomic_raise. }
  right. unfold ret in Hret. simplify_eq. cbn [fst snd].
  apply atomic_Ok in Hat.
  unfold bind at 1 2 in Hat. unfold now at 1 2 in Hat.
  cbn [ticks db media draws] in Hat.
  apply bind_Ok in Hat as (pkg' & w2 & Hcreate & Hrest).
  apply bind_Ok in Hrest as (sp' & w3 & Hsave & Hret).
  unfold ret in Hret. simplify_eq.
  rewrite ProductPackage_create_eq in Hcreate.
  cbn [db media ticks draws batch_number inserted_package] in Hcreate.
  destruct (taken batch_number _ _ _) eqn:Htaken; [done|].
  rewrite generate_qr_code_eq in Hcreate.
  cbn [db media ticks draws set_db set_packages products farming_companies
       exporting_companies packages package_id batch_number shrimp_product
       farming_company exporting_company inserted_package] in Hcreate.
  destruct (products (db w) !! ck_product_id c) as [p|]; [|done].
  destruct (farming_companies (db w) !! company (ck_product c)) as [f|]; [|done].
  destruct (exporting_companies (db w) !! ck_company c) as [e|]; [|done].
  match type of Hcreate with
  | context [qr_render env ?d] =>
      destruct (qr_render env d) as [img|] eqn:Hrender; [|done]
  end.
  rewrite lookup_insert_eq in Hcreate. rewrite insert_insert_eq in Hcreate.
  injection Hcreate as <- <-.
  apply (ShrimpProduct_save_inv _ (ck_product_id c)) in Hsave; [|by destruct (ck_product c)].
  destruct Hsave as (Hsp & Hcode & Hfree & Hdb & _).
  cbn [db set_db products set_products set_packages packages] in Hdb, Hfree.
  assert (Hw : weight sp = (weight (ck_product c) - ck_total c)%Q).
  { rewrite Hsp. reflexivity. }
  rewrite Hw. do 4 eexists. split; [reflexivity|].
  split_and!; first [done | exact Htaken | exact Hrender].
Qed.

Lemma post_except_eq e w :
  post_except e w =
  match e with
  | ProductDoesNotExist => (Ok (Redirect UrlCreatePackage ProductNotFound), w)
  | _ => (Raise AttributeError, w)
  end.
Proof. by destruct e. Qed.

Lemma post_except_not_summary e w o w' :
  post_except e w = (o, w') -> is_summary o = false /\ w' = w.
Proof. rewrite post_except_eq. destruct e; by intros [= <- <-]. Qed.

Lemma post_cases request w o w' :
  post env request w = (o, w') ->
  (is_summary o = false /\ db w' = db w) \/
  (exists c, checked_for request w c /\ committed env c w w' o).
Proof.
  unfold post. destruct (get_company_from_session_eq request w) as (co & Hco & _).
  rewrite (bind_eq _ _ _ _ _ Hco).
  destruct co as [cid|]; [|intros [= <- <-]; by left].
  destruct (POST_shrimp_product request) as [pid|] eqn:Hpid;
    [|intros [= <- <-]; by left].
  unfold try_except.
  destruct (bind _ _ w) as [[r|e] w1] eqn:Hbody; cycle 1.
  { intros Hex. apply post_except_not_summary in Hex as [? ->]. left.
    split; [done|].
    apply bind_inv in Hbody as [(e' & Hv & _)|(v & w2 & Hv & Hrest)].
    - by apply post_validate_inv in Hv as [-> _].
    - apply post_validate_inv in Hv as (-> & _ & Hc).
      destruct v as [r|c]; [done|].
      destruct (Hc c eq_refl) as (p & Hp & Hceq & _).
      assert (Hid : product_id (ck_product c) = Some (ck_product_id c)).
      { by rewrite Hceq. }
      apply (post_transaction_cases _ _ _ _ Hid) in Hrest as [(? & _ & ?)|Hcm]; [done|].
      destruct Hcm as (? & ? & ? & ? & ? & _). done. }
  intros [= <- <-].
  apply bind_Ok in Hbody as (v & w2 & Hv & Hrest).
  apply post_validate_inv in Hv as (-> & Hr & Hc).
  destruct v as [r'|c].
  { unfold ret in Hrest. injection Hrest as <- <-. left.
    split; [|done]. by apply Hr. }
  destruct (Hc c eq_refl) as (p & Hp & Hceq & Hw & Hn & Hle).
  assert (Hid : product_id (ck_product c) = Some (ck_product_id c)).
  { by rewrite Hceq. }
  apply (post_transaction_cases _ _ _ _ Hid) in Hrest as [(? & ? & ?)|Hcm]; [done|].
  right. exists c. split; [|done]. exists p.
  rewrite Hceq. cbn. done.
Qed.

(** A summary page shows the unit weight and the count the form carried. *)
Lemma post_transaction_summary c w r w' :
  post_transaction env c w = (Ok r, w') ->
  exists pkg total original remaining,
    r = Summary pkg (ck_count c) (ck_weight c) total original remaining.
Proof.
  unfold post_transaction. intros ([pkg sp] & w1 & _ & Hret)%bind_Ok.
  unfold ret in Hret. injection Hret as <- _. by eexists _, _, _, _.
Qed.

Lemma post_validate_fields request cid pid w c w' :
  post_validate request cid pid w = (Ok (inr c), w') ->
  POST_package_weight request = Value (ck_weight c) /\
  POST_package_count request = Value (ck_count c).
Proof.
  unfold post_validate, Decimal, int.
  destruct (POST_package_weight request) as [| |uw],
           (POST_package_count request) as [| |n];
    unfold bind at 1 2; unfold ret at 1 2; unfold raise; try done.
  - destruct (Qle_bool uw 0); cbn [orb Z.leb Z.compare]; by intros [=].
  - destruct (Qle_bool uw 0 || (n <=? 0)); [by intros [=]|].
    unfold bind. destruct (ShrimpProduct_get pid w) as [[p|e] w1]; [|by intros [=]].
    destruct (negb _); unfold ret; intros [= <- _]; done.
Qed.

Lemma post_summary_fields request w pkg n uw total original remaining w' :
  post env request w = (Ok (Summary pkg n uw total original remaining), w') ->
  POST_package_weight request = Value uw /\ POST_package_count request = Value n.
Proof.
  unfold post. destruct (get_company_from_session_eq request w) as (co & Hco & _).
  rewrite (bind_eq _ _ _ _ _ Hco).
  destruct co as [cid|]; [|by intros [=]].
  destruct (POST_shrimp_product request) as [pid|]; [|by intros [=]].
  unfold try_except.
  destruct (bind _ _ w) as [[r|e] w1] eqn:Hbody; cycle 1.
  { intros Hex. apply post_except_not_summary in Hex as [? _]. done. }
  intros Heq. injection Heq as Hr Hw. subst r w1.
  apply bind_Ok in Hbody as (v & w2 & Hv & Hrest).
  destruct v as [r'|c].
  { apply post_validate_inv in Hv as (_ & Hr & _).
    unfold ret in Hrest. injection Hrest as -> _. by specialize (Hr _ eq_refl). }
  apply post_transaction_summary in Hrest as (? & ? & ? & ? & Hsum).
  injection Hsum as _ -> -> _ _ _.
  by eapply post_validate_fields.
Qed.

(** *** Frames: what a call can have changed, whatever its outcome *)

Lemma ProductPackage_super_save_frame self w o w' :
  ProductPackage_super_save env self w = (o, w') ->
  media w' = media w /\ draws w' = draws w /\
  ((exists e, o = Raise e /\ db w' = db w) \/
   (exists k s, o = Ok s /\
      s = set_package_id (Some k) (set_timestamps (created_at s) (updated_at s) self) /\
      taken batch_number (packages (db w)) k (batch_number self) = false /\
      db w' = set_packages (<[k := s]> (packages (db w))) (db w) /\
      (package_id self = Some k /\ is_Some (packages (db w) !! k) \/
       packages (db w) !! k = None))).
Proof.
  unfold ProductPackage_super_save, bind, get_db, now, put_db, ret, raise.
  destruct (package_id self) as [k|] eqn:Hk;
    [destruct (packages (db w) !! k) as [row|] eqn:Hrow|].
  - cbn [db media draws batch_number set_timestamps].
    destruct (taken _ _ _ _) eqn:Ht; intros [= <- <-]; (split; [done|split; [done|]]).
    + left. eauto.
    + right. exists k. eexists. split; [reflexivity|].
      split; [by destruct self; simpl in *; subst|]. eauto.
  - cbn [db media draws batch_number set_timestamps set_package_id].
    destruct (taken _ _ _ _) eqn:Ht; intros [= <- <-]; (split; [done|split; [done|]]).
    + left. eauto.
    + right. exists k. eexists. split; [reflexivity|]. eauto.
  - cbn [db media draws batch_number set_timestamps set_package_id].
    destruct (taken _ _ _ _) eqn:Ht; intros [= <- <-]; (split; [done|split; [done|]]).
    + left. eauto.
    + right. exists (next_pk (packages (db w))). eexists. split; [reflexivity|].
      split; [done|]. split; [done|]. split; [done|]. right. apply next_pk_fresh.
Qed.

Lemma generate_qr_code_frame self w o w' :
  generate_qr_code env self w = (o, w') ->
  products (db w') = products (db w) /\
  farming_companies (db w') = farming_companies (db w) /\
  exporting_companies (db w') = exporting_companies (db w) /\
  ticks w' = ticks w /\ draws w' = draws w /\
  ((exists e, o = Raise e /\ db w' = db w) \/
   (exists k row name data img,
      o = Ok (set_qr_code name self) /\ name <> ""%string /\
      package_id self = Some k /\ packages (db w) !! k = Some row /\
      qr_render env data = Some img /\
      packages (db w') = <[k := set_qr_code name row]> (packages (db w)))).
Proof.
  rewrite generate_qr_code_eq.
  destruct (products (db w) !! shrimp_product self) as [p|];
    [|raised].
  destruct (farming_companies (db w) !! farming_company self) as [f|];
    [|raised].
  destruct (exporting_companies (db w) !! exporting_company self) as [e|];
    [|raised].
  destruct (qr_render env (qr_payload self p f e)) as [img|] eqn:Hr;
    [|raised].
  cbv zeta.
  destruct (package_id self) as [k|];
    [|raised].
  destruct (packages (db w) !! k) as [row|] eqn:Hrow;
    [|raised].
  intros [= <- <-]. split_and!; try done. right.
  do 5 eexists. split; [reflexivity|]. split_and!; try done.
Qed.

Lemma ProductPackage_save_frame self w o w' :
  ProductPackage_save env self w = (o, w') ->
  products (db w') = products (db w) /\
  farming_companies (db w') = farming_companies (db w) /\
  exporting_companies (db w') = exporting_companies (db w) /\
  (packages (db w') = packages (db w) \/
   exists k x,
     packages (db w') = <[k := x]> (packages (db w)) /\
     batch_number x =
       (if decide (batch_number self = ""%string)
        then Ident.new_batch_number (urandom env (draws w))
        else batch_number self) /\
     taken batch_number (packages (db w)) k (batch_number x) = false /\
     (package_id self = Some k /\ is_Some (packages (db w) !! k) \/
      packages (db w) !! k = None)).
Proof.
  unfold ProductPackage_save.
  intros [(e & H1 & ->)|(s1 & w1 & H1 & H)]%bind_inv.
  { destruct (decide (batch_number self = ""%string));
      unfold bind, os_urandom16, ret in H1; simplify_eq. }
  assert (db w1 = db w /\ package_id s1 = package_id self /\
          batch_number s1 =
            (if decide (batch_number self = ""%string)
             then Ident.new_batch_number (urandom env (draws w))
             else batch_number self)) as (Hdb1 & Hid1 & Hb1).
  { destruct (decide (batch_number self = ""%string));
      unfold bind, os_urandom16, ret in H1; by simplify_eq. }
  clear H1.
  apply bind_inv in H as [(e & H2 & ->)|(s2 & w2 & H2 & H)].
  { destruct (production_date s1); unfold bind, now, ret in H2; simplify_eq. }
  assert (db w2 = db w /\ package_id s2 = package_id self /\
          batch_number s2 = batch_number s1) as (Hdb2 & Hid2 & Hb2).
  { destruct (production_date s1); unfold bind, now, ret in H2; by simplify_eq. }
  clear H2.
  apply bind_inv in H as [(e & H3 & ->)|(s3 & w3 & H3 & H)].
  { destruct (expiration_date s2); unfold ret in H3; simplify_eq. }
  assert (db w3 = db w /\ package_id s3 = package_id self /\
          batch_number s3 = batch_number s1) as (Hdb3 & Hid3 & Hb3).
  { destruct (expiration_date s2); unfold ret in H3; by simplify_eq. }
  clear H3.
  apply bind_inv in H as [(e & H4 & ->)|(s4 & w4 & H4 & H)].
  { apply ProductPackage_super_save_frame in H4
      as (_ & _ & [(? & _ & Hdb)|(? & ? & ? & _)]); [|done].
    rewrite Hdb, Hdb3. split_and!; try done. by left. }
  apply ProductPackage_super_save_frame in H4
    as (_ & _ & [(? & ? & _)|(k & s & [= <-] & Hs & Ht & Hdb & Hk)]); [done|].
  rewrite Hdb3, Hid3 in *. rewrite Hb3, Hb1 in Ht.
  assert (Hbs : batch_number s4 =
            (if decide (batch_number self = ""%string)
             then Ident.new_batch_number (urandom env (draws w))
             else batch_number self)).
  { rewrite Hs. cbn. by rewrite Hb3. }
  destruct (decide (qr_code s4 = ""%string)).
  - apply generate_qr_code_frame in H
      as (Hp & Hf & He & _ & _ & [(? & _ & Hdb')|Hgen]).
    + rewrite Hdb', Hdb. cbn. split_and!; try done. right.
      exists k, s4. by rewrite Hbs.
    + destruct Hgen as (k' & row & name & data & img & _ & _ & Hk' & Hrow & _ & Hpk).
      rewrite Hp, Hf, He, Hpk, Hdb. cbn. split_and!; try done. right.
      assert (k' = k) as -> by (rewrite Hs in Hk'; cbn in Hk'; congruence).
      rewrite Hdb in Hrow. cbn in Hrow. rewrite lookup_insert_eq in Hrow.
      injection Hrow as <-.
      exists k, (set_qr_code name s4). rewrite insert_insert_eq.
      cbn. by rewrite Hbs.
  - unfold ret in H. injection H as <- <-. rewrite Hdb. cbn.
    split_and!; try done. right. exists k, s4. by rewrite Hbs.
Qed.

Lemma EditProductView_post_frame pid request w o w' :
  EditProductView_post env pid request w = (o, w') ->
  packages (db w') = packages (db w) /\
  (products (db w') = products (db w) \/
   exists x q, submitted_weight request = Some q /\ weight x = q /\
               is_Some (products (db w) !! pid) /\
               products (db w') = <[pid := x]> (products (db w))).
Proof.
  unfold EditProductView_post, get_object_or_404, try_except, ShrimpProduct_get.
  unfold bind at 1 2. rewrite related_eq.
  destruct (products (db w) !! pid) as [p|] eqn:Hp; [|intros [= <- <-]; auto].
  unfold ret at 1.
  intros [(e & H1 & ->)|(s1 & w1 & H1 & H)]%bind_inv.
  { unfold ShrimpProduct_assign_code in H1.
    destruct (decide _); unfold bind, os_urandom16, ret in H1; simplify_eq. }
  assert (db w1 = db w /\ product_id s1 = Some pid) as [Hdb1 Hid1].
  { unfold ShrimpProduct_assign_code in H1.
    destruct (decide _); unfold bind, os_urandom16, ret in H1; by simplify_eq. }
  clear H1. unfold to_python, submitted_weight in *.
  destruct (POST_weight request) as [| |q];
    destruct (POST_price request) as [| |pr];
    try (unfold bind, raise, ret in H; simplify_eq; rewrite Hdb1; by auto).
  all: unfold bind at 1 2 in H; unfold ret at 1 2 in H;
    apply bind_inv in H as [(e & H & ->)|(s2 & w2 & H & Hr)];
    unfold ShrimpProduct_super_save, bind, get_db, put_db, ret, raise in H;
    cbn [product_id set_price set_weight support_code] in H;
    rewrite Hid1 in H; destruct (taken _ _ _ _);
    try (unfold ret in Hr); simplify_eq; rewrite ?Hdb1; cbn; auto.
  all: split; [done|]; right; eexists _, _;
    split_and!; [reflexivity | | done | reflexivity]; reflexivity.
Qed.

Lemma same_but_qr_refl t : same_but_qr t t.
Proof.
  intros k. destruct (t !! k) as [row|] eqn:Hk; [right|by left].
  exists row, (qr_code row). split; [done|]. by destruct row.
Qed.

Lemma same_but_qr_trans t1 t2 t3 :
  same_but_qr t1 t2 -> same_but_qr t2 t3 -> same_but_qr t1 t3.
Proof.
  intros H12 H23 k.
  destruct (H12 k) as [[? ?]|(r1 & n1 & ? & Hr2)], (H23 k) as [[? ?]|(r2 & n2 & ? & ?)];
    simplify_eq; [by left|]. right. exists r1, n2. split; [done|].
  match goal with H : _ = Some (set_qr_code n2 _) |- _ => rewrite H end. done.
Qed.

Lemma same_but_qr_insert t k row name :
  t !! k = Some row -> same_but_qr t (<[k := set_qr_code name row]> t).
Proof.
  intros Hk j. destruct (decide (j = k)) as [->|Hne].
  - right. exists row, name. by rewrite lookup_insert_eq.
  - rewrite lookup_insert_ne by done. apply same_but_qr_refl.
Qed.

Lemma generate_each_frame queryset n w o w' :
  generate_each env queryset n w = (o, w') ->
  products (db w') = products (db w) /\
  farming_companies (db w') = farming_companies (db w) /\
  exporting_companies (db w') = exporting_companies (db w) /\
  same_but_qr (packages (db w)) (packages (db w')).
Proof.
  revert n w. induction queryset as [|package queryset IH]; intros n w; simpl.
  { intros [= <- <-]. split_and!; try done. apply same_but_qr_refl. }
  intros [(e & H & ->)|(s & w1 & H & Hrest)]%bind_inv.
  - apply generate_qr_code_frame in H
      as (Hp & Hf & He & _ & _ & [(? & _ & Hdb)|(? & ? & ? & ? & ? & ? & _)]);
      [|done].
    rewrite Hdb. split_and!; try done. apply same_but_qr_refl.
  - apply IH in Hrest as (Hp' & Hf' & He' & Hq').
    apply generate_qr_code_frame in H
      as (Hp & Hf & He & _ & _ & [(? & ? & _)|Hgen]); [done|].
    destruct Hgen as (k & row & name & data & img & _ & _ & _ & Hrow & _ & Hpk).
    rewrite Hp', Hf', He', Hp, Hf, He. split_and!; try done.
    eapply same_but_qr_trans; [|exact Hq'].
    rewrite Hpk. by apply same_but_qr_insert.
Qed.

Lemma generate_qr_codes_frame selected w o w' :
  generate_qr_codes env selected w = (o, w') ->
  products (db w') = products (db w) /\
  farming_companies (db w') = farming_companies (db w) /\
  exporting_companies (db w') = exporting_companies (db w) /\
  same_but_qr (packages (db w)) (packages (db w')).
Proof.
  unfold generate_qr_codes, bind at 1, get_db at 1. apply generate_each_frame.
Qed.

Lemma batch_step_same_but_qr d d' :
  same_but_qr (packages d) (packages d') ->
  batch_numbers_ok d ->
  batch_numbers_ok d' /\ keeps_batch_numbers (packages d) (packages d').
Proof.
  intros Hq [Hu Hf]. split; [split|].
  - intros i j a b Hi Hj Hab.
    destruct (Hq i) as [[_ ?]|(ra & na & Hra & Ha)]; [congruence|].
    destruct (Hq j) as [[_ ?]|(rb & nb & Hrb & Hb)]; [congruence|].
    simplify_eq. by eapply Hu.
  - intros k p' Hk. destruct (Hq k) as [[_ ?]|(r & n & Hr & Hr')]; [congruence|].
    simplify_eq. cbn. by eapply (Hf k).
  - intros k p Hk. destruct (Hq k) as [[? _]|(r & n & Hr & Hr')]; [congruence|].
    simplify_eq. eauto.
Qed.

Lemma batch_step_insert d d' k x :
  packages d' = <[k := x]> (packages d) ->
  batch_numbers_ok d ->
  taken batch_number (packages d) k (batch_number x) = false ->
  Ident.batch_format Ident.is_upper_alnum (batch_number x) = true ->
  (packages d !! k = None \/
   exists row, packages d !! k = Some row /\ batch_number row = batch_number x) ->
  batch_numbers_ok d' /\ keeps_batch_numbers (packages d) (packages d').
Proof.
  intros Hpk [Hu Hf] Ht Hfmt Hk. unfold batch_numbers_ok, keeps_batch_numbers.
  rewrite Hpk. split; [split|].
  - by apply unique_on_insert.
  - by apply map_Forall_insert_2.
  - intros j p Hj. destruct (decide (j = k)) as [->|Hne].
    + rewrite lookup_insert_eq. destruct Hk as [?|(row & ? & ?)]; [congruence|].
      simplify_eq. eauto.
    + rewrite lookup_insert_ne by done. eauto.
Qed.

Lemma batch_format_nonempty cls s :
  Ident.batch_format cls s = true -> s <> ""%string.
Proof. intros H ->. discriminate. Qed.

Lemma serve_batch_numbers a w :
  batch_numbers_ok (db w) ->
  batch_numbers_ok (db (serve env a w)) /\
  keeps_batch_numbers (packages (db w)) (packages (db (serve env a w))).
Proof.
  intros Hok. destruct a as [request|pid request|selected|k edits]; unfold serve.
  - destruct (post env request w) as [o w'] eqn:Hpost. cbn [snd].
    apply post_cases in Hpost as [[_ ->]|(c & _ & Hcm)].
    { split; [done|]. intros j p ?; eauto. }
    destruct Hcm as (pkg & sp & data & img & _ & _ & _ & _ & _ & Hb & Ht & _ & _ & _ & _ & _ & _ & Hdb).
    eapply (batch_step_insert _ _ (next_pk (packages (db w))) pkg); try done.
    + by rewrite Hdb.
    + rewrite Hb. eapply IdentFacts.batch_format_impl;
        [apply IdentFacts.upper_hex_alnum|apply IdentFacts.new_batch_number_hex].
    + left. apply next_pk_fresh.
  - destruct (EditProductView_post env pid request w) as [o w'] eqn:Hedit. cbn [snd].
    apply EditProductView_post_frame in Hedit as [Hpk _].
    apply batch_step_same_but_qr; [|done]. rewrite Hpk. apply same_but_qr_refl.
  - destruct (generate_qr_codes env selected w) as [o w'] eqn:Hgen. cbn [snd].
    apply generate_qr_codes_frame in Hgen as (_ & _ & _ & Hq).
    by apply batch_step_same_but_qr.
  - destruct (change_package env k edits w) as [o w'] eqn:Hch. cbn [snd].
    unfold change_package in Hch. unfold bind at 1 in Hch. rewrite related_eq in Hch.
    destruct (packages (db w) !! k) as [row|] eqn:Hrow; cycle 1.
    { injection Hch as <- <-. split; [done|]. intros j p ?; eauto. }
    apply ProductPackage_save_frame in Hch as (_ & _ & _ & [Hpk|Hins]).
    { apply batch_step_same_but_qr; [|done]. rewrite Hpk. apply same_but_qr_refl. }
    destruct Hins as (k' & x & Hpk & Hbx & Ht & Hk').
    cbn [batch_number package_id set_package_id set_production_date
         set_expiration_date] in Hbx, Hk'.
    assert (Hrowok : Ident.batch_format Ident.is_upper_alnum (batch_number row) = true).
    { destruct Hok as [_ Hf]. by eapply (Hf k). }
    rewrite decide_False in Hbx by (by eapply batch_format_nonempty).
    eapply (batch_step_insert _ _ k' x); try done.
    + by rewrite Hbx.
    + destruct Hk' as [[[= <-] _]|?]; [right|by left]. eauto.
Qed.

Lemma keeps_batch_numbers_trans t1 t2 t3 :
  keeps_batch_numbers t1 t2 -> keeps_batch_numbers t2 t3 ->
  keeps_batch_numbers t1 t3.
Proof.
  intros H12 H23 k p Hk. destruct (H12 k p Hk) as (p2 & Hk2 & <-). eauto.
Qed.

Lemma serve_nonneg_weights a w :
  edit_weights_nonneg a ->
  nonneg_weights (db w) -> nonneg_weights (db (serve env a w)).
Proof.
  intros Ha Hnn. unfold nonneg_weights in *.
  destruct a as [request|pid request|selected|k edits]; unfold serve.
  - destruct (post env request w) as [o w'] eqn:Hpost. cbn [snd].
    apply post_cases in Hpost as [[_ ->]|(c & Hck & Hcm)]; [done|].
    destruct Hck as (p & _ & Hp & Hcp & _ & _ & _ & Hle).
    destruct Hcm as (pkg & sp & data & img & _ & _ & _ & _ & _ & _ & _ & _ & _ & _ & Hsp & _ & _ & Hdb).
    rewrite Hdb. cbn [products set_products]. apply map_Forall_insert_2; [|done].
    rewrite Hsp, Hcp. cbn. lra.
  - destruct (EditProductView_post env pid request w) as [o w'] eqn:Hedit. cbn [snd].
    apply EditProductView_post_frame in Hedit as [_ [->|(x & q & Hq & Hx & _ & ->)]];
      [done|].
    apply map_Forall_insert_2; [|done]. rewrite Hx. by apply Ha.
  - destruct (generate_qr_codes env selected w) as [o w'] eqn:Hgen. cbn [snd].
    apply generate_qr_codes_frame in Hgen as (-> & _). done.
  - destruct (change_package env k edits w) as [o w'] eqn:Hch. cbn [snd].
    unfold change_package in Hch. unfold bind at 1 in Hch. rewrite related_eq in Hch.
    destruct (packages (db w) !! k) as [row|] eqn:Hrow; [|by injection Hch as <- <-].
    apply ProductPackage_save_frame in Hch as (-> & _). done.
Qed.

Lemma ShrimpProduct_save_new_eq self w :
  support_code self = ""%string ->
  ShrimpProduct_save env self w =
  let code := Ident.new_support_code (urandom env (draws w)) in
  let k := match product_id self with
           | Some k => k
           | None => next_pk (products (db w))
           end in
  let saved := set_product_id (Some k) (set_support_code code self) in
  let w1 := {| db := db w; media := media w; ticks := ticks w;
               draws := S (draws w) |} in
  if taken support_code (products (db w)) k code
  then (Raise IntegrityError, w1)
  else (Ok saved, set_db (set_products (<[k := saved]> (products (db w))) (db w)) w1).
Proof.
  intros Hc. unfold ShrimpProduct_save, ShrimpProduct_assign_code.
  rewrite decide_True by done.
  unfold ShrimpProduct_super_save, bind, os_urandom16, get_db, put_db, ret, raise.
  cbn [db support_code product_id set_support_code].
  destruct (taken _ _ _ _); reflexivity.
Qed.




(** [save] up to and including the row write does not look at the renderer;
    with an artifact in place it does nothing more. *)
Lemma ProductPackage_save_with_artifact self w :
  qr_code self <> ""%string ->
  (forall render',
     ProductPackage_save (with_render render' env) self w
     = ProductPackage_save env self w) /\
  media (snd (ProductPackage_save env self w)) = media w /\
  (forall s w', ProductPackage_save env self w = (Ok s, w') ->
     qr_code s = qr_code self /\
     exists k, package_id s = Some k /\ packages (db w') !! k = Some s).
Proof.
  intros Hqr.
  assert (Hlast : forall r s3 w3, qr_code s3 = qr_code self ->
    match ProductPackage_super_save (with_render r env) s3 w3 with
    | (Ok s, w') =>
        (if decide (qr_code s = ""%string)
         then generate_qr_code (with_render r env) s else ret s) w'
    | (Raise e, w') => (Raise e, w')
    end = ProductPackage_super_save env s3 w3).
  { intros r s3 w3 Hq.
    change (ProductPackage_super_save (with_render r env) s3 w3)
      with (ProductPackage_super_save env s3 w3).
    destruct (ProductPackage_super_save env s3 w3) as [[s4|ex] w4] eqn:Hs; [|done].
    apply ProductPackage_super_save_frame in Hs
      as (_ & _ & [(? & ? & _)|(k & s & [= <-] & Hs4 & _)]); [done|].
    rewrite decide_False; [done|]. rewrite Hs4. cbn. by rewrite Hq. }
  assert (Hpre : exists s3 w3,
    (forall e, ProductPackage_save (with_render e env) self w
               = ProductPackage_super_save env s3 w3) /\
    qr_code s3 = qr_code self /\ media w3 = media w).
  { unfold ProductPackage_save.
    destruct (decide (batch_number self = ""%string)) as [Hb|Hb];
      destruct (production_date self) as [pd|] eqn:Hpd;
      destruct (expiration_date self) as [ed|] eqn:Hed;
      eexists _, _;
      (split;
       [intros render';
        repeat (progress
                  (cbn -[ProductPackage_super_save generate_qr_code decide];
                   rewrite ?Hpd, ?Hed));
        apply Hlast; cbn; done
       |split; cbn; done]). }
  destruct Hpre as (s3 & w3 & Heq & Hq3 & Hm3).
  assert (Heq' : ProductPackage_save env self w = ProductPackage_super_save env s3 w3).
  { rewrite <- (Heq (qr_render env)). by destruct env. }
  split; [intros r; by rewrite Heq, Heq'|].
  rewrite Heq'. split.
  - destruct (ProductPackage_super_save env s3 w3) as [o w4] eqn:Hs.
    apply ProductPackage_super_save_frame in Hs as (Hm & _). cbn. congruence.
  - intros s w' Hs.
    apply ProductPackage_super_save_frame in Hs
      as (_ & _ & [(? & ? & _)|(k & s' & [= <-] & Hs4 & _ & Hdb & _)]); [done|].
    split; [rewrite Hs4; cbn; done|].
    exists k. split; [rewrite Hs4; done|]. rewrite Hdb. cbn. apply lookup_insert_eq.
Qed.

Lemma unique_not_taken {A} (col : A -> string) (t : gmap Z A) k row :
  unique_on col t -> t !! k = Some row -> taken col t k (col row) = false.
Proof.
  intros Hu Hk. apply taken_false. intros k' row' Hk' Hne Hcol.
  apply Hne. by eapply Hu.
Qed.

Lemma post_transaction_commits c w p :
  products (db w) !! ck_product_id c = Some p ->
  ck_product c = set_product_id (Some (ck_product_id c)) p ->
  db_constraints (db w) ->
  is_Some (exporting_companies (db w) !! ck_company c) ->
  taken batch_number (packages (db w)) (next_pk (packages (db w)))
        (Ident.new_batch_number (urandom env (draws w))) = false ->
  (forall data,
     qr_batch_number data = Ident.new_batch_number (urandom env (draws w)) ->
     is_Some (qr_render env data)) ->
  exists o w', post_transaction env c w = (o, w') /\ committed env c w w' o.
Proof.
  intros Hp Hcp Hdb [e He] Hfree Hrender.
  destruct (post_transaction env c w) as [o w'] eqn:Hpost.
  exists o, w'. split; [done|].
  assert (Hid : product_id (ck_product c) = Some (ck_product_id c)) by by rewrite Hcp.
  destruct (post_transaction_cases _ _ _ _ Hid Hpost) as [(ex & -> & _)|Hcm]; [|done].
  exfalso. revert Hpost. unfold post_transaction.
  intros [(ex' & Hat & _)|(r & w1 & _ & Hr)]%bind_inv; [|done].
  unfold atomic in Hat.
  match type of Hat with
  | match ?m w with _ => _ end = _ => assert (exists a w2, m w = (Ok a, w2)) as (a & w2 & Hok)
  end; [|by rewrite Hok in Hat].
  unfold bind at 1 2 3. unfold now at 1 2. cbv beta iota.
  rewrite ProductPackage_create_eq.
  cbn [db media ticks draws batch_number inserted_package].
  rewrite Hfree. rewrite generate_qr_code_eq.
  cbn [db media ticks draws set_db set_packages products farming_companies
       exporting_companies packages package_id batch_number shrimp_product
       farming_company exporting_company inserted_package].
  rewrite Hp, Hcp. cbn [company set_product_id].
  destruct (product_company_exists _ Hdb _ _ Hp) as [f ->]. rewrite He.
  match goal with
  | |- context [qr_render env ?d] => destruct (Hrender d) as [img ->]; [done|]
  end.
  rewrite lookup_insert_eq. unfold bind at 1.
  erewrite ShrimpProduct_save_eq; [|reflexivity|].
  - cbn [db products set_db set_packages support_code set_weight set_product_id].
    rewrite (unique_not_taken support_code _ _ p); [|apply Hdb|done].
    unfold ret. eauto.
  - cbn. by eapply support_code_assigned.
Qed.

Lemma post_two_steps request w :
  post env request w =
  match post_check request w with
  | (Ok (inl r), w') => (Ok r, w')
  | (Ok (inr c), w') => post_commit env c w'
  | (Raise e, w') => (Raise e, w')
  end.
Proof.
  unfold post, post_check, post_commit.
  destruct (get_company_from_session_eq request w) as (co & Hco & _).
  rewrite !(bind_eq _ _ _ _ _ Hco).
  destruct co as [cid|]; [|done].
  destruct (POST_shrimp_product request) as [pid|]; [|done].
  unfold try_except, bind.
  destruct (post_validate request cid pid w) as [[[r|c]|e] w1]; try done.
  rewrite post_except_eq. by destruct e.
Qed.

End Facts.

(** ** The scenarios satisfy what the theorems ask of a world *)

Lemma unique_on_singleton {A} (col : A -> string) (k : Z) (a : A) :
  unique_on col ({[ k := a ]} : gmap Z A).
Proof.
  intros i j x y [-> _]%lookup_singleton_Some [-> _]%lookup_singleton_Some _.
  done.
Qed.

Lemma unique_on_empty {A} (col : A -> string) : unique_on col (∅ : gmap Z A).
Proof. intros i j x y Hi. by rewrite lookup_empty in Hi. Qed.

Lemma shop_constraints : db_constraints Scenario.shop.
Proof.
  split; unfold Scenario.shop; cbn [products packages farming_companies].
  - apply unique_on_singleton.
  - intros k p [_ <-]%lookup_singleton_Some. done.
  - apply unique_on_empty.
  - intros k p [_ <-]%lookup_singleton_Some. by eexists.
Qed.

Lemma request_logged_in uw n d :
  is_Some (exporting_companies d !! 7) ->
  logged_in (Scenario.request uw n) d 7.
Proof. intros H. repeat split; done. Qed.

(** ** Package creation: the contract of [CreatePackageView.post] *)

(** C1, as amended.  For a logged-in exporter and a well-formed request:
    a unit weight or count that is not positive is answered with
    [InvalidQuantity] and the world is untouched, whether or not the product
    exists.  Otherwise let the unit weight and the product's stock be values
    of their columns (two decimal places, within the width) and the count be
    within the range of the quantity column, so that the view's [Decimal]
    product is the exact total.  A total above the stock is answered with
    [InsufficientStock] carrying that stock, world untouched.  A total within
    the stock, provided the database satisfies its declared constraints, no
    package holds the batch number drawn and the QR renderer succeeds on the
    payload carrying it, inserts exactly one package row under an unused key
    and replaces the product's weight by the stock minus the total, a value
    the column gives back unchanged.  Whatever the request, an outcome other
    than the summary page leaves the database as it was. *)
Theorem create_package_contract (env : Env) :
  (forall request w company_id pid uw n,
     logged_in request (db w) company_id ->
     POST_shrimp_product request = Some pid ->
     POST_package_weight request = Value uw ->
     POST_package_count request = Value n ->
     ((uw <= 0)%Q \/ n <= 0 ->
      post env request w = (Ok (Redirect UrlCreatePackage InvalidQuantity), w)) /\
     (forall p, (0 < uw)%Q -> 0 < n ->
        in_column 8 2 uw -> n <= 2147483647 ->
        products (db w) !! pid = Some p ->
        in_column 10 2 (weight p) ->
        (weight p < uw * inject_Z n)%Q ->
        post env request w
        = (Ok (Redirect UrlCreatePackage (InsufficientStock (weight p))), w)) /\
     (forall p, (0 < uw)%Q -> 0 < n ->
        in_column 8 2 uw -> n <= 2147483647 ->
        products (db w) !! pid = Some p ->
        in_column 10 2 (weight p) ->
        (uw * inject_Z n <= weight p)%Q ->
        db_constraints (db w) ->
        (forall k row, packages (db w) !! k = Some row ->
           batch_number row <> Ident.new_batch_number (urandom env (draws w))) ->
        (forall data,
           qr_batch_number data = Ident.new_batch_number (urandom env (draws w)) ->
           is_Some (qr_render env data)) ->
        exists pkg w' k p',
          post env request w
          = (Ok (Summary pkg n uw (uw * inject_Z n) (weight p)
                   (weight p - uw * inject_Z n)), w') /\
          packages (db w) !! k = None /\
          packages (db w') = <[k := pkg]> (packages (db w)) /\
          shrimp_product pkg = pid /\
          package_weight pkg = uw /\
          quantity pkg = n /\
          products (db w') = <[pid := p']> (products (db w)) /\
          p' = set_weight (weight p - uw * inject_Z n)
                 (set_product_id (Some pid) p) /\
          exists q, DecimalField 10 2 (weight p') = Some q /\
                    (q == weight p - uw * inject_Z n)%Q)) /\
  (forall request w o w',
     post env request w = (o, w') -> is_summary o = false -> db w' = db w).
Proof.
  split; cycle 1.
  { intros request w o w' Hpost Hns.
    apply post_cases in Hpost as [[_ ?]|(c & _ & Hcm)]; [done|].
    destruct Hcm as (? & ? & ? & ? & -> & _). done. }
  intros request w cid pid uw n Hlog Hpid Hw Hn.
  assert (Hpost : post env request w =
            try_except
              (bind (post_validate request cid pid)
                 (fun v => match v with
                           | inl r => ret r
                           | inr c => post_transaction env c
                           end)) post_except w).
  { unfold post.
    destruct (get_company_from_session_eq request w) as (co & Hco & Hin).
    rewrite (bind_eq _ _ _ _ _ Hco), (Hin _ Hlog), Hpid. done. }
  rewrite Hpost. unfold try_except, bind.
  rewrite (post_validate_eq request cid pid uw n w Hw Hn).
  split; [|split].
  - intros Hbad.
    assert (Qle_bool uw 0 || (n <=? 0) = true) as ->; [|done].
    apply orb_true_iff. destruct Hbad as [?|?];
      [left; by apply Qle_bool_iff|right; by apply Z.leb_le].
  - intros p Huw Hn0 _ _ Hp _ Hlt.
    assert (Qle_bool uw 0 || (n <=? 0) = false) as ->.
    { apply orb_false_iff. split; [|by apply Z.leb_gt].
      apply not_true_is_false. rewrite Qle_bool_iff. lra. }
    rewrite Hp.
    assert (negb (Qle_bool (uw * inject_Z n) (weight p)) = true) as ->; [|done].
    apply negb_true_iff, not_true_is_false. rewrite Qle_bool_iff. lra.
  - intros p Huw Hn0 Hcol _ Hp Hstock Hle Hdb Hfree Hrender.
    assert (Qle_bool uw 0 || (n <=? 0) = false) as ->.
    { apply orb_false_iff. split; [|by apply Z.leb_gt].
      apply not_true_is_false. rewrite Qle_bool_iff. lra. }
    rewrite Hp.
    assert (negb (Qle_bool (uw * inject_Z n) (weight p)) = false) as ->.
    { apply negb_false_iff. by apply Qle_bool_iff. }
    match goal with
    | |- context [post_transaction env ?c w] =>
        destruct (post_transaction_commits env c w p) as (o & w' & -> & Hcm)
    end; try done.
    { destruct Hlog as (_ & _ & _ & ?). done. }
    { apply taken_false. intros k row Hrow _. by eapply Hfree. }
    destruct Hcm as (pkg & sp & data & img & -> & Hk & Hsp & Hpw & Hq & _ & _ & _ & _ & _
                     & Hspeq & Hcode & _ & Hdb').
    cbn [ck_count ck_weight ck_total ck_product ck_product_id weight
         set_product_id] in *.
    assert (Hsp' : sp = set_weight (weight p - uw * inject_Z n)
                          (set_product_id (Some pid) p)).
    { rewrite Hspeq, Hcode; [by destruct p|].
      cbn. by eapply support_code_assigned. }
    exists pkg, w', (next_pk (packages (db w))), sp.
    split; [done|]. split; [apply next_pk_fresh|].
    rewrite Hdb'. cbn [packages products set_products set_packages].
    split_and!; try done.
    rewrite Hsp'. cbn [weight set_weight].
    apply in_column_DecimalField; [done|].
    apply in_column_deduct; try done.
    assert (0 < inject_Z n)%Q by (change 0%Q with (inject_Z 0); by rewrite <- Zlt_Qlt).
    nra.
Qed.

Lemma create_package_contract_witness :
  (exists pkg w',
     post Scenario.env_ok (Scenario.request 5 10) Scenario.world
     = (Ok (Summary pkg 10 5 (5 * inject_Z 10) 100 (100 - 5 * inject_Z 10)), w') /\
     packages (db w') = {[ 1 := pkg ]} /\
     products (db w')
     = {[ 3 := set_weight (100 - 5 * inject_Z 10) Scenario.tiger ]}) /\
  post Scenario.env_ok (Scenario.request 0 10) Scenario.world
  = (Ok (Redirect UrlCreatePackage InvalidQuantity), Scenario.world) /\
  post Scenario.env_ok (Scenario.request 10 11) Scenario.world
  = (Ok (Redirect UrlCreatePackage (InsufficientStock 100)), Scenario.world).
Proof.
  destruct (create_package_contract Scenario.env_ok) as [H _].
  assert (Hlog : forall uw n, logged_in (Scenario.request uw n) (db Scenario.world) 7).
  { intros uw n. apply request_logged_in. by eexists. }
  assert (Hstock : in_column 10 2 (weight Scenario.tiger)).
  { exists 10000. split; reflexivity. }
  split; [|split].
  - destruct (H (Scenario.request 5 10) Scenario.world 7 3 5%Q 10 (Hlog _ _)
                eq_refl eq_refl eq_refl) as (_ & _ & Hok).
    destruct (Hok Scenario.tiger)
      as (pkg & w' & k & p' & Hpost & Hnew & Hpk & _ & _ & _ & Hpr & Hp' & _).
    + reflexivity.
    + lia.
    + exists 500. split; reflexivity.
    + lia.
    + reflexivity.
    + exact Hstock.
    + vm_compute. discriminate.
    + apply shop_constraints.
    + intros k row Hrow. unfold Scenario.world, Scenario.shop in Hrow.
      cbn [db packages] in Hrow. by rewrite lookup_empty in Hrow.
    + intros data _. by eexists.
    + exists pkg, w'. split; [exact Hpost|].
      assert (k = 1) as ->.
      { pose proof Hpost as Hpost'. vm_compute in Hpost'.
        injection Hpost' as _ Hw'. rewrite <- Hw' in Hpk. cbn in Hpk.
        destruct (decide (k = 1)) as [->|Hne]; [done|].
        apply (f_equal (fun t => t !! 1)) in Hpk.
        rewrite lookup_insert_ne in Hpk by done. by vm_compute in Hpk. }
      split.
      * rewrite Hpk. reflexivity.
      * rewrite Hpr, Hp'. reflexivity.
  - destruct (H (Scenario.request 0 10) Scenario.world 7 3 0%Q 10 (Hlog _ _)
                eq_refl eq_refl eq_refl) as (Hbad & _).
    apply Hbad. left. vm_compute. discriminate.
  - destruct (H (Scenario.request 10 11) Scenario.world 7 3 10%Q 11 (Hlog _ _)
                eq_refl eq_refl eq_refl) as (_ & Hshort & _).
    apply (Hshort Scenario.tiger);
      [reflexivity | lia | exists 1000; split; reflexivity | lia
      | reflexivity | exact Hstock | reflexivity].
Defined.

(** C1 as the specification words it fails.  First, a request that is valid
    and within stock creates no package, because the batch number drawn is
    one the table already holds.  Second, a request for 3 packages of
    0.005 kg against 100 kg is valid and within stock and gets its summary
    page, and the stock the weight column then gives back is 99.98: the
    weight was not decremented by exactly the total, 0.015. *)
Lemma create_package_contract_counterexample :
  (let request := Scenario.request 5 10 in
   let w := Scenario.world_with_package in
   logged_in request (db w) 7 /\
   products (db w) !! 3 = Some Scenario.tiger /\
   (0 < 5)%Q /\ 0 < 10 /\ (5 * inject_Z 10 <= weight Scenario.tiger)%Q /\
   fst (post Scenario.env_ok request w) = Raise AttributeError /\
   db (snd (post Scenario.env_ok request w)) = db w) /\
  (let request := Scenario.request (5 # 1000) 3 in
   let w := Scenario.world in
   logged_in request (db w) 7 /\
   products (db w) !! 3 = Some Scenario.tiger /\
   (0 < 5 # 1000)%Q /\ 0 < 3 /\
   ((5 # 1000) * inject_Z 3 <= weight Scenario.tiger)%Q /\
   is_summary (fst (post Scenario.env_ok request w)) = true /\
   exists p' q,
     products (db (snd (post Scenario.env_ok request w))) !! 3 = Some p' /\
     DecimalField 10 2 (weight p') = Some q /\
     (q == 9998 # 100)%Q /\
     ~ (q == weight Scenario.tiger - (5 # 1000) * inject_Z 3)%Q).
Proof.
  split.
  - cbv zeta. split; [apply request_logged_in; by eexists|].
    split; [reflexivity|]. split; [reflexivity|]. split; [lia|].
    split; [vm_compute; discriminate|]. split; vm_compute; reflexivity.
  - cbv zeta. split; [apply request_logged_in; by eexists|].
    split; [reflexivity|]. split; [reflexivity|]. split; [lia|].
    split; [vm_compute; discriminate|]. split; [vm_compute; reflexivity|].
    eexists _, _. split; [vm_compute; reflexivity|].
    split; [vm_compute; reflexivity|].
    split; [vm_compute; reflexivity|].
    intros H. vm_compute in H. discriminate.
Qed.

(** ** Conservation of weight *)

(** One successful creation: the row it inserts and the weight it leaves. *)
Lemma post_summary_row env request w o w' pid p :
  POST_shrimp_product request = Some pid ->
  products (db w) !! pid = Some p ->
  post env request w = (o, w') ->
  is_summary o = true ->
  exists k pkg p',
    o = Ok (Summary pkg (quantity pkg) (package_weight pkg) (total_weight pkg)
              (weight p) (weight p - total_weight pkg)) /\
    POST_package_weight request = Value (package_weight pkg) /\
    POST_package_count request = Value (quantity pkg) /\
    packages (db w) !! k = None /\
    packages (db w') = <[k := pkg]> (packages (db w)) /\
    shrimp_product pkg = pid /\
    (0 < package_weight pkg)%Q /\ 0 < quantity pkg /\
    (total_weight pkg <= weight p)%Q /\
    products (db w') !! pid = Some p' /\
    weight p' = (weight p - total_weight pkg)%Q.
Proof.
  intros Hpid Hp Hpost Hs. pose proof Hpost as Hpost'.
  apply post_cases in Hpost as [[Hns _]|(c & Hck & Hcm)]; [congruence|].
  destruct Hck as (p0 & Hpid' & Hp0 & Hcp & Htot & Huw & Hn & Hle).
  destruct Hcm as (pkg & sp & data & img & -> & _ & Hspk & Hpw & Hq & _ & _ & _ & _ & _
                   & Hsp & _ & _ & Hdb).
  assert (ck_product_id c = pid) as Hc by congruence. rewrite Hc in *.
  assert (p0 = p) as -> by congruence.
  apply post_summary_fields in Hpost' as [Hfw Hfn].
  exists (next_pk (packages (db w))), pkg, sp.
  unfold total_weight. rewrite Hpw, Hq, <- Htot, Hdb.
  cbn [products packages set_products set_packages].
  assert (Hwp : weight (ck_product c) = weight p) by (by rewrite Hcp).
  rewrite Hwp. split_and!; try done.
  - apply next_pk_fresh.
  - apply lookup_insert_eq.
  - rewrite Hsp. cbn. by rewrite Hwp.
Qed.

(** C2, as amended.  Along any run of package creations against one product
    in which every request got its summary page, with unit weights and an
    initial stock that are values of their columns (two decimal places,
    within the width) and counts within the range of the quantity column:
    each request inserted one package row of that product under a key of its
    own, nothing else was added to the table, the initial weight minus the
    sum of [package_weight * quantity] over the rows inserted is the final
    weight, and the final weight is not negative (after at least one
    creation, or from a non-negative start).  The rows' weights and the
    final weight are again column values, so the database gives back the
    numbers the sum is taken over. *)
Theorem package_creation_conserves_weight (env : Env) (requests : list Request) :
  forall w os w' pid p0,
    Forall (fun r => POST_shrimp_product r = Some pid) requests ->
    Forall fits_columns requests ->
    products (db w) !! pid = Some p0 ->
    in_column 10 2 (weight p0) ->
    post_all env requests w = (os, w') ->
    forallb is_summary os = true ->
    exists p' created,
      length created = length requests /\
      NoDup created.*1 /\
      (forall k pkg, (k, pkg) ∈ created ->
         packages (db w) !! k = None /\ shrimp_product pkg = pid /\
         in_column 8 2 (package_weight pkg)) /\
      packages (db w') = list_to_map created ∪ packages (db w) /\
      products (db w') !! pid = Some p' /\
      (weight p0 - sumQ (total_weight <$> created.*2) == weight p')%Q /\
      in_column 10 2 (weight p') /\
      (requests <> [] \/ (0 <= weight p0)%Q -> (0 <= weight p')%Q).
Proof.
  induction requests as [|request requests IH];
    intros w os w' pid p0 Hall Hfit Hp Hcol Hrun Hsum.
  { injection Hrun as <- <-. exists p0, []. cbn.
    split_and!; try done.
    - constructor.
    - intros k pkg Hin. by apply elem_of_nil in Hin.
    - by rewrite (left_id_L ∅ (∪)).
    - lra.
    - intros [?|?]; done. }
  cbn [post_all] in Hrun.
  destruct (post env request w) as [o w1] eqn:Hpost.
  destruct (post_all env requests w1) as [os' w2] eqn:Hrest.
  injection Hrun as <- <-.
  cbn [forallb] in Hsum. apply andb_true_iff in Hsum as [Ho Hos].
  apply Forall_cons in Hall as [Hpid Hall].
  apply Forall_cons in Hfit as [[Hfw Hfn] Hfit].
  destruct (post_summary_row _ _ _ _ _ _ _ Hpid Hp Hpost Ho)
    as (k & pkg & p1 & _ & Hrw & Hrn & Hk & Hpk & Hspk & Huw & Hn & Hle & Hp1 & Hw1).
  assert (Hnn : (0 <= total_weight pkg)%Q).
  { unfold total_weight.
    assert (0 < inject_Z (quantity pkg))%Q
      by (change 0%Q with (inject_Z 0); by rewrite <- Zlt_Qlt).
    nra. }
  assert (Hcol1 : in_column 10 2 (weight p1)).
  { rewrite Hw1. apply in_column_deduct; try done. by apply Hfw. }
  destruct (IH _ _ _ _ _ Hall Hfit Hp1 Hcol1 Hrest Hos)
    as (p' & created & Hlen & Hnd & Hnew & Hpk' & Hp' & Hcons & Hcol' & Hnn').
  assert (Hk' : k ∉ created.*1).
  { intros ((k' & pkg') & -> & Hin)%list_elem_of_fmap. cbn in Hin.
    destruct (Hnew _ _ Hin) as (Hnone & _).
    by rewrite Hpk, lookup_insert_eq in Hnone. }
  exists p', ((k, pkg) :: created). split_and!.
  - cbn. by rewrite Hlen.
  - cbn. by constructor.
  - intros k' pkg' [[= -> ->]|Hin]%elem_of_cons.
    + split_and!; [done|done|by apply Hfw].
    + destruct (Hnew _ _ Hin) as (Hnone & ? & ?). split_and!; try done.
      rewrite Hpk in Hnone. by apply lookup_insert_None in Hnone as [? _].
  - rewrite Hpk', Hpk, list_to_map_cons.
    rewrite <- insert_union_l. symmetry. apply insert_union_r.
    by apply not_elem_of_list_to_map_1.
  - done.
  - cbn [fmap list_fmap sumQ foldr snd].
    fold (sumQ (total_weight <$> created.*2)).
    rewrite Hw1 in Hcons. lra.
  - done.
  - intros _. apply Hnn'. right. rewrite Hw1. unfold total_weight in *. lra.
Qed.

Lemma package_creation_conserves_weight_witness :
  exists p' created,
    length created = 2%nat /\
    packages (db (snd (post_all Scenario.env_ok
                         [Scenario.request 5 10; Scenario.request 2 5]
                         Scenario.world)))
    = list_to_map created ∪ packages (db Scenario.world) /\
    products (db (snd (post_all Scenario.env_ok
                         [Scenario.request 5 10; Scenario.request 2 5]
                         Scenario.world))) !! 3 = Some p' /\
    (100 - sumQ (total_weight <$> created.*2) == weight p')%Q /\
    (weight p' == 40)%Q.
Proof.
  destruct (post_all Scenario.env_ok
              [Scenario.request 5 10; Scenario.request 2 5] Scenario.world)
    as [os w'] eqn:Hrun.
  destruct (package_creation_conserves_weight Scenario.env_ok
              [Scenario.request 5 10; Scenario.request 2 5]
              Scenario.world os w' 3 Scenario.tiger)
    as (p' & created & Hlen & Hnd & Hnew & Hpk & Hp' & Hcons & Hcol & Hnn).
  - repeat constructor.
  - apply Forall_cons. split.
    { split; [intros uw [= <-]; exists 500; split; reflexivity|intros n [= <-]; lia]. }
    apply Forall_cons. split; [|constructor].
    split; [intros uw [= <-]; exists 200; split; reflexivity|intros n [= <-]; lia].
  - reflexivity.
  - exists 10000. split; reflexivity.
  - exact Hrun.
  - vm_compute in Hrun. injection Hrun as <- <-. reflexivity.
  - exists p', created. cbn [snd]. split; [exact Hlen|]. split; [exact Hpk|].
    split; [exact Hp'|]. split; [exact Hcons|].
    vm_compute in Hrun. injection Hrun as _ <-.
    vm_compute in Hp'. injection Hp' as <-. reflexivity.
Defined.

(** C2 as the specification words it fails.  Three packages of 0.005 kg are
    requested against 100 kg; the request is valid and within stock and gets
    its summary page.  The package row is then given back by the
    [package_weight] column with weight 0.00 and the product by the [weight]
    column with 99.98: the initial weight minus [packageWeight * quantity]
    of the package created is 100, not the final available weight. *)
Lemma package_creation_conserves_weight_counterexample :
  let request := Scenario.request (5 # 1000) 3 in
  let result := post_all Scenario.env_ok [request] Scenario.world in
  forallb is_summary (fst result) = true /\
  exists pkg p' uw' weight',
    packages (db (snd result)) = {[ 1 := pkg ]} /\
    quantity pkg = 3 /\
    products (db (snd result)) !! 3 = Some p' /\
    DecimalField 8 2 (package_weight pkg) = Some uw' /\
    DecimalField 10 2 (weight p') = Some weight' /\
    (uw' == 0)%Q /\ (weight' == 9998 # 100)%Q /\
    ~ (weight Scenario.tiger - uw' * inject_Z (quantity pkg) == weight')%Q.
Proof.
  cbv zeta. split; [vm_compute; reflexivity|].
  eexists _, _, _, _.
  split; [vm_compute; reflexivity|].
  split; [reflexivity|].
  split; [vm_compute; reflexivity|].
  split; [vm_compute; reflexivity|].
  split; [vm_compute; reflexivity|].
  split; [vm_compute; reflexivity|].
  split; [vm_compute; reflexivity|].
  intros H. vm_compute in H. discriminate.
Qed.

(** ** Concurrent requests *)

(** C3 on the code.  Two exporters each ask for 60 kg of a product that has
    100 kg.  When both requests pass the stock check before either enters
    its atomic block, both commit: two packages, 120 kg deducted, where
    [floor (100 / 60) = 1] creation may succeed; the stored weight ends at
    40.  Served one after the other, the second request is refused. *)
Theorem concurrent_requests_oversell :
  let threads := [Pending (Scenario.request 60 1); Pending (Scenario.request 60 1)] in
  let interleaved := run_schedule Scenario.env_ok [0; 1; 0; 1]%nat threads Scenario.world in
  let serial := run_schedule Scenario.env_ok [0; 0; 1; 1]%nat threads Scenario.world in
  (succeeded <$> fst interleaved = [true; true] /\
   (sumQ (deducted <$> fst interleaved) == 120)%Q /\
   Qfloor (100 / 60) = 1 /\
   size (packages (db (snd interleaved))) = 2%nat /\
   (weight <$> products (db (snd interleaved)) !! 3) = Some (100 - 60 * inject_Z 1)%Q) /\
  (succeeded <$> fst serial = [true; false] /\
   fst serial !! 1%nat
   = Some (Finished (Ok (Redirect UrlCreatePackage
                           (InsufficientStock (100 - 60 * inject_Z 1)%Q)))) /\
   size (packages (db (snd serial))) = 1%nat).
Proof.
  cbv zeta. split.
  - split; [vm_compute; reflexivity|]. split; [vm_compute; reflexivity|].
    split; [vm_compute; reflexivity|]. split; vm_compute; reflexivity.
  - split; [vm_compute; reflexivity|]. split; vm_compute; reflexivity.
Qed.

(** ** QR artifact generation and the transaction *)




(** ** Identifier collisions *)




(** ** Expiration date defaults *)




(** ** Batch numbers *)

(** C7.  Start from package rows whose batch numbers are pairwise distinct
    and match [BATCH-[A-Z0-9]{10}].  After any run of package creations,
    product edits, QR regenerations and admin changes, the batch numbers are
    still pairwise distinct and still match the format, and every row that
    was there keeps the batch number it had: a number is given to a row when
    the row is inserted and never again. *)
Theorem batch_number_assigned_once (env : Env) (actions : list action) (w : World) :
  batch_numbers_ok (db w) ->
  batch_numbers_ok (db (serve_all env actions w)) /\
  keeps_batch_numbers (packages (db w)) (packages (db (serve_all env actions w))).
Proof.
  revert w. induction actions as [|a actions IH]; intros w Hok.
  { split; [done|]. intros k p ?; eauto. }
  cbn [serve_all foldl].
  destruct (serve_batch_numbers env a w Hok) as [Hok1 Hkeep1].
  destruct (IH _ Hok1) as [Hok2 Hkeep2].
  split; [done|]. by eapply keeps_batch_numbers_trans.
Qed.

Lemma batch_number_assigned_once_witness :
  let actions :=
    [CreatePackage (Scenario.request 5 10);
     GenerateQrCodes [1];
     ChangePackage 1 {| new_package_weight := 4; new_production_date := 19000;
                        new_expiration_date := 19400; clear_qr_code := true |};
     EditProduct 3 Scenario.negative_edit;
     CreatePackage (Scenario.request 2 5)] in
  batch_numbers_ok (db (serve_all Scenario.env_ok actions Scenario.world)) /\
  (batch_number <$> packages (db (serve_all Scenario.env_ok actions Scenario.world)) !! 1)
  = Some "BATCH-0000000000"%string.
Proof.
  cbv zeta. split.
  - apply batch_number_assigned_once. split.
    + apply unique_on_empty.
    + apply map_Forall_empty.
  - vm_compute. reflexivity.
Defined.

(** ** Non-negative weights *)

(** C8, as amended.  Package creation, QR regeneration and admin changes of
    a package keep every product's weight non-negative; a product edit
    stores the weight it is sent without looking at its sign.  So weights
    stay non-negative along a run exactly as long as its edits submit
    non-negative weights. *)
Theorem weights_stay_nonnegative (env : Env) (actions : list action) (w : World) :
  Forall edit_weights_nonneg actions ->
  nonneg_weights (db w) ->
  nonneg_weights (db (serve_all env actions w)).
Proof.
  revert w. induction actions as [|a actions IH]; intros w Hall Hnn; [done|].
  apply Forall_cons in Hall as [Ha Hall]. cbn [serve_all foldl].
  apply IH; [done|]. by apply serve_nonneg_weights.
Qed.

Lemma weights_stay_nonnegative_witness :
  nonneg_weights
    (db (serve_all Scenario.env_ok
           [CreatePackage (Scenario.request 60 1);
            EditProduct 3 {| POST_product_name := Some "Tiger"%string;
                             POST_weight := Value 30%Q;
                             POST_price := Missing |};
            CreatePackage (Scenario.request 60 1);
            GenerateQrCodes [1]]
           Scenario.world)).
Proof.
  apply weights_stay_nonnegative.
  - repeat constructor. intros q [= <-]. vm_compute. discriminate.
  - unfold nonneg_weights, Scenario.world, Scenario.shop. cbn [db products].
    apply map_Forall_singleton. vm_compute. discriminate.
Defined.

(** C8 as the specification words it fails: an edit that submits -5 leaves
    the product with a negative weight. *)
Lemma weights_stay_nonnegative_counterexample :
  let w' := serve Scenario.env_ok (EditProduct 3 Scenario.negative_edit) Scenario.world in
  nonneg_weights (db Scenario.world) /\
  (weight <$> products (db w') !! 3) = Some (-5)%Q /\
  ~ nonneg_weights (db w').
Proof.
  cbv zeta. split; [|split].
  - unfold nonneg_weights, Scenario.world, Scenario.shop. cbn [db products].
    apply map_Forall_singleton. vm_compute. discriminate.
  - vm_compute. reflexivity.
  - intros Hnn.
    assert (Hl : products (db (serve Scenario.env_ok
                                 (EditProduct 3 Scenario.negative_edit)
                                 Scenario.world)) !! 3
                 = Some (set_weight (-5)%Q Scenario.tiger))
      by (vm_compute; reflexivity).
    specialize (Hnn 3 _ Hl). vm_compute in Hnn. by apply Hnn.
Qed.

(** ** Regeneration *)

(** C9.  Saving a package that has a QR artifact never consults the
    renderer, stores no file and leaves [qr_code] as it was.  A call of
    [generate_qr_code], and the admin action built on it, leave the
    products and companies alone and change no package row except in its
    [qr_code]. *)
Theorem regeneration_only_touches_qr_code (env : Env) (w : World) :
  (forall self,
     qr_code self <> ""%string ->
     (forall render',
        ProductPackage_save (with_render render' env) self w
        = ProductPackage_save env self w) /\
     media (snd (ProductPackage_save env self w)) = media w /\
     (forall s w', ProductPackage_save env self w = (Ok s, w') ->
        qr_code s = qr_code self /\
        exists k, package_id s = Some k /\ packages (db w') !! k = Some s)) /\
  (forall self o w',
     generate_qr_code env self w = (o, w') ->
     products (db w') = products (db w) /\
     farming_companies (db w') = farming_companies (db w) /\
     exporting_companies (db w') = exporting_companies (db w) /\
     (packages (db w') = packages (db w) \/
      exists k row name,
        package_id self = Some k /\ packages (db w) !! k = Some row /\
        packages (db w') = <[k := set_qr_code name row]> (packages (db w)))) /\
  (forall selected o w',
     generate_qr_codes env selected w = (o, w') ->
     products (db w') = products (db w) /\
     farming_companies (db w') = farming_companies (db w) /\
     exporting_companies (db w') = exporting_companies (db w) /\
     same_but_qr (packages (db w)) (packages (db w'))).
Proof.
  split; [|split].
  - intros self Hqr. by apply ProductPackage_save_with_artifact.
  - intros self o w' Hgen.
    apply generate_qr_code_frame in Hgen
      as (Hp & Hf & He & _ & _ & [(? & _ & Hdb)|Hok]).
    + split_and!; try done. left. by rewrite Hdb.
    + destruct Hok as (k & row & name & _ & _ & _ & _ & Hk & Hrow & _ & Hpk).
      split_and!; try done. right. by exists k, row, name.
  - intros selected o w'. apply generate_qr_codes_frame.
Qed.

Lemma regeneration_only_touches_qr_code_witness :
  let result := ProductPackage_save Scenario.env_no_render Scenario.old_package
                  Scenario.world_with_package in
  media (snd result) = [] /\
  (qr_code <$> packages (db (snd result)) !! 1) = Some "qrcodes/old.png"%string.
Proof.
  cbv zeta.
  destruct (regeneration_only_touches_qr_code Scenario.env_no_render
              Scenario.world_with_package) as [H _].
  destruct (H Scenario.old_package) as (_ & Hmedia & _); [discriminate|].
  split; [exact Hmedia|]. vm_compute. reflexivity.
Defined.

(** ** The alphabet of generated identifiers *)

(** C10.  Whatever the random source returns, a generated support code is
    eight characters and a generated batch number is [BATCH-] and ten
    characters, all of them digits or [A]..[F]; so both lie in the
    upper-case alphanumeric format and no character [G]..[Z] occurs in the
    random part. *)
Theorem generated_identifiers_are_hex (r : Z) :
  Ident.code_format Ident.is_upper_hex (Ident.new_support_code r) = true /\
  Ident.batch_format Ident.is_upper_hex (Ident.new_batch_number r) = true /\
  Ident.batch_format Ident.is_upper_alnum (Ident.new_batch_number r) = true /\
  Ident.all_chars (fun c => negb (Ident.is_G_to_Z c)) (Ident.new_support_code r) = true /\
  Ident.all_chars (fun c => negb (Ident.is_G_to_Z c))
    (substring 6 10 (Ident.new_batch_number r)) = true.
Proof.
  pose proof (IdentFacts.new_support_code_hex r) as Hc.
  pose proof (IdentFacts.new_batch_number_hex r) as Hb.
  assert (Hneg : forall c, Ident.is_upper_hex c = true ->
                           negb (Ident.is_G_to_Z c) = true).
  { intros c Hc'. by rewrite IdentFacts.upper_hex_not_G_to_Z. }
  split_and!; try done.
  - eapply IdentFacts.batch_format_impl; [apply IdentFacts.upper_hex_alnum|done].
  - unfold Ident.code_format in Hc. apply andb_true_iff in Hc as [_ Hc].
    eapply IdentFacts.all_chars_impl; [exact Hneg|done].
  - unfold Ident.batch_format in Hb. apply andb_true_iff in Hb as [_ Hb].
    eapply IdentFacts.all_chars_impl; [exact Hneg|done].
Qed.

(** ** More about package creation *)

Section MoreFacts.
Context (env : Env).

Lemma ShrimpProduct_save_raises self w e w' :
  ShrimpProduct_save env self w = (Raise e, w') -> e = IntegrityError.
Proof.
  unfold ShrimpProduct_save, ShrimpProduct_assign_code.
  intros [(e' & H & [= ->])|(s & w1 & _ & H)]%bind_inv.
  - destruct (decide _); unfold bind, os_urandom16, ret in H; simplify_eq.
  - unfold ShrimpProduct_super_save, bind, get_db, put_db, ret, raise in H.
    destruct (taken _ _ _ _); by simplify_eq.
Qed.

(** The atomic block of the view, run on a checked request. *)
Lemma post_transaction_eq c w :
  post_transaction env c w =
  let k := next_pk (packages (db w)) in
  let row := inserted_package env (tick2 w)
               (ck_product_id c) (company (ck_product c)) (ck_company c)
               (ck_weight c) (ck_count c)
               (date (clock env (ticks w)))
               (date (clock env (S (ticks w))) + 365) in
  let w1 := {| db := db w; media := media w;
               ticks := S (S (S (S (ticks w)))); draws := S (draws w) |} in
  if taken batch_number (packages (db w)) k (batch_number row)
  then (Raise IntegrityError, w1)
  else
    match generate_qr_code env row
            (set_db (set_packages (<[k := row]> (packages (db w))) (db w)) w1) with
    | (Raise e, w2) => (Raise e, set_db (db w) w2)
    | (Ok package, w2) =>
        match ShrimpProduct_save env
                (set_weight (weight (ck_product c) - ck_total c)%Q (ck_product c))
                w2 with
        | (Raise e, w3) => (Raise e, set_db (db w) w3)
        | (Ok shrimp_product, w3) =>
            (Ok (Summary package (ck_count c) (ck_weight c) (ck_total c)
                   (weight (ck_product c)) (weight shrimp_product)), w3)
        end
    end.
Proof.
  unfold post_transaction. unfold bind at 1. unfold atomic.
  unfold bind at 1 2 3. unfold now at 1 2. cbv beta iota.
  rewrite ProductPackage_create_eq.
  cbn [db media ticks draws batch_number inserted_package tick2].
  destruct (taken _ _ _ _); [reflexivity|].
  destruct (generate_qr_code _ _ _) as [[package|e] w2]; [|reflexivity].
  unfold bind at 1.
  destruct (ShrimpProduct_save _ _ _) as [[sp|e] w3]; reflexivity.
Qed.

Lemma get_company_from_session_Some request w cid w' :
  get_company_from_session request w = (Ok (Some cid), w') ->
  logged_in request (db w) cid.
Proof.
  unfold get_company_from_session, logged_in.
  destruct (session_company_id request) as [k|]; [|by intros [=]].
  destruct (session_company_type request) as [ty|]; [|by intros [=]].
  destruct (negb (k =? 0) && String.eqb ty "export") eqn:Hc; [|by intros [=]].
  apply andb_true_iff in Hc as [Hk Hty].
  apply negb_true_iff, Z.eqb_neq in Hk. apply String.eqb_eq in Hty as ->.
  unfold try_except, bind. rewrite related_eq.
  destruct (exporting_companies (db w) !! k) eqn:Hl; intros [= <- <-].
  split_and!; try done; by eexists.
Qed.

Lemma post_check_inv request w o w' :
  post_check request w = (o, w') ->
  w' = w /\
  (forall e, o = Raise e -> e = AttributeError) /\
  (forall r, o = Ok (inl r) -> is_summary (Ok r) = false) /\
  (forall c, o = Ok (inr c) ->
     logged_in request (db w) (ck_company c) /\
     exists p,
       POST_shrimp_product request = Some (ck_product_id c) /\
       products (db w) !! ck_product_id c = Some p /\
       ck_product c = set_product_id (Some (ck_product_id c)) p /\
       ck_total c = (ck_weight c * inject_Z (ck_count c))%Q /\
       (0 < ck_weight c)%Q /\ 0 < ck_count c /\
       (ck_total c <= weight p)%Q).
Proof.
  unfold post_check.
  destruct (get_company_from_session_eq request w) as (co & Hco & _).
  rewrite (bind_eq _ _ _ _ _ Hco).
  destruct co as [cid|];
    [|intros [= <- <-];
      split_and!; [done | by intros ? [=] | by intros ? [= <-] | by intros ? [=]]].
  apply get_company_from_session_Some in Hco.
  destruct (POST_shrimp_product request) as [pid|] eqn:Hpid;
    [|intros [= <- <-];
      split_and!; [done | by intros ? [=] | by intros ? [= <-] | by intros ? [=]]].
  unfold try_except.
  destruct (post_validate request cid pid w) as [[v|e] w1] eqn:Hv.
  - intros [= <- <-]. apply post_validate_inv in Hv as (-> & Hr & Hc).
    split; [done|]. split; [done|]. split; [intros r [= ->]; by apply Hr|].
    intros c [= ->]. destruct (Hc c eq_refl) as (p & Hp & Hceq & Hw & Hn & Hle).
    rewrite Hceq. cbn. split; [done|]. exists p. by rewrite Hceq in Hle.
  - apply post_validate_inv in Hv as (-> & _).
    unfold bind. rewrite post_except_eq.
    destruct e; intros [= <- <-]; split_and!; try done; by intros ? [= <-].
Qed.

Lemma generate_qr_code_keeps_product self w e w' :
  generate_qr_code env self w = (Raise e, w') ->
  is_Some (products (db w) !! shrimp_product self) ->
  e <> ProductDoesNotExist.
Proof.
  rewrite generate_qr_code_eq. intros H [p Hp]. rewrite Hp in H.
  cbv zeta in H. repeat case_match; simplify_eq; done.
Qed.

Lemma post_commit_inv c w o w' :
  product_id (ck_product c) = Some (ck_product_id c) ->
  is_Some (products (db w) !! ck_product_id c) ->
  post_commit env c w = (o, w') ->
  (o = Raise AttributeError /\ db w' = db w) \/
  (is_summary o = true /\ post_transaction env c w = (o, w')).
Proof.
  intros Hid Hp. unfold post_commit, try_except.
  destruct (post_transaction env c w) as [[r|e] w1] eqn:Ht.
  - intros [= <- <-]. right. split; [|done].
    apply post_transaction_cases in Ht as [(? & ? & _)|Hcm]; [done| |done].
    by destruct Hcm as (? & ? & ? & ? & -> & _).
  - intros Hex. left.
    assert (e <> ProductDoesNotExist) as Hne.
    { rewrite post_transaction_eq in Ht. cbv zeta in Ht.
      destruct (taken _ _ _ _); [by simplify_eq|].
      destruct (generate_qr_code _ _ _) as [[package|e'] w2] eqn:Hg.
      - destruct (ShrimpProduct_save _ _ _) as [[sp|e''] w3] eqn:Hs; [done|].
        apply ShrimpProduct_save_raises in Hs. by simplify_eq.
      - apply generate_qr_code_keeps_product in Hg; [by simplify_eq|].
        by cbn. }
    apply post_transaction_cases in Ht as [(? & _ & Hdb)|Hcm]; [|by destruct Hcm as (? & ? & ? & ? & ? & _)|done].
    rewrite post_except_eq in Hex. destruct e; by simplify_eq.
Qed.

End MoreFacts.

(** X1.  The only exception that leaves [CreatePackageView.post] is
    [AttributeError], raised while its second [except] clause is evaluated,
    and the database is then as it was.  In particular a weight or a count
    that does not parse never reaches the message written for it: the
    request ends in [AttributeError] with the world untouched. *)
Theorem post_raises_only_AttributeError (env : Env) :
  (forall request w e w',
     post env request w = (Raise e, w') -> e = AttributeError /\ db w' = db w) /\
  (forall request w company_id pid,
     logged_in request (db w) company_id ->
     POST_shrimp_product request = Some pid ->
     POST_package_weight request = Malformed \/
     POST_package_count request = Malformed ->
     post env request w = (Raise AttributeError, w)).
Proof.
  split.
  - intros request w e w'. rewrite post_two_steps.
    destruct (post_check request w) as [[[r|c]|e0] w1] eqn:Hc; try done.
    + apply post_check_inv in Hc as (-> & _ & _ & Hc).
      destruct (Hc c eq_refl) as (_ & p & _ & Hp & Hcp & _).
      intros Hcommit.
      apply post_commit_inv in Hcommit as [[[= ->] Hdb]|[? _]];
        [done|done|by rewrite Hcp|by eexists].
    + apply post_check_inv in Hc as (-> & He & _).
      intros [= <- <-]. split; [by apply He|done].
  - intros request w cid pid Hlog Hpid Hbad. unfold post.
    destruct (get_company_from_session_eq request w) as (co & Hco & Hin).
    rewrite (bind_eq _ _ _ _ _ Hco), (Hin _ Hlog), Hpid.
    unfold try_except, bind, post_validate, bind, Decimal, int.
    destruct (POST_package_weight request), (POST_package_count request);
      destruct Hbad as [?|?]; done.
Qed.

Lemma post_raises_only_AttributeError_witness :
  post Scenario.env_ok
    {| session_company_id := Some 7;
       session_company_type := Some "export"%string;
       POST_shrimp_product := Some 3;
       POST_package_weight := Value 5%Q;
       POST_package_count := Malformed |}
    Scenario.world
  = (Raise AttributeError, Scenario.world).
Proof.
  destruct (post_raises_only_AttributeError Scenario.env_ok) as [_ H].
  apply (H _ _ 7 3).
  - repeat split; try done; by eexists.
  - reflexivity.
  - right. reflexivity.
Defined.

(** X2.  A request that [CreatePackageView.post] answers with a redirect
    has changed nothing at all: not the database, not the media storage,
    and neither the clock nor the random source has been consulted. *)
Theorem post_redirect_leaves_world (env : Env) (request : Request) (w w' : World)
    (to : url) (msg : flash) :
  post env request w = (Ok (Redirect to msg), w') -> w' = w.
Proof.
  rewrite post_two_steps.
  destruct (post_check request w) as [[[r|c]|e0] w1] eqn:Hc; try done.
  - apply post_check_inv in Hc as (-> & _). by intros [= _ <-].
  - apply post_check_inv in Hc as (-> & _ & _ & Hc).
    destruct (Hc c eq_refl) as (_ & p & _ & Hp & Hcp & _).
    intros Hcommit.
    apply post_commit_inv in Hcommit as [[[=] _]|[? _]];
      [done|by rewrite Hcp|by eexists].
Qed.

Lemma post_redirect_leaves_world_witness :
  snd (post Scenario.env_ok (Scenario.request 10 11) Scenario.world) = Scenario.world.
Proof.
  apply (post_redirect_leaves_world Scenario.env_ok (Scenario.request 10 11)
           Scenario.world _ UrlCreatePackage (InsufficientStock 100)).
  vm_compute. reflexivity.
Defined.

(** X3.  What [CreatePackageView.post] answers before it reaches the stock
    check.  Unless the session names an existing exporting company -- a
    [company_id] that is present, not 0 and the key of an exporting company,
    with [company_type] equal to [export] -- it sends the client to the
    login page.  For a logged-in exporter: no product selected is reported
    as such; a weight or count left out of the form is read as ['0'] and
    answered with [InvalidQuantity]; an unknown product with valid
    quantities is answered with [ProductNotFound].  The world is untouched
    each time. *)
Theorem post_early_answers (env : Env) (request : Request) (w : World) :
  ((forall company_id, ~ logged_in request (db w) company_id) ->
   post env request w = (Ok (Redirect UrlLogin LoginRequired), w)) /\
  (forall company_id,
     logged_in request (db w) company_id ->
     (POST_shrimp_product request = None ->
      post env request w = (Ok (Redirect UrlCreatePackage NoProductSelected), w)) /\
     (forall pid,
        POST_shrimp_product request = Some pid ->
        (POST_package_weight request = Missing /\
         POST_package_count request <> Malformed) \/
        (POST_package_weight request <> Malformed /\
         POST_package_count request = Missing) ->
        post env request w = (Ok (Redirect UrlCreatePackage InvalidQuantity), w)) /\
     (forall pid uw n,
        POST_shrimp_product request = Some pid ->
        POST_package_weight request = Value uw ->
        POST_package_count request = Value n ->
        (0 < uw)%Q -> 0 < n ->
        products (db w) !! pid = None ->
        post env request w = (Ok (Redirect UrlCreatePackage ProductNotFound), w))).
Proof.
  split.
  - intros Hout. unfold post.
    destruct (get_company_from_session_eq request w) as (co & Hco & _).
    rewrite (bind_eq _ _ _ _ _ Hco).
    destruct co as [cid|]; [|done].
    apply get_company_from_session_Some in Hco. by destruct (Hout cid).
  - intros cid Hlog.
    assert (Hpost : forall pid, POST_shrimp_product request = Some pid ->
              post env request w =
              try_except
                (bind (post_validate request cid pid)
                   (fun v => match v with
                             | inl r => ret r
                             | inr c => post_transaction env c
                             end)) post_except w).
    { intros pid Hpid. unfold post.
      destruct (get_company_from_session_eq request w) as (co & Hco & Hin).
      rewrite (bind_eq _ _ _ _ _ Hco), (Hin _ Hlog), Hpid. done. }
    split; [|split].
    + intros Hpid. unfold post.
      destruct (get_company_from_session_eq request w) as (co & Hco & Hin).
      rewrite (bind_eq _ _ _ _ _ Hco), (Hin _ Hlog), Hpid. done.
    + intros pid Hpid Hmiss. rewrite (Hpost pid Hpid).
      unfold try_except, bind, post_validate, bind, Decimal, int, ret.
      destruct (POST_package_weight request) as [| |uw],
               (POST_package_count request) as [| |n];
        destruct Hmiss as [[? ?]|[? ?]]; try done.
      all: change (0 <=? 0) with true; by rewrite orb_true_r.
    + intros pid uw n Hpid Hw Hn Huw Hn0 Hnone. rewrite (Hpost pid Hpid).
      unfold try_except, bind.
      rewrite (post_validate_eq request cid pid uw n w Hw Hn), Hnone.
      assert (Qle_bool uw 0 || (n <=? 0) = false) as ->; [|done].
      apply orb_false_iff. split; [|by apply Z.leb_gt].
      apply not_true_is_false. rewrite Qle_bool_iff. lra.
Qed.

Lemma post_early_answers_witness :
  post Scenario.env_ok
    {| session_company_id := Some 0;
       session_company_type := Some "export"%string;
       POST_shrimp_product := Some 3;
       POST_package_weight := Value 5%Q;
       POST_package_count := Value 2 |}
    Scenario.world
  = (Ok (Redirect UrlLogin LoginRequired), Scenario.world) /\
  post Scenario.env_ok
    {| session_company_id := Some 8;
       session_company_type := Some "export"%string;
       POST_shrimp_product := Some 3;
       POST_package_weight := Value 5%Q;
       POST_package_count := Value 2 |}
    Scenario.world
  = (Ok (Redirect UrlLogin LoginRequired), Scenario.world) /\
  post Scenario.env_ok
    {| session_company_id := Some 7;
       session_company_type := Some "export"%string;
       POST_shrimp_product := Some 3;
       POST_package_weight := Value 5%Q;
       POST_package_count := Missing |}
    Scenario.world
  = (Ok (Redirect UrlCreatePackage InvalidQuantity), Scenario.world) /\
  post Scenario.env_ok
    {| session_company_id := Some 7;
       session_company_type := Some "export"%string;
       POST_shrimp_product := Some 9;
       POST_package_weight := Value 5%Q;
       POST_package_count := Value 2 |}
    Scenario.world
  = (Ok (Redirect UrlCreatePackage ProductNotFound), Scenario.world).
Proof.
  split; [|split; [|split]].
  - destruct (post_early_answers Scenario.env_ok
                {| session_company_id := Some 0;
                   session_company_type := Some "export"%string;
                   POST_shrimp_product := Some 3;
                   POST_package_weight := Value 5%Q;
                   POST_package_count := Value 2 |} Scenario.world) as [H _].
    apply H. intros cid (Hid & Hne & _). cbn in Hid. congruence.
  - destruct (post_early_answers Scenario.env_ok
                {| session_company_id := Some 8;
                   session_company_type := Some "export"%string;
                   POST_shrimp_product := Some 3;
                   POST_package_weight := Value 5%Q;
                   POST_package_count := Value 2 |} Scenario.world) as [H _].
    apply H. intros cid (Hid & _ & _ & [x Hx]). cbn in Hid.
    injection Hid as <-. by vm_compute in Hx.
  - destruct (post_early_answers Scenario.env_ok
                {| session_company_id := Some 7;
                   session_company_type := Some "export"%string;
                   POST_shrimp_product := Some 3;
                   POST_package_weight := Value 5%Q;
                   POST_package_count := Missing |} Scenario.world) as [_ H].
    destruct (H 7) as (_ & Hmissing & _).
    { repeat split; try done; by eexists. }
    apply (Hmissing 3); [reflexivity|]. right. split; [discriminate|reflexivity].
  - destruct (post_early_answers Scenario.env_ok
                {| session_company_id := Some 7;
                   session_company_type := Some "export"%string;
                   POST_shrimp_product := Some 9;
                   POST_package_weight := Value 5%Q;
                   POST_package_count := Value 2 |} Scenario.world) as [_ H].
    destruct (H 7) as (_ & _ & Hunknown).
    { repeat split; try done; by eexists. }
    apply (Hunknown 9 5%Q 2); reflexivity || lia.
Defined.

(** X4.  The atomic block saves the product object the view fetched before
    the stock check, with only its weight reduced.  Whatever the row holds
    when the transaction runs, a committed creation leaves it equal to that
    earlier copy with weight [copy's weight - total]: any change written to
    the row in between is overwritten. *)
Theorem commit_overwrites_product (env : Env) (c : Checked) (w w' : World)
    (o : outcome response) :
  product_id (ck_product c) = Some (ck_product_id c) ->
  support_code (ck_product c) <> ""%string ->
  post_commit env c w = (o, w') ->
  is_summary o = true ->
  products (db w')
  = <[ck_product_id c := set_weight (weight (ck_product c) - ck_total c)%Q
                           (ck_product c)]> (products (db w)).
Proof.
  intros Hid Hcode. unfold post_commit, try_except.
  destruct (post_transaction env c w) as [[r|e] w1] eqn:Ht; cycle 1.
  { intros Hex Hs. apply post_except_not_summary in Hex as [? _]. congruence. }
  intros [= <- <-] _.
  apply post_transaction_cases in Ht as [(? & ? & _)|Hcm]; [done| |done].
  destruct Hcm as (pkg & sp & data & img & _ & _ & _ & _ & _ & _ & _ & _ & _ & _
                   & Hsp & Hsame & _ & Hdb).
  rewrite Hdb. cbn [products set_products]. f_equal.
  rewrite Hsp, (Hsame Hcode). by destruct (ck_product c).
Qed.

Lemma commit_overwrites_product_witness :
  (product_name <$> products (db Scenario2.restocked_world) !! 3,
   weight <$> products (db Scenario2.restocked_world) !! 3)
  = (Some "Tiger XL"%string, Some 500%Q) /\
  products (db (snd (post_commit Scenario.env_ok Scenario2.checked
                       Scenario2.restocked_world)))
  = {[ 3 := set_weight (100 - 5 * inject_Z 10)%Q Scenario.tiger ]}.
Proof.
  split; [vm_compute; reflexivity|].
  destruct (post_commit Scenario.env_ok Scenario2.checked Scenario2.restocked_world)
    as [o w'] eqn:Hc.
  cbn [snd].
  rewrite (commit_overwrites_product Scenario.env_ok Scenario2.checked
             Scenario2.restocked_world w' o); [|reflexivity|discriminate|exact Hc|].
  - vm_compute. reflexivity.
  - vm_compute in Hc. injection Hc as <- _. reflexivity.
Defined.

(** ** More about concurrent requests *)

Lemma thread_step_ok (env : Env) (t : thread) (w : World) :
  thread_ok t -> nonneg_weights (db w) ->
  thread_ok (fst (thread_step env t w)) /\
  nonneg_weights (db (snd (thread_step env t w))).
Proof.
  intros Hok Hnn. destruct t as [request|c|o]; cbn [thread_step]; [| |done].
  - destruct (post_check request w) as [[[r|c]|e] w1] eqn:Hc;
      apply post_check_inv in Hc as (-> & _ & _ & Hc); cbn; try done.
    destruct (Hc c eq_refl) as (_ & p & _ & _ & Hcp & _ & _ & _ & Hle).
    split; [|done]. rewrite Hcp. cbn. done.
  - destruct (post_commit env c w) as [o w'] eqn:Hc. cbn [fst snd].
    split; [done|]. destruct Hok as [Hid Hle].
    unfold post_commit, try_except in Hc.
    destruct (post_transaction env c w) as [[r|e] w1] eqn:Ht.
    + injection Hc as <- <-.
      apply post_transaction_cases in Ht as [(? & ? & _)|Hcm]; [done| |done].
      destruct Hcm as (pkg & sp & data & img & _ & _ & _ & _ & _ & _ & _ & _ & _ & _
                       & Hsp & _ & _ & Hdb).
      unfold nonneg_weights. rewrite Hdb. cbn [products set_products].
      apply map_Forall_insert_2; [|done]. rewrite Hsp. cbn. lra.
    + apply post_except_not_summary in Hc as [_ ->].
      apply post_transaction_cases in Ht as [(? & _ & Hdb)|Hcm]; [| |done].
      * unfold nonneg_weights. by rewrite Hdb.
      * by destruct Hcm as (? & ? & ? & ? & ? & _).
Qed.

(** X5.  However the two steps of any number of package-creation requests
    are interleaved, no product weight becomes negative: a request that
    commits writes the weight it read minus its total, and it only got as
    far as the transaction because that difference was not negative. *)
Theorem threads_keep_weights_nonnegative (env : Env) (schedule : list nat) :
  forall (threads : list thread) (w : World),
    Forall thread_ok threads ->
    nonneg_weights (db w) ->
    Forall thread_ok (fst (run_schedule env schedule threads w)) /\
    nonneg_weights (db (snd (run_schedule env schedule threads w))).
Proof.
  induction schedule as [|i schedule IH]; intros threads w Hok Hnn; [done|].
  cbn [run_schedule].
  destruct (threads !! i) as [t|] eqn:Hi; [|by apply IH].
  destruct (thread_step env t w) as [t' w'] eqn:Hstep.
  assert (thread_ok t) as Ht by (by eapply Forall_lookup_1).
  destruct (thread_step_ok env t w Ht Hnn) as [Ht' Hnn'].
  rewrite Hstep in Ht', Hnn'. apply IH; [|done].
  by apply Forall_insert.
Qed.

Lemma threads_keep_weights_nonnegative_witness :
  nonneg_weights
    (db (snd (run_schedule Scenario.env_ok [0; 1; 2; 1; 0; 2]%nat
                [Pending (Scenario.request 60 1);
                 Pending (Scenario.request 70 1);
                 Pending (Scenario.request 30 3)]
                Scenario.world))).
Proof.
  apply threads_keep_weights_nonnegative.
  - repeat constructor.
  - unfold nonneg_weights, Scenario.world, Scenario.shop. cbn [db products].
    apply map_Forall_singleton. vm_compute. discriminate.
Defined.

(** ** What a created package records *)

Lemma post_summary_package (env : Env) request w pkg n uw total original remaining w' :
  post env request w = (Ok (Summary pkg n uw total original remaining), w') ->
  exists c p img,
    logged_in request (db w) (ck_company c) /\
    POST_shrimp_product request = Some (ck_product_id c) /\
    products (db w) !! ck_product_id c = Some p /\
    ck_product c = set_product_id (Some (ck_product_id c)) p /\
    pkg = created_package env w c /\
    packages (db w') !! next_pk (packages (db w)) = Some pkg /\
    media w' = (qr_code pkg, img) :: media w.
Proof.
  rewrite post_two_steps.
  destruct (post_check request w) as [[[r|c]|e0] w1] eqn:Hc; try done.
  { apply post_check_inv in Hc as (-> & _ & Hr & _).
    intros [= -> <-]. by specialize (Hr _ eq_refl). }
  apply post_check_inv in Hc as (-> & _ & _ & Hc).
  destruct (Hc c eq_refl) as (Hlog & p & Hpid & Hp & Hcp & _).
  unfold post_commit, try_except.
  destruct (post_transaction env c w) as [[r|e] w1] eqn:Ht; cycle 1.
  { intros Hex. apply post_except_not_summary in Hex as [? _]. done. }
  intros [= -> <-]. rewrite post_transaction_eq in Ht. cbv zeta in Ht.
  destruct (taken _ _ _ _); [done|].
  rewrite generate_qr_code_eq in Ht.
  cbn [db media ticks draws set_db set_packages products farming_companies
       exporting_companies packages package_id batch_number shrimp_product
       farming_company exporting_company inserted_package tick2] in Ht.
  rewrite Hp in Ht.
  destruct (farming_companies (db w) !! company (ck_product c)) as [f|]; [|done].
  destruct (exporting_companies (db w) !! ck_company c) as [x|]; [|done].
  match type of Ht with
  | context [qr_render env ?d] => destruct (qr_render env d) as [img|]; [|done]
  end.
  rewrite lookup_insert_eq, insert_insert_eq in Ht.
  match type of Ht with
  | context [ShrimpProduct_save env ?s ?w2] =>
      destruct (ShrimpProduct_save env s w2) as [[sp|e] w3] eqn:Hs; [|done]
  end.
  apply (ShrimpProduct_save_inv _ _ (ck_product_id c)) in Hs
    as (_ & _ & _ & Hdb & Hmedia); [|by rewrite Hcp].
  injection Ht as ? ? ?; subst.
  exists c, p, img. split_and!; try done.
  rewrite Hdb. cbn. apply lookup_insert_eq.
Qed.

(** X6.  The dates of a package created through the view: the production
    date is the day of the first clock reading made inside the transaction
    and the expiration date is the day of the second reading plus 365, so
    the package expires 365 days after production whenever the two readings
    fall on the same day; [created_at] and [updated_at] are the two readings
    that follow. *)
Theorem created_package_dates (env : Env) (request : Request) (w w' : World)
    (pkg : ProductPackage) (n : Z) (uw total original remaining : Q) :
  post env request w = (Ok (Summary pkg n uw total original remaining), w') ->
  production_date pkg = Some (date (clock env (ticks w))) /\
  expiration_date pkg = Some (date (clock env (S (ticks w))) + 365) /\
  (date (clock env (S (ticks w))) = date (clock env (ticks w)) ->
   expiration_date pkg = (fun d => d + 365) <$> production_date pkg) /\
  created_at pkg = Some (clock env (S (S (ticks w)))) /\
  updated_at pkg = Some (clock env (S (S (S (ticks w))))).
Proof.
  intros (c & p & img & _ & _ & _ & _ & -> & _)%post_summary_package.
  cbn. split_and!; try done. by intros ->.
Qed.

Lemma created_package_dates_witness :
  exists pkg w',
    fst (post Scenario.env_ok (Scenario.request 5 10) Scenario.world)
    = Ok (Summary pkg 10 5 (5 * inject_Z 10) 100 (100 - 5 * inject_Z 10)) /\
    snd (post Scenario.env_ok (Scenario.request 5 10) Scenario.world) = w' /\
    production_date pkg = Some 19675 /\ expiration_date pkg = Some 20040.
Proof.
  destruct (post Scenario.env_ok (Scenario.request 5 10) Scenario.world)
    as [o w'] eqn:Hpost.
  assert (exists pkg, o = Ok (Summary pkg 10 5 (5 * inject_Z 10) 100
                                (100 - 5 * inject_Z 10))) as [pkg ->].
  { vm_compute in Hpost. injection Hpost as <- _. by eexists. }
  exists pkg, w'. split; [reflexivity|]. split; [reflexivity|].
  destruct (created_package_dates Scenario.env_ok (Scenario.request 5 10)
              Scenario.world w' pkg _ _ _ _ _ Hpost) as (Hp & He & _).
  split; [exact Hp|exact He].
Defined.

(** X7.  What a package created through the view is bound to: the product
    named in the request, the farming company that owns that product, the
    exporting company of the session, and the batch number drawn at the
    start of the save.  The row is stored under a key that was not in use.
    When the submitted unit weight is a value of the [package_weight] column,
    the row the database gives back is the package shown on the summary
    page; and when the media storage holds no file named
    [qrcodes/<batch>_qr_code_<batch>.png], the storage keeps that name for
    the artifact, and that file is the one file added. *)
Theorem created_package_provenance (env : Env) (request : Request) (w w' : World)
    (pkg : ProductPackage) (n : Z) (uw total original remaining : Q) :
  post env request w = (Ok (Summary pkg n uw total original remaining), w') ->
  in_column 8 2 uw ->
  (forall img,
     (artifact_name (Ident.new_batch_number (urandom env (draws w))), img)
     ∉ media w) ->
  exists company_id pid p img k,
    logged_in request (db w) company_id /\
    POST_shrimp_product request = Some pid /\
    products (db w) !! pid = Some p /\
    shrimp_product pkg = pid /\
    farming_company pkg = company p /\
    exporting_company pkg = company_id /\
    batch_number pkg = Ident.new_batch_number (urandom env (draws w)) /\
    package_id pkg = Some k /\
    packages (db w) !! k = None /\
    packages (db w') !! k = Some pkg /\
    (exists q, DecimalField 8 2 (package_weight pkg) = Some q /\ (q == uw)%Q) /\
    qr_code pkg = artifact_name (batch_number pkg) /\
    media w' = (qr_code pkg, img) :: media w.
Proof.
  intros Hpost Hcol Hfree.
  assert (Hw : package_weight pkg = uw).
  { pose proof Hpost as Hpost'.
    apply post_cases in Hpost' as [[? _]|(c & _ & Hcm)]; [done|].
    destruct Hcm as (pkg' & ? & ? & ? & Ho & _ & _ & Hpw & _).
    injection Ho as -> _ -> _ _ _. done. }
  apply post_summary_package in Hpost
    as (c & p & img & Hlog & Hpid & Hp & Hcp & -> & Hrow & Hmedia).
  exists (ck_company c), (ck_product_id c), p, img, (next_pk (packages (db w))).
  split_and!; try done.
  - cbn. by rewrite Hcp.
  - apply next_pk_fresh.
  - rewrite Hw. by apply in_column_DecimalField.
Qed.

Lemma created_package_provenance_witness :
  exists pkg,
    fst (post Scenario.env_ok (Scenario.request 5 10) Scenario.world)
    = Ok (Summary pkg 10 5 (5 * inject_Z 10) 100 (100 - 5 * inject_Z 10)) /\
    farming_company pkg = 1 /\ exporting_company pkg = 7 /\
    qr_code pkg = "qrcodes/BATCH-0000000000_qr_code_BATCH-0000000000.png"%string.
Proof.
  destruct (post Scenario.env_ok (Scenario.request 5 10) Scenario.world)
    as [o w'] eqn:Hpost.
  assert (exists pkg, o = Ok (Summary pkg 10 5 (5 * inject_Z 10) 100
                                (100 - 5 * inject_Z 10))) as [pkg ->].
  { vm_compute in Hpost. injection Hpost as <- _. by eexists. }
  exists pkg. split; [reflexivity|].
  destruct (created_package_provenance Scenario.env_ok (Scenario.request 5 10)
              Scenario.world w' pkg _ _ _ _ _ Hpost)
    as (cid & pid & p & img & k & Hlog & Hpid & Hp & _ & Hf & He & Hb & _ & _ & _
        & _ & Hq & _).
  - exists 500. split; reflexivity.
  - intros img Hin. by apply elem_of_nil in Hin.
  - injection Hpid as <-. injection Hp as <-. destruct Hlog as ([= <-] & _).
    split; [exact Hf|]. split; [exact He|]. rewrite Hq, Hb. reflexivity.
Defined.

(** ** What the artifact of a created package encodes *)

Lemma post_summary_payload (env : Env) request w pkg n uw total original remaining w' :
  post env request w = (Ok (Summary pkg n uw total original remaining), w') ->
  exists p f x img,
    products (db w) !! shrimp_product pkg = Some p /\
    farming_companies (db w) !! farming_company pkg = Some f /\
    exporting_companies (db w) !! exporting_company pkg = Some x /\
    qr_render env (qr_payload pkg p f x) = Some img /\
    media w' = (qr_code pkg, img) :: media w /\
    package_weight pkg = uw /\ quantity pkg = n /\
    total = (uw * inject_Z n)%Q.
Proof.
  rewrite post_two_steps.
  destruct (post_check request w) as [[[r|c]|e0] w1] eqn:Hc; try done.
  { apply post_check_inv in Hc as (-> & _ & Hr & _).
    intros [= -> <-]. by specialize (Hr _ eq_refl). }
  apply post_check_inv in Hc as (-> & _ & _ & Hc).
  destruct (Hc c eq_refl) as (Hlog & p & Hpid & Hp & Hcp & Htot & _).
  unfold post_commit, try_except.
  destruct (post_transaction env c w) as [[r|e] w1] eqn:Ht; cycle 1.
  { intros Hex. apply post_except_not_summary in Hex as [? _]. done. }
  intros [= -> <-]. rewrite post_transaction_eq in Ht. cbv zeta in Ht.
  destruct (taken _ _ _ _); [done|].
  rewrite generate_qr_code_eq in Ht.
  cbn [db media ticks draws set_db set_packages products farming_companies
       exporting_companies packages package_id batch_number shrimp_product
       farming_company exporting_company inserted_package tick2] in Ht.
  rewrite Hp in Ht.
  destruct (farming_companies (db w) !! company (ck_product c)) as [f|] eqn:Hf;
    [|done].
  destruct (exporting_companies (db w) !! ck_company c) as [x|] eqn:Hx; [|done].
  match type of Ht with
  | context [qr_render env ?d] =>
      destruct (qr_render env d) as [img|] eqn:Himg; [|done]
  end.
  rewrite lookup_insert_eq, insert_insert_eq in Ht.
  match type of Ht with
  | context [ShrimpProduct_save env ?s ?w2] =>
      destruct (ShrimpProduct_save env s w2) as [[sp|e] w3] eqn:Hs; [|done]
  end.
  apply (ShrimpProduct_save_inv _ _ (ck_product_id c)) in Hs
    as (_ & _ & _ & Hdb & Hmedia); [|by rewrite Hcp].
  injection Ht as ? ? ? ? ? ? ?; subst.
  exists p, f, x, img.
  cbn [shrimp_product farming_company exporting_company set_qr_code
       inserted_package package_weight quantity qr_code].
  split_and!; try done.
Qed.

(** X8.  What the QR artifact of a created package encodes.  The file
    stored for the package is the rendering of a payload built from the rows
    the package points at, as they were when the package was made: the
    product's name, type and support code, the names of its farming company
    and of the exporting company, the package's batch number and dates, the
    submitted unit weight and count, and their product as total weight --
    the same total the summary page shows. *)
Theorem created_package_qr_content (env : Env) (request : Request) (w w' : World)
    (pkg : ProductPackage) (n : Z) (uw total original remaining : Q) :
  post env request w = (Ok (Summary pkg n uw total original remaining), w') ->
  exists p f x data img,
    products (db w) !! shrimp_product pkg = Some p /\
    farming_companies (db w) !! farming_company pkg = Some f /\
    exporting_companies (db w) !! exporting_company pkg = Some x /\
    qr_render env data = Some img /\
    media w' = (qr_code pkg, img) :: media w /\
    qr_batch_number data = batch_number pkg /\
    qr_product_name data = product_name p /\
    qr_shrimp_type data = shrimp_type p /\
    qr_support_code data = support_code p /\
    qr_farming_company data = company_name f /\
    qr_exporting_company data = company_name x /\
    qr_package_weight data = uw /\
    qr_quantity data = n /\
    qr_total_weight data = total /\
    qr_production_date data = production_date pkg /\
    qr_expiration_date data = expiration_date pkg.
Proof.
  intros (p & f & x & img & Hp & Hf & Hx & Himg & Hmedia & Hw & Hn & ->)
           %post_summary_payload.
  exists p, f, x, (qr_payload pkg p f x), img.
  split_and!; try done; cbn; by rewrite ?Hw, ?Hn.
Qed.

Lemma created_package_qr_content_witness :
  exists pkg data,
    fst (post Scenario.env_ok (Scenario.request 5 10) Scenario.world)
    = Ok (Summary pkg 10 5 (5 * inject_Z 10) 100 (100 - 5 * inject_Z 10)) /\
    qr_product_name data = "Tiger"%string /\
    qr_farming_company data = "Farm"%string /\
    qr_total_weight data = (5 * inject_Z 10)%Q.
Proof.
  destruct (post Scenario.env_ok (Scenario.request 5 10) Scenario.world)
    as [o w'] eqn:Hpost.
  assert (exists pkg, o = Ok (Summary pkg 10 5 (5 * inject_Z 10) 100
                                (100 - 5 * inject_Z 10))
                      /\ shrimp_product pkg = 3 /\ farming_company pkg = 1)
    as (pkg & -> & Hsp & Hfc).
  { vm_compute in Hpost. injection Hpost as <- _. by eexists. }
  destruct (created_package_qr_content Scenario.env_ok (Scenario.request 5 10)
              Scenario.world w' pkg _ _ _ _ _ Hpost)
    as (p & f & x & data & img & Hp & Hf & _ & _ & _ & _ & Hname & _ & _ & Hfarm
        & _ & _ & _ & Htot & _).
  rewrite Hsp in Hp. rewrite Hfc in Hf.
  injection Hp as <-. injection Hf as <-.
  exists pkg, data. split; [reflexivity|]. by split_and!.
Defined.

(** ** Editing a product *)

Section EditFacts.
Context (env : Env).

Lemma EditProductView_post_missing pid request w :
  products (db w) !! pid = None ->
  EditProductView_post env pid request w = (Raise Http404, w).
Proof.
  intros Hp. unfold EditProductView_post, get_object_or_404, try_except,
    ShrimpProduct_get.
  unfold bind at 1 2. rewrite related_eq, Hp. reflexivity.
Qed.

Lemma EditProductView_post_eq pid request w p :
  products (db w) !! pid = Some p ->
  support_code p <> ""%string ->
  EditProductView_post env pid request w
  = match submitted_weight request, submitted_price request with
    | Some q, Some pr =>
        if taken support_code (products (db w)) pid (support_code p)
        then (Raise IntegrityError, w)
        else (Ok JsonSuccess,
              set_db (set_products
                        (<[pid := edited_product request q pr pid p]>
                           (products (db w))) (db w)) w)
    | _, _ => (Raise ValidationError, w)
    end.
Proof.
  intros Hp Hcode. unfold EditProductView_post, get_object_or_404, try_except,
    ShrimpProduct_get.
  unfold bind at 1 2. rewrite related_eq, Hp. cbn [ret].
  unfold bind at 1. unfold ShrimpProduct_assign_code.
  cbn [support_code set_product_name set_product_id].
  rewrite decide_False by done. cbn [ret].
  unfold submitted_weight, submitted_price, to_python, bind, raise, ret.
  destruct (POST_weight request), (POST_price request); try reflexivity;
    unfold ShrimpProduct_super_save, bind, get_db, put_db, raise, ret;
    cbn [product_id support_code set_price set_weight set_product_name
         set_product_id];
    by destruct (taken _ _ _ _).
Qed.

End EditFacts.



(** ** Support codes *)

Lemma keeps_support_codes_refl t : keeps_support_codes t t.
Proof. intros k p ?; eauto. Qed.

Lemma keeps_support_codes_trans t1 t2 t3 :
  keeps_support_codes t1 t2 -> keeps_support_codes t2 t3 ->
  keeps_support_codes t1 t3.
Proof.
  intros H12 H23 k p Hk.
  destruct (H12 k p Hk) as (p2 & Hk2 & E2).
  destruct (H23 k p2 Hk2) as (p3 & Hk3 & E3).
  exists p3. split; [done|]. by rewrite E3.
Qed.

(** Overwriting a product with a row that carries the same support code. *)
Lemma support_codes_step d d' k p x :
  support_codes_ok d ->
  products d !! k = Some p ->
  support_code x = support_code p ->
  products d' = <[k := x]> (products d) ->
  support_codes_ok d' /\ keeps_support_codes (products d) (products d').
Proof.
  intros [Hu Hne] Hp Hx Hd. unfold support_codes_ok. rewrite Hd. split; [split|].
  - apply unique_on_insert; [done|]. rewrite Hx. by eapply unique_not_taken.
  - intros j y. destruct (decide (j = k)) as [->|Hjk].
    + rewrite lookup_insert_eq. intros [= <-]. rewrite Hx. by eapply Hne.
    + rewrite lookup_insert_ne by done. apply Hne.
  - intros j y Hj. destruct (decide (j = k)) as [->|Hjk].
    + rewrite lookup_insert_eq. exists x. split; [done|]. congruence.
    + rewrite lookup_insert_ne by done. eauto.
Qed.

Lemma support_codes_same d d' :
  support_codes_ok d -> products d' = products d ->
  support_codes_ok d' /\ keeps_support_codes (products d) (products d').
Proof.
  intros Hok Hd. unfold support_codes_ok. rewrite Hd.
  split; [done|apply keeps_support_codes_refl].
Qed.

Lemma serve_support_codes (env : Env) a w :
  support_codes_ok (db w) ->
  support_codes_ok (db (serve env a w)) /\
  keeps_support_codes (products (db w)) (products (db (serve env a w))).
Proof.
  intros Hok. destruct a as [request|pid request|selected|k edits]; unfold serve.
  - destruct (post env request w) as [o w'] eqn:Hpost. cbn [snd].
    apply post_cases in Hpost as [[_ Hdb]|(c & Hc & Hcm)].
    { apply support_codes_same; [done|by rewrite Hdb]. }
    destruct Hc as (p & _ & Hp & Hcp & _).
    destruct Hcm as (pkg & sp & data & img & _ & _ & _ & _ & _ & _ & _ & _ & _ & _
                     & _ & Hsame & _ & Hdb).
    eapply (support_codes_step _ _ (ck_product_id c) p sp); try done.
    + rewrite Hsame; rewrite Hcp; [done|]. cbn. destruct Hok as [_ Hne]. by eapply Hne.
    + by rewrite Hdb.
  - destruct (products (db w) !! pid) as [p|] eqn:Hp; cycle 1.
    { rewrite EditProductView_post_missing by done. by apply support_codes_same. }
    assert (Hne : support_code p <> ""%string) by (destruct Hok as [_ Hne]; by eapply Hne).
    rewrite (EditProductView_post_eq env pid request w p Hp Hne).
    destruct (submitted_weight request) as [q|]; [|by apply support_codes_same].
    destruct (submitted_price request) as [pr|]; [|by apply support_codes_same].
    destruct (taken _ _ _ _); [by apply support_codes_same|]. cbn [snd].
    by eapply (support_codes_step _ _ pid p (edited_product request q pr pid p)).
  - destruct (generate_qr_codes env selected w) as [o w'] eqn:Hgen. cbn [snd].
    apply generate_qr_codes_frame in Hgen as (Hpr & _).
    by apply support_codes_same.
  - destruct (change_package env k edits w) as [o w'] eqn:Hch. cbn [snd].
    unfold change_package in Hch. unfold bind at 1 in Hch. rewrite related_eq in Hch.
    destruct (packages (db w) !! k) as [row|] eqn:Hrow; cycle 1.
    { injection Hch as <- <-. by apply support_codes_same. }
    apply ProductPackage_save_frame in Hch as (Hpr & _).
    by apply support_codes_same.
Qed.

(** X10.  A support code, once assigned, is never changed and never reused:
    over any sequence of package creations, product edits, artifact
    regenerations and admin package changes every product that was stored
    is still stored under its key with the support code it had, every
    product has a code and no two products share one. *)
Theorem support_codes_are_kept (env : Env) (actions : list action) (w : World) :
  support_codes_ok (db w) ->
  support_codes_ok (db (serve_all env actions w)) /\
  keeps_support_codes (products (db w)) (products (db (serve_all env actions w))).
Proof.
  revert w. induction actions as [|a actions IH]; intros w Hok.
  { split; [done|apply keeps_support_codes_refl]. }
  destruct (serve_support_codes env a w Hok) as [Hok1 Hk1].
  destruct (IH _ Hok1) as [Hok2 Hk2].
  split; [done|]. by eapply keeps_support_codes_trans.
Qed.

Lemma support_codes_are_kept_witness :
  exists p,
    products (db (serve_all Scenario.env_ok
                    [EditProduct 3 Scenario2.restock;
                     CreatePackage (Scenario.request 5 10);
                     EditProduct 3 Scenario2.rename_only]
                    Scenario.world)) !! 3 = Some p /\
    support_code p = support_code Scenario.tiger.
Proof.
  assert (Hok : support_codes_ok (db Scenario.world)).
  { destruct shop_constraints. by split. }
  destruct (support_codes_are_kept Scenario.env_ok
              [EditProduct 3 Scenario2.restock;
               CreatePackage (Scenario.request 5 10);
               EditProduct 3 Scenario2.rename_only]
              Scenario.world Hok) as [_ Hkeep].
  apply (Hkeep 3 Scenario.tiger). reflexivity.
Defined.

(** ** Purchase requests *)

Import Market.

Lemma lift_eq {A} (m : M A) s o w :
  m (world s) = (o, w) ->
  lift m s = (o, {| world := w; requests := requests s |}).
Proof. unfold lift. by intros ->. Qed.

Lemma vbind_inv {A B} (m : View A) (k : A -> View B) s o s' :
  vbind m k s = (o, s') ->
  (exists e, m s = (Raise e, s') /\ o = Raise e) \/
  (exists a s1, m s = (Ok a, s1) /\ k a s1 = (o, s')).
Proof.
  unfold vbind. destruct (m s) as [[a|e] s1]; intros H.
  - right. by exists a, s1.
  - left. exists e. by simplify_eq.
Qed.

Lemma truthy_Some company_id k :
  truthy company_id = Some k <-> company_id = Some k /\ k <> 0.
Proof.
  unfold truthy. destruct company_id as [j|]; [|by split; [|intros []]].
  destruct (Z.eqb_spec j 0) as [->|Hj]; split.
  - done.
  - by intros [[= <-] ?].
  - by intros [= <-].
  - by intros [[= <-] _].
Qed.

(** The row [RequestProductView.post] inserts. *)
Lemma RequestProductView_post_eq (env : Env) session pid s cid x p f :
  company_type session = Some "export"%string ->
  truthy (company_id session) = Some cid ->
  exporting_companies (db (world s)) !! cid = Some x ->
  products (db (world s)) !! pid = Some p ->
  farming_companies (db (world s)) !! company p = Some f ->
  RequestProductView_post env session pid s
  = (Ok (RedirectTo PageProduct RequestRegistered),
     {| world := {| db := db (world s); media := media (world s);
                    ticks := S (ticks (world s)); draws := draws (world s) |};
        requests :=
          <[next_pk (requests s) :=
              {| request_support_code := support_code p;
                 buyer_company := cid; product := pid;
                 owner_company := company p; status := "pending";
                 operation_date := Some (clock env (ticks (world s))) |}]>
            (requests s) |}).
Proof.
  intros Hty Hid Hx Hp Hf. unfold RequestProductView_post. rewrite Hty, Hid.
  cbn [String.eqb Ascii.eqb Bool.eqb]. cbv iota.
  unfold vbind at 1. unfold lift at 1, get_db. rewrite Hx.
  unfold vbind at 1. cbn [world requests].
  rewrite (lift_eq (get_object_or_404 pid) _ (Ok (set_product_id (Some pid) p))
             (world s)); cycle 1.
  { unfold get_object_or_404, try_except, ShrimpProduct_get. unfold bind at 1.
    rewrite related_eq. cbn [world]. by rewrite Hp. }
  cbn [world requests]. unfold vbind at 1.
  unfold RequestsProduct_objects_create, vbind, lift, now, get_db, get_requests,
    put_requests, vret.
  cbn [world requests db buyer_company product owner_company company
       set_product_id support_code].
  by rewrite Hx, Hp, Hf.
Qed.

Lemma RequestProductView_post_inv (env : Env) session pid s o s' :
  RequestProductView_post env session pid s = (o, s') ->
  db (world s') = db (world s) /\ media (world s') = media (world s) /\
  (requests s' = requests s /\
     o <> Ok (RedirectTo PageProduct RequestRegistered) \/
   exists cid x p f,
     company_type session = Some "export"%string /\
     truthy (company_id session) = Some cid /\
     exporting_companies (db (world s)) !! cid = Some x /\
     products (db (world s)) !! pid = Some p /\
     farming_companies (db (world s)) !! company p = Some f).
Proof.
  unfold RequestProductView_post.
  destruct (company_type session) as [ty|] eqn:Hty;
    [|intros [= <- <-]; split_and!; try done; by left].
  destruct (truthy (company_id session)) as [cid|] eqn:Hid;
    [|intros [= <- <-]; split_and!; try done; by left].
  destruct (String.eqb ty "export") eqn:Hexp;
    [|intros [= <- <-]; split_and!; try done; by left].
  apply String.eqb_eq in Hexp as ->.
  unfold vbind at 1. unfold lift at 1, get_db.
  destruct (exporting_companies (db (world s)) !! cid) as [x|] eqn:Hx;
    [|intros [= <- <-]; split_and!; try done; by left].
  unfold vbind at 1. unfold lift at 1. cbn [world requests].
  unfold get_object_or_404, try_except, ShrimpProduct_get. unfold bind at 1.
  rewrite related_eq.
  destruct (products (db (world s)) !! pid) as [p|] eqn:Hp;
    [|intros [= <- <-]; split_and!; try done; by left].
  cbn [ret]. unfold vbind at 1.
  unfold RequestsProduct_objects_create, vbind, lift, now, get_db, get_requests,
    put_requests, vret, vraise.
  cbn [world requests db buyer_company product owner_company company
       set_product_id support_code].
  rewrite Hx, Hp.
  destruct (farming_companies (db (world s)) !! company p) as [f|] eqn:Hf;
    [|intros [= <- <-]; split_and!; try done; by left].
  intros [= <- <-]. split_and!; try done. right. by exists cid, x, p, f.
Qed.

(** X11.  [RequestProductView.post] stores a purchase request exactly when
    the session is that of an existing exporting company and the product
    exists.  The stored request is pending, names the session's company as
    buyer and copies the product's owner and support code; it goes in under
    a new key, so every earlier request is kept as it was, also a pending
    one of the same buyer for the same product.  In every other case the
    table of requests is unchanged.  Products, packages and files are never
    touched. *)
Theorem request_product_contract (env : Env) (session : Session) (pid : Z) (s : Site) :
  (forall cid p,
     can_request session (db (world s)) cid pid p ->
     exists s',
       RequestProductView_post env session pid s
       = (Ok (RedirectTo PageProduct RequestRegistered), s') /\
       requests s !! next_pk (requests s) = None /\
       requests s'
       = <[next_pk (requests s) := new_request env s cid pid p]> (requests s) /\
       (forall k r, requests s !! k = Some r -> requests s' !! k = Some r)) /\
  (forall o s',
     RequestProductView_post env session pid s = (o, s') ->
     db (world s') = db (world s) /\ media (world s') = media (world s) /\
     ((exists cid p, can_request session (db (world s)) cid pid p) \/
      requests s' = requests s /\
      o <> Ok (RedirectTo PageProduct RequestRegistered))).
Proof.
  split.
  - intros cid p (Hty & Hid & Hne & [x Hx] & Hp & [f Hf]).
    eexists. split; [|split; [apply next_pk_fresh|]].
    + eapply RequestProductView_post_eq; try done. by apply truthy_Some.
    + cbn [requests]. split; [reflexivity|].
      intros k r Hk. rewrite lookup_insert_ne; [done|].
      intros <-. by rewrite next_pk_fresh in Hk.
  - intros o s' (Hdb & Hmedia & H)%RequestProductView_post_inv.
    split_and!; try done.
    destruct H as [?|(cid & x & p & f & Hty & (Hid & Hne)%truthy_Some & Hx & Hp & Hf)];
      [by right|left].
    exists cid, p. by split_and!.
Qed.

Lemma request_product_contract_witness :
  exists s',
    RequestProductView_post Scenario.env_ok Sample.exporter 3 Sample.site_asked
    = (Ok (RedirectTo PageProduct RequestRegistered), s') /\
    requests s' !! 1 = Some Sample.asked /\
    status <$> requests s' !! 2 = Some "pending"%string.
Proof.
  destruct (request_product_contract Scenario.env_ok Sample.exporter 3
              Sample.site_asked) as [H _].
  destruct (H 7 Scenario.tiger) as (s' & Hpost & _ & Hreq & Hold).
  { unfold can_request. split_and!; try done; by eexists. }
  exists s'. split; [done|]. split; [by apply Hold|].
  rewrite Hreq. reflexivity.
Defined.

Lemma get_farming_company_or_404_eq cid s :
  get_farming_company_or_404 cid s
  = match farming_companies (db (world s)) !! cid with
    | Some _ => (Ok cid, {| world := world s; requests := requests s |})
    | None => (Raise Http404, {| world := world s; requests := requests s |})
    end.
Proof.
  unfold get_farming_company_or_404, vbind, lift. rewrite related_eq.
  by destruct (farming_companies (db (world s)) !! cid).
Qed.

(** The owner check shared by [update_request_status] and
    [delete_request]: either the request goes on to its write with the row
    it found, or it ends here with the site as it was. *)
Lemma owner_check (request : HttpRequest) (pk : Z) (s : Site) :
  (exists r, can_decide request s pk r /\
     truthy (company_id (session request)) = Some (owner_company r) /\
     String.eqb (method request) "POST" = true /\
     get_farming_company_or_404 (owner_company r) s
     = (Ok (owner_company r), {| world := world s; requests := requests s |}) /\
     get_request_or_404 pk (owner_company r)
       {| world := world s; requests := requests s |}
     = (Ok r, {| world := world s; requests := requests s |})) \/
  ((forall r, ~ can_decide request s pk r) /\
   (String.eqb (method request) "POST" = false \/
    truthy (company_id (session request)) = None \/
    exists cid, truthy (company_id (session request)) = Some cid /\
      (get_farming_company_or_404 cid s
       = (Raise Http404, {| world := world s; requests := requests s |}) \/
       get_farming_company_or_404 cid s
       = (Ok cid, {| world := world s; requests := requests s |}) /\
       get_request_or_404 pk cid {| world := world s; requests := requests s |}
       = (Raise Http404, {| world := world s; requests := requests s |})))).
Proof.
  destruct (String.eqb (method request) "POST") eqn:Hm; cycle 1.
  { right. split; [|by left]. intros r (Hp & _). apply String.eqb_neq in Hm. done. }
  apply String.eqb_eq in Hm.
  destruct (truthy (company_id (session request))) as [cid|] eqn:Hid; cycle 1.
  { right. split; [|by right; left]. intros r (_ & Hc & Hne & _).
    assert (truthy (company_id (session request)) = Some (owner_company r))
      by by apply truthy_Some.
    congruence. }
  apply truthy_Some in Hid as Hid'. destruct Hid' as [Hc Hne].
  pose proof (get_farming_company_or_404_eq cid s) as Hfe.
  destruct (farming_companies (db (world s)) !! cid) as [f|] eqn:Hf; cycle 1.
  { right. split; [|right; right; exists cid; split; [done|by left]].
    intros r (_ & Hc' & _ & [f Hf'] & _). rewrite Hc in Hc'. simplify_eq. }
  assert (Hre : get_request_or_404 pk cid {| world := world s; requests := requests s |}
                = match requests s !! pk with
                  | Some r => if owner_company r =? cid
                              then (Ok r, {| world := world s; requests := requests s |})
                              else (Raise Http404, {| world := world s; requests := requests s |})
                  | None => (Raise Http404, {| world := world s; requests := requests s |})
                  end).
  { unfold get_request_or_404, vbind, get_requests, vret, vraise. cbn [requests].
    destruct (requests s !! pk) as [r|]; [|done]. by destruct (_ =? _). }
  destruct (requests s !! pk) as [r|] eqn:Hr; cycle 1.
  { right. split; [|right; right; exists cid; split; [done|by right]].
    intros r (_ & _ & _ & _ & ?). simplify_eq. }
  destruct (Z.eqb_spec (owner_company r) cid) as [<-|Hown].
  - left. exists r. split; [by split_and!; try done; eexists|].
    by split_and!.
  - right. split; [|right; right; exists cid; split; [done|by right]].
    intros r' (_ & Hc' & _ & _ & Hr'). rewrite Hc in Hc'. simplify_eq.
Qed.

Lemma update_request_status_eq request pk new_status s r :
  can_decide request s pk r ->
  exists o,
    update_request_status request pk new_status s
    = (Ok o, {| world := world s;
                requests := <[pk := set_status new_status r]> (requests s) |}).
Proof.
  intros Hcan. destruct (owner_check request pk s)
    as [(r' & Hcan' & Hid & Hm & Hf & Hr)|[Hno _]]; [|by destruct (Hno r)].
  assert (r' = r) as -> by (destruct Hcan as (_&_&_&_&?), Hcan' as (_&_&_&_&?); congruence).
  unfold update_request_status. rewrite Hm, Hid. cbn [negb].
  unfold vbind at 1. rewrite Hf. unfold vbind at 1. rewrite Hr.
  unfold vbind at 1, RequestsProduct_save, vbind at 1, get_requests, put_requests.
  cbn [world requests].
  destruct (X_Requested_With request) as [h|]; [destruct (String.eqb h _)|];
    by eexists.
Qed.

Lemma update_request_status_inv request pk new_status s o s' :
  update_request_status request pk new_status s = (o, s') ->
  (exists r, can_decide request s pk r) \/
  world s' = world s /\ requests s' = requests s.
Proof.
  destruct (owner_check request pk s)
    as [(r & Hcan & _)|[_ Hno]]; [left; by exists r|right].
  unfold update_request_status in H.
  destruct Hno as [Hm|[Hid|(cid & Hid & [Hf|[Hf Hr]])]].
  - rewrite Hm in H. by injection H as <- <-.
  - destruct (negb _); [by injection H as <- <-|].
    rewrite Hid in H. by injection H as <- <-.
  - destruct (negb _); [by injection H as <- <-|].
    rewrite Hid in H. unfold vbind at 1 in H. rewrite Hf in H.
    by injection H as <- <-.
  - destruct (negb _); [by injection H as <- <-|].
    rewrite Hid in H. unfold vbind at 1 in H. rewrite Hf in H.
    unfold vbind at 1 in H. rewrite Hr in H. by injection H as <- <-.
Qed.

Lemma delete_request_eq request pk s r :
  can_decide request s pk r ->
  delete_request request pk s
  = (Ok (RedirectTo PageRequestsList RequestDeleted),
     {| world := world s; requests := delete pk (requests s) |}).
Proof.
  intros Hcan. destruct (owner_check request pk s)
    as [(r' & Hcan' & Hid & Hm & Hf & Hr)|[Hno _]]; [|by destruct (Hno r)].
  unfold delete_request. rewrite Hm, Hid. cbn [negb].
  unfold vbind at 1. rewrite Hf. unfold vbind at 1. rewrite Hr.
  reflexivity.
Qed.

Lemma delete_request_inv request pk s o s' :
  delete_request request pk s = (o, s') ->
  (exists r, can_decide request s pk r) \/
  world s' = world s /\ requests s' = requests s.
Proof.
  destruct (owner_check request pk s)
    as [(r & Hcan & _)|[_ Hno]]; [left; by exists r|right].
  unfold delete_request in H.
  destruct Hno as [Hm|[Hid|(cid & Hid & [Hf|[Hf Hr]])]].
  - rewrite Hm in H. by injection H as <- <-.
  - destruct (negb _); [by injection H as <- <-|].
    rewrite Hid in H. by injection H as <- <-.
  - destruct (negb _); [by injection H as <- <-|].
    rewrite Hid in H. unfold vbind at 1 in H. rewrite Hf in H.
    by injection H as <- <-.
  - destruct (negb _); [by injection H as <- <-|].
    rewrite Hid in H. unfold vbind at 1 in H. rewrite Hf in H.
    unfold vbind at 1 in H. rewrite Hr in H. by injection H as <- <-.
Qed.

(** X12.  [update_request_status] (and so [confirm_request] and
    [reject_request]) changes a request exactly when the request came by
    POST from a session whose [company_id] is the key of an existing farming
    company that owns the request.  It then overwrites the status of that
    one row, whatever the status was before, and touches nothing else.  The
    session's [company_type] is not part of the condition: a session of an
    exporting company whose key equals the owner's passes the check. *)
Theorem update_request_status_contract (request : HttpRequest) (pk : Z)
    (new_status : string) (s : Site) :
  (forall r,
     can_decide request s pk r ->
     exists o s',
       update_request_status request pk new_status s = (Ok o, s') /\
       world s' = world s /\
       requests s' = <[pk := set_status new_status r]> (requests s) /\
       (forall k r', k <> pk -> requests s !! k = Some r' ->
                     requests s' !! k = Some r')) /\
  (forall o s',
     update_request_status request pk new_status s = (o, s') ->
     (exists r, can_decide request s pk r) \/
     world s' = world s /\ requests s' = requests s).
Proof.
  split; [|intros o s'; apply update_request_status_inv].
  intros r Hcan.
  destruct (update_request_status_eq request pk new_status s r Hcan) as [o Ho].
  eexists o, _. split; [exact Ho|]. cbn [world requests]. split_and!; try done.
  intros k r' Hk Hr'. by rewrite lookup_insert_ne.
Qed.

Lemma update_request_status_contract_witness :
  exists o s',
    confirm_request (Sample.by_post Sample.other_exporter) 1 Sample.site_asked
    = (Ok o, s') /\
    status <$> requests s' !! 1 = Some "approved"%string.
Proof.
  destruct (update_request_status_contract (Sample.by_post Sample.other_exporter)
              1 "approved" Sample.site_asked) as [H _].
  destruct (H Sample.asked) as (o & s' & Hpost & _ & Hreq & _).
  { unfold can_decide. split_and!; try done; by eexists. }
  exists o, s'. split; [exact Hpost|]. rewrite Hreq. reflexivity.
Defined.

(** X13.  [delete_request] removes a request under the same condition as a
    status change -- a POST from a session whose [company_id] is the key of
    the farming company that owns the request, whatever the status of the
    request -- and removes that row only; in every other case the site is
    left as it was. *)
Theorem delete_request_contract (request : HttpRequest) (pk : Z) (s : Site) :
  (forall r,
     can_decide request s pk r ->
     exists s',
       delete_request request pk s
       = (Ok (RedirectTo PageRequestsList RequestDeleted), s') /\
       world s' = world s /\
       requests s' !! pk = None /\
       (forall k, k <> pk -> requests s' !! k = requests s !! k)) /\
  (forall o s',
     delete_request request pk s = (o, s') ->
     (exists r, can_decide request s pk r) \/
     world s' = world s /\ requests s' = requests s).
Proof.
  split; [|intros o s'; apply delete_request_inv].
  intros r Hcan. eexists. split; [by eapply delete_request_eq|].
  cbn [world requests]. split_and!; try done.
  - apply lookup_delete_eq.
  - intros k Hk. by rewrite lookup_delete_ne.
Qed.

Lemma delete_request_contract_witness :
  exists s',
    delete_request (Sample.by_post Sample.farmer) 1 Sample.site_asked
    = (Ok (RedirectTo PageRequestsList RequestDeleted), s') /\
    requests s' !! 1 = None.
Proof.
  destruct (delete_request_contract (Sample.by_post Sample.farmer) 1
              Sample.site_asked) as [H _].
  destruct (H Sample.asked) as (s' & Hpost & _ & Hgone & _).
  { unfold can_decide. split_and!; try done; by eexists. }
  by exists s'.
Defined.

(** ** The packaging page and the purchase workflow *)

Lemma purchased_true rs cid k :
  purchased rs cid k = true <-> approved_for rs cid k.
Proof.
  unfold purchased, approved_for. rewrite bool_decide_eq_true.
  apply map_Exists_lookup.
Qed.

Lemma purchased_insert_fresh rs k r cid j :
  rs !! k = None -> status r <> "approved"%string ->
  purchased (<[k := r]> rs) cid j = purchased rs cid j.
Proof.
  intros Hk Hst. unfold purchased. apply bool_decide_ext.
  rewrite map_Exists_insert by done. split; [|by right].
  by intros [(_ & _ & ?)|?].
Qed.

Lemma CreatePackageView_get_eq request s cid :
  logged_in request (db (world s)) cid ->
  CreatePackageView_get request s
  = (Ok (RenderPurchased
           (filter (fun kp => purchased (requests s) cid kp.1 = true)
              (products (db (world s))))),
     {| world := world s; requests := requests s |}).
Proof.
  intros Hlog. unfold CreatePackageView_get.
  destruct (get_company_from_session_eq request (world s)) as (c & Hc & Hin).
  rewrite (Hin _ Hlog) in Hc.
  unfold vbind at 1. by rewrite (lift_eq _ _ _ _ Hc).
Qed.

Lemma listed_eq request s cid :
  logged_in request (db (world s)) cid ->
  listed request s
  = Some (filter (fun kp => purchased (requests s) cid kp.1 = true)
            (products (db (world s)))).
Proof. intros Hlog. unfold listed. by rewrite (CreatePackageView_get_eq _ _ cid). Qed.

Lemma listed_same request s s' cid :
  logged_in request (db (world s)) cid ->
  db (world s') = db (world s) ->
  (forall k, purchased (requests s') cid k = purchased (requests s) cid k) ->
  listed request s' = listed request s.
Proof.
  intros Hlog Hdb Hp.
  rewrite (listed_eq request s cid), (listed_eq request s' cid) by by rewrite ?Hdb.
  rewrite Hdb. f_equal. apply map_filter_strong_ext_1. intros i x.
  cbn. by rewrite Hp.
Qed.

(** X14.  The purchase workflow, end to end.  When an exporter asks for a
    product, the pending request does not change what the exporter's
    packaging page offers; once the owner approves that request the product
    is offered; and when the owner afterwards rejects the same request the
    page is back to what it offered before the request was made. *)
Theorem approval_controls_listing (env : Env) (session : Session)
    (decide : HttpRequest) (request : Request) (s : Site) (cid pid : Z)
    (p : ShrimpProduct) :
  can_request session (db (world s)) cid pid p ->
  logged_in request (db (world s)) cid ->
  method decide = "POST"%string ->
  company_id (Market.session decide) = Some (company p) ->
  company p <> 0 ->
  let k := next_pk (requests s) in
  let s1 := site_serve env (RequestProduct session pid) s in
  let s2 := site_serve env (UpdateRequestStatus decide k "approved") s1 in
  let s3 := site_serve env (UpdateRequestStatus decide k "rejected") s2 in
  listed request s1 = listed request s /\
  (exists l, listed request s2 = Some l /\ l !! pid = Some p) /\
  listed request s3 = listed request s.
Proof.
  intros Hcan Hlog Hm Hid Hne k s1 s2 s3.
  pose proof Hcan as (Hty & Hsid & Hcid & [x Hx] & Hp & [f Hf]).
  assert (Hfresh : requests s !! k = None) by apply next_pk_fresh.
  assert (Hs1 : s1 = {| world := {| db := db (world s); media := media (world s);
                                    ticks := S (ticks (world s));
                                    draws := draws (world s) |};
                        requests := <[k := new_request env s cid pid p]> (requests s) |}).
  { unfold s1, site_serve.
    by rewrite (RequestProductView_post_eq env session pid s cid x p f)
      by (try done; by apply truthy_Some). }
  assert (Hcan1 : can_decide decide s1 k (new_request env s cid pid p)).
  { rewrite Hs1. unfold can_decide. cbn [world requests db owner_company new_request].
    split_and!; try done; first [by eexists|apply lookup_insert_eq]. }
  assert (Hs2 : s2 = {| world := world s1;
                        requests := <[k := set_status "approved"
                                             (new_request env s cid pid p)]>
                                      (requests s) |}).
  { unfold s2, site_serve.
    destruct (update_request_status_eq decide k "approved" s1 _ Hcan1) as [o ->].
    cbn [snd]. f_equal. rewrite Hs1. cbn [requests]. apply insert_insert_eq. }
  assert (Hcan2 : can_decide decide s2 k
                    (set_status "approved" (new_request env s cid pid p))).
  { rewrite Hs2, Hs1. unfold can_decide.
    cbn [world requests db owner_company new_request set_status].
    split_and!; try done; first [by eexists|apply lookup_insert_eq]. }
  assert (Hs3 : s3 = {| world := world s1;
                        requests := <[k := set_status "rejected"
                                             (set_status "approved"
                                                (new_request env s cid pid p))]>
                                      (requests s) |}).
  { unfold s3, site_serve.
    destruct (update_request_status_eq decide k "rejected" s2 _ Hcan2) as [o ->].
    cbn [snd]. rewrite Hs2. cbn [world requests]. f_equal. apply insert_insert_eq. }
  split_and!.
  - apply (listed_same _ _ _ cid); [done|by rewrite Hs1|].
    intros j. rewrite Hs1. cbn [requests]. by apply purchased_insert_fresh.
  - eexists. split.
    + apply (listed_eq _ _ cid). by rewrite Hs2, Hs1.
    + apply map_lookup_filter_Some. rewrite Hs2, Hs1. cbn [world db requests fst].
      split; [done|]. apply purchased_true.
      exists k, (set_status "approved" (new_request env s cid pid p)).
      split; [apply lookup_insert_eq|done].
  - apply (listed_same _ _ _ cid); [done|by rewrite Hs3, Hs1|].
    intros j. rewrite Hs3. cbn [requests]. by apply purchased_insert_fresh.
Qed.

Lemma approval_controls_listing_witness :
  exists l,
    listed (Scenario.request 5 10)
      (site_serve_all Scenario.env_ok
         [RequestProduct Sample.exporter 3;
          UpdateRequestStatus (Sample.by_post Sample.farmer) 1 "approved"]
         Sample.site) = Some l /\
    l !! 3 = Some Scenario.tiger.
Proof.
  destruct (approval_controls_listing Scenario.env_ok Sample.exporter
              (Sample.by_post Sample.farmer) (Scenario.request 5 10)
              Sample.site 7 3 Scenario.tiger) as (_ & (l & Hl & Hp) & _).
  - unfold can_request. split_and!; try done; by eexists.
  - apply request_logged_in. by eexists.
  - reflexivity.
  - reflexivity.
  - done.
  - exists l. split; [exact Hl|exact Hp].
Defined.

Lemma post_succeeds (env : Env) request w cid pid uw n p :
  logged_in request (db w) cid ->
  POST_shrimp_product request = Some pid ->
  POST_package_weight request = Value uw ->
  POST_package_count request = Value n ->
  (0 < uw)%Q -> 0 < n ->
  products (db w) !! pid = Some p ->
  (uw * inject_Z n <= weight p)%Q ->
  db_constraints (db w) ->
  taken batch_number (packages (db w)) (next_pk (packages (db w)))
        (Ident.new_batch_number (urandom env (draws w))) = false ->
  (forall data,
     qr_batch_number data = Ident.new_batch_number (urandom env (draws w)) ->
     is_Some (qr_render env data)) ->
  exists o w',
    post env request w = (o, w') /\
    committed env {| ck_company := cid; ck_product_id := pid;
                     ck_product := set_product_id (Some pid) p;
                     ck_weight := uw; ck_count := n;
                     ck_total := (uw * inject_Z n)%Q |} w w' o.
Proof.
  intros Hlog Hpid Hw Hn Huw Hn0 Hp Hle Hdb Hfree Hrender.
  assert (Hpost : post env request w =
            try_except
              (bind (post_validate request cid pid)
                 (fun v => match v with
                           | inl r => ret r
                           | inr c => post_transaction env c
                           end)) post_except w).
  { unfold post.
    destruct (get_company_from_session_eq request w) as (co & Hco & Hin).
    rewrite (bind_eq _ _ _ _ _ Hco), (Hin _ Hlog), Hpid. done. }
  rewrite Hpost. unfold try_except, bind.
  rewrite (post_validate_eq request cid pid uw n w Hw Hn).
  assert (Qle_bool uw 0 || (n <=? 0) = false) as ->.
  { apply orb_false_iff. split; [|by apply Z.leb_gt].
    apply not_true_is_false. rewrite Qle_bool_iff. lra. }
  rewrite Hp.
  assert (negb (Qle_bool (uw * inject_Z n) (weight p)) = false) as ->.
  { apply negb_false_iff. by apply Qle_bool_iff. }
  match goal with
  | |- context [post_transaction env ?c w] =>
      destruct (post_transaction_commits env c w p) as (o & w' & Ht & Hcm)
  end; try done.
  { destruct Hlog as (_ & _ & _ & ?). done. }
  rewrite Ht. pose proof Hcm as (? & ? & ? & ? & -> & _).
  by eexists _, _.
Qed.

(** X15.  Packaging is not tied to the purchase workflow.  The packaging
    page offers only products with an approved request, but the POST behind
    it never looks at the requests: a logged-in exporter that has no
    approved request for a product -- none at all, a pending or a rejected
    one -- is not offered the product and still gets the package created and
    the product's stock reduced, under the conditions that hold for any
    package creation: a unit weight and a stock that are values of their
    columns, a count within the range of the quantity column, a total within
    the stock, declared constraints satisfied, a batch number no package
    holds and a renderer that succeeds. *)
Theorem packaging_needs_no_approval (env : Env) (request : Request) (s : Site)
    (cid pid : Z) (uw : Q) (n : Z) (p : ShrimpProduct) :
  logged_in request (db (world s)) cid ->
  POST_shrimp_product request = Some pid ->
  POST_package_weight request = Value uw ->
  POST_package_count request = Value n ->
  (0 < uw)%Q -> 0 < n ->
  in_column 8 2 uw -> n <= 2147483647 ->
  products (db (world s)) !! pid = Some p ->
  in_column 10 2 (weight p) ->
  (uw * inject_Z n <= weight p)%Q ->
  db_constraints (db (world s)) ->
  (forall k row, packages (db (world s)) !! k = Some row ->
     batch_number row
     <> Ident.new_batch_number (urandom env (draws (world s)))) ->
  (forall data,
     qr_batch_number data
     = Ident.new_batch_number (urandom env (draws (world s))) ->
     is_Some (qr_render env data)) ->
  ~ approved_for (requests s) cid pid ->
  (exists l, listed request s = Some l /\ l !! pid = None) /\
  (exists pkg s' k p',
     CreatePackageView_post env request s
     = (Ok (Summary pkg n uw (uw * inject_Z n) (weight p)
              (weight p - uw * inject_Z n)), s') /\
     requests s' = requests s /\
     packages (db (world s)) !! k = None /\
     packages (db (world s')) !! k = Some pkg /\
     exporting_company pkg = cid /\ shrimp_product pkg = pid /\
     products (db (world s')) !! pid = Some p' /\
     weight p' = (weight p - uw * inject_Z n)%Q /\
     in_column 10 2 (weight p')).
Proof.
  intros Hlog Hpid Hw Hn Huw Hn0 Hcol Hrange Hp Hstock Hle Hdb Hfree Hrender Hno.
  split.
  - eexists. split; [by apply (listed_eq _ _ cid)|].
    apply map_lookup_filter_None. right. intros x _. cbn [fst].
    by rewrite purchased_true.
  - destruct (post_succeeds env request (world s) cid pid uw n p)
      as (o & w' & Hpost & Hcm); try done.
    { apply taken_false. intros k row Hrow _. by eapply Hfree. }
    pose proof Hcm as (pkg & sp & data & img & -> & Hk & Hsp & _ & _ & _ & _ & _ & _ & _
                       & Hspeq & _ & _ & Hdb').
    cbn [ck_count ck_weight ck_total ck_product ck_product_id weight
         set_product_id] in *.
    exists pkg, {| world := w'; requests := requests s |},
      (next_pk (packages (db (world s)))), sp.
    split; [by apply lift_eq|]. cbn [world requests]. rewrite Hdb'.
    cbn [packages products set_products set_packages].
    assert (Hwsp : weight sp = (weight p - uw * inject_Z n)%Q)
      by (rewrite Hspeq; reflexivity).
    split_and!; try done.
    + apply next_pk_fresh.
    + apply lookup_insert_eq.
    + apply post_summary_package in Hpost
        as (c & p0 & img0 & Hlog0 & _ & _ & _ & -> & _).
      cbn. destruct Hlog0 as (Hc0 & _), Hlog as (Hc & _). congruence.
    + apply lookup_insert_eq.
    + rewrite Hwsp. apply in_column_deduct; try done.
      assert (0 < inject_Z n)%Q
        by (change 0%Q with (inject_Z 0); by rewrite <- Zlt_Qlt).
      nra.
Qed.

Lemma packaging_needs_no_approval_witness :
  (exists l, listed (Scenario.request 5 10) Sample.site_asked = Some l /\
             l !! 3 = None) /\
  (exists pkg s' k p',
     CreatePackageView_post Scenario.env_ok (Scenario.request 5 10) Sample.site_asked
     = (Ok (Summary pkg 10 5 (5 * inject_Z 10) 100 (100 - 5 * inject_Z 10)), s') /\
     requests s' = requests Sample.site_asked /\
     packages (db (world Sample.site_asked)) !! k = None /\
     packages (db (world s')) !! k = Some pkg /\
     exporting_company pkg = 7 /\ shrimp_product pkg = 3 /\
     products (db (world s')) !! 3 = Some p' /\
     weight p' = (100 - 5 * inject_Z 10)%Q /\
     in_column 10 2 (weight p')).
Proof.
  apply (packaging_needs_no_approval Scenario.env_ok (Scenario.request 5 10)
           Sample.site_asked 7 3 5 10 Scenario.tiger);
    first [ reflexivity
          | lia
          | apply shop_constraints
          | apply request_logged_in; by eexists
          | exists 500; split; reflexivity
          | exists 10000; split; reflexivity
          | intros data _; by eexists
          | intros k row Hrow; unfold Sample.site_asked, Scenario.world,
              Scenario.shop in Hrow; cbn [world db packages] in Hrow;
            by rewrite lookup_empty in Hrow
          | intros (j & r & Hj & _ & _ & Hst);
            unfold Sample.site_asked in Hj; cbn [requests] in Hj;
            apply lookup_singleton_Some in Hj as [_ <-]; discriminate
          | done ].
Defined.

(** ** Deleting and registering products *)

Lemma DeleteProductView_post_eq pid s p :
  products (db (world s)) !! pid = Some p ->
  DeleteProductView_post pid s
  = (Ok (JsonResponse true None),
     {| world :=
          set_db (set_products (delete pid (products (db (world s))))
                    (set_packages
                       (filter (fun kp => shrimp_product kp.2 <> pid)
                          (packages (db (world s)))) (db (world s))))
            (world s);
        requests := filter (fun kr => product kr.2 <> pid) (requests s) |}).
Proof.
  intros Hp. unfold DeleteProductView_post. unfold vbind at 1.
  rewrite (lift_eq (get_object_or_404 pid) _ (Ok (set_product_id (Some pid) p))
             (world s)); cycle 1.
  { unfold get_object_or_404, try_except, ShrimpProduct_get. unfold bind at 1.
    by rewrite related_eq, Hp. }
  reflexivity.
Qed.

Lemma DeleteProductView_post_missing pid s :
  products (db (world s)) !! pid = None ->
  DeleteProductView_post pid s
  = (Raise Http404, {| world := world s; requests := requests s |}).
Proof.
  intros Hp. unfold DeleteProductView_post. unfold vbind at 1.
  rewrite (lift_eq (get_object_or_404 pid) _ (Raise Http404) (world s)); [done|].
  unfold get_object_or_404, try_except, ShrimpProduct_get. unfold bind at 1.
  by rewrite related_eq, Hp.
Qed.

(** X16.  [DeleteProductView.post] on an unknown product answers 404 and
    changes nothing.  On an existing product it removes the product together
    with every package made from it and every request for it, and nothing
    else: all other products, packages and requests, and the companies, are
    as before.  The artifacts of the removed packages stay in the media
    storage. *)
Theorem delete_product_cascade (pid : Z) (s : Site) :
  match products (db (world s)) !! pid with
  | None => DeleteProductView_post pid s = (Raise Http404, s)
  | Some _ =>
      exists s',
        DeleteProductView_post pid s = (Ok (JsonResponse true None), s') /\
        products (db (world s')) !! pid = None /\
        (forall k, k <> pid ->
           products (db (world s')) !! k = products (db (world s)) !! k) /\
        (forall k pkg,
           packages (db (world s')) !! k = Some pkg <->
           packages (db (world s)) !! k = Some pkg /\ shrimp_product pkg <> pid) /\
        (forall k r,
           requests s' !! k = Some r <->
           requests s !! k = Some r /\ product r <> pid) /\
        farming_companies (db (world s')) = farming_companies (db (world s)) /\
        exporting_companies (db (world s')) = exporting_companies (db (world s)) /\
        media (world s') = media (world s)
  end.
Proof.
  destruct (products (db (world s)) !! pid) as [p|] eqn:Hp.
  - eexists. split; [by eapply DeleteProductView_post_eq|].
    cbn [world requests db media set_db set_products set_packages products
         packages farming_companies exporting_companies].
    split_and!; try done.
    + apply lookup_delete_eq.
    + intros k Hk. by rewrite lookup_delete_ne.
    + intros k pkg. by rewrite map_lookup_filter_Some.
    + intros k r. by rewrite map_lookup_filter_Some.
  - rewrite DeleteProductView_post_missing by done. by destruct s.
Qed.

Lemma delete_product_cascade_witness :
  exists s',
    DeleteProductView_post 3 Sample.site_asked = (Ok (JsonResponse true None), s') /\
    products (db (world s')) !! 3 = None /\
    requests s' !! 1 = None /\
    media (world s') = media (world Sample.site_asked).
Proof.
  pose proof (delete_product_cascade 3 Sample.site_asked) as H.
  change (products (db (world Sample.site_asked)) !! 3)
    with (Some Scenario.tiger) in H.
  cbv iota beta in H.
  destruct H as (s' & Hpost & Hgone & _ & _ & Hreq & _ & _ & Hmedia).
  exists s'. split_and!; try done.
  destruct (requests s' !! 1) as [r|] eqn:Hr; [|done].
  apply Hreq in Hr as [Hr Hne]. unfold Sample.site_asked in Hr.
  cbn [requests] in Hr. apply lookup_singleton_Some in Hr as [_ <-]. done.
Defined.

Lemma AddProductView_get_company_from_session_eq session w cid :
  farmer_logged_in session (db w) cid ->
  AddProductView_get_company_from_session session w = (Ok (Some cid), w).
Proof.
  intros (Hid & Hne & Hty & [f Hf]).
  unfold AddProductView_get_company_from_session. rewrite Hid, Hty.
  apply Z.eqb_neq in Hne. rewrite Hne. cbn [negb andb String.eqb Ascii.eqb Bool.eqb].
  cbv iota. unfold try_except, bind. by rewrite related_eq, Hf.
Qed.

Lemma AddProductView_get_company_from_session_inv session w o w' :
  AddProductView_get_company_from_session session w = (o, w') ->
  w' = w /\
  ((o = Ok None /\ forall cid, ~ farmer_logged_in session (db w) cid) \/
   exists cid, o = Ok (Some cid) /\ farmer_logged_in session (db w) cid).
Proof.
  unfold AddProductView_get_company_from_session, farmer_logged_in.
  destruct (company_id session) as [cid|] eqn:Hid;
    [|intros [= <- <-]; split; [done|left; split; [done|by intros ? [? _]]]].
  destruct (company_type session) as [ty|] eqn:Hty;
    [|intros [= <- <-]; split; [done|left; split; [done|by intros ? (_ & _ & ? & _)]]].
  destruct (Z.eqb_spec cid 0) as [->|Hne]; cbn [negb andb].
  { intros [= <- <-]. split; [done|left]. split; [done|].
    by intros ? ([= <-] & ? & _). }
  destruct (String.eqb ty "shrimp") eqn:Hs; cycle 1.
  { intros [= <- <-]. split; [done|left]. split; [done|].
    intros ? (_ & _ & [= ->] & _). by rewrite String.eqb_refl in Hs. }
  apply String.eqb_eq in Hs as ->.
  unfold try_except, bind. rewrite related_eq.
  destruct (farming_companies (db w) !! cid) as [f|] eqn:Hf.
  - intros [= <- <-]. split; [done|right]. exists cid.
    split_and!; try done; by eexists.
  - intros [= <- <-]. split; [done|left]. split; [done|].
    intros ? ([= <-] & _ & _ & [? ?]). congruence.
Qed.

Lemma code_format_nonempty cls s : Ident.code_format cls s = true -> s <> ""%string.
Proof. intros H ->. discriminate. Qed.

(** X17.  [AddProductView.post].  For a logged-in farming company and a
    form whose four fields were accepted, the product goes in under a new
    key, owned by the session's company, with the submitted name, weight,
    type and price and a support code of eight upper-case hexadecimal
    characters drawn at that moment; every product already stored is kept as
    it was.  If the drawn code is held by another product the view raises
    [IntegrityError] and stores nothing.  Without a logged-in farming
    company, or with a rejected form, nothing is stored either. *)
Theorem add_product_contract (env : Env) (session : Session) (form : ProductForm)
    (s : Site) :
  (forall cid x,
     farmer_logged_in session (db (world s)) cid ->
     ShrimpProductForm_save form = Some x ->
     let k := next_pk (products (db (world s))) in
     let saved := added_product env (world s) cid x in
     if taken support_code (products (db (world s))) k (support_code saved)
     then exists s',
       AddProductView_post env session form s = (Raise IntegrityError, s') /\
       db (world s') = db (world s) /\ requests s' = requests s
     else exists s',
       AddProductView_post env session form s
       = (Ok (RedirectTo PageAddProduct ProductRegistered), s') /\
       products (db (world s)) !! k = None /\
       products (db (world s')) = <[k := saved]> (products (db (world s))) /\
       packages (db (world s')) = packages (db (world s)) /\
       requests s' = requests s /\
       company saved = cid /\
       Ident.code_format Ident.is_upper_hex (support_code saved) = true /\
       form_product_name form = Value (product_name saved) /\
       form_weight form = Value (weight saved) /\
       form_shrimp_type form = Value (shrimp_type saved) /\
       form_price form = Value (price saved)) /\
  (forall o s',
     AddProductView_post env session form s = (o, s') ->
     (forall cid, ~ farmer_logged_in session (db (world s)) cid) \/
     ShrimpProductForm_save form = None ->
     db (world s') = db (world s) /\ requests s' = requests s /\
     (o = Ok (RedirectTo PageLogin PleaseLogin) \/
      o = Ok (RenderForm ProductRejected))).
Proof.
  split.
  - intros cid x Hlog Hform k saved.
    assert (Hx : support_code (set_company cid x) = ""%string /\
                 product_id (set_company cid x) = None).
    { unfold ShrimpProductForm_save in Hform.
      destruct (form_product_name form), (form_weight form),
        (form_shrimp_type form), (form_price form); by simplify_eq. }
    destruct Hx as [Hcode Hid].
    pose proof (ShrimpProduct_save_new_eq env (set_company cid x) (world s) Hcode)
      as Hsave.
    cbv zeta in Hsave. rewrite Hid in Hsave.
    unfold AddProductView_post, vbind.
    rewrite (lift_eq _ _ _ _ (AddProductView_get_company_from_session_eq _ _ _ Hlog)).
    rewrite Hform. unfold lift. cbn [world requests]. rewrite Hsave.
    change (support_code saved)
      with (Ident.new_support_code (urandom env (draws (world s)))).
    fold k.
    destruct (taken support_code _ k _).
    + eexists. split; [reflexivity|]. done.
    + eexists. split; [reflexivity|]. cbn [world requests db set_db products
        packages set_products].
      split_and!; try done.
      * apply next_pk_fresh.
      * apply IdentFacts.new_support_code_hex.
      * unfold ShrimpProductForm_save in Hform.
        destruct (form_product_name form), (form_weight form),
          (form_shrimp_type form), (form_price form); by simplify_eq.
      * unfold ShrimpProductForm_save in Hform.
        destruct (form_product_name form), (form_weight form),
          (form_shrimp_type form), (form_price form); by simplify_eq.
      * unfold ShrimpProductForm_save in Hform.
        destruct (form_product_name form), (form_weight form),
          (form_shrimp_type form), (form_price form); by simplify_eq.
      * unfold ShrimpProductForm_save in Hform.
        destruct (form_product_name form), (form_weight form),
          (form_shrimp_type form), (form_price form); by simplify_eq.
  - intros o s' Hpost Hwhy. unfold AddProductView_post, vbind, lift in Hpost.
    destruct (AddProductView_get_company_from_session session (world s))
      as [oc w1] eqn:Hc.
    apply AddProductView_get_company_from_session_inv in Hc
      as (-> & [[-> Hno]|(cid & -> & Hlog)]).
    { injection Hpost as <- <-. split_and!; try done. by left. }
    destruct Hwhy as [Hno|Hform]; [by destruct (Hno cid)|].
    cbn [requests world] in Hpost. rewrite Hform in Hpost.
    injection Hpost as <- <-. split_and!; try done. by right.
Qed.

Lemma add_product_contract_witness :
  exists s' p,
    AddProductView_post Scenario.env_ok Sample.farmer Sample.whiteleg Sample.site
    = (Ok (RedirectTo PageAddProduct ProductRegistered), s') /\
    products (db (world s')) !! 4 = Some p /\
    company p = 1 /\ support_code p = "00000000"%string /\
    products (db (world s')) !! 3 = Some Scenario.tiger.
Proof.
  destruct (add_product_contract Scenario.env_ok Sample.farmer Sample.whiteleg
              Sample.site) as [H _].
  specialize (H 1 _ ltac:(unfold farmer_logged_in; split_and!; try done; by eexists)
                eq_refl).
  cbv zeta in H.
  change (taken support_code (products (db (world Sample.site)))
            (next_pk (products (db (world Sample.site))))
            (support_code (added_product Scenario.env_ok (world Sample.site) 1
               {| product_id := None; company := 0; product_name := "Whiteleg";
                  weight := 20; shrimp_type := "whiteleg"; price := 4;
                  support_code := "" |})))
    with false in H.
  destruct H as (s' & Hpost & _ & Hprod & _).
  eexists s', _. split; [exact Hpost|]. rewrite Hprod.
  split; [reflexivity|]. split; [reflexivity|]. split; reflexivity.
Defined.

(** ** The copies of a product's columns *)

Section RefFacts.
Context (env : Env).

Lemma same_owner_and_code_refl t : same_owner_and_code t t.
Proof.
  intros k. destruct (t !! k) as [p|] eqn:Hp; [right|by left].
  by exists p, p.
Qed.

Lemma same_owner_and_code_insert t k p x :
  t !! k = Some p -> support_code x = support_code p -> company x = company p ->
  same_owner_and_code t (<[k := x]> t).
Proof.
  intros Hp Hc Ho j. destruct (decide (j = k)) as [->|Hjk].
  - right. exists p, x. by rewrite lookup_insert_eq.
  - rewrite lookup_insert_ne by done.
    destruct (t !! j) as [q|] eqn:Hq; [right|by left]. by exists q, q.
Qed.

Lemma package_refs_same w w' :
  packages (db w') = packages (db w) -> package_refs_from w w'.
Proof. intros Hpk k x Hx. left. exists k, x. by rewrite <- Hpk. Qed.

Lemma serve_refs a w :
  (forall k edits, a <> ChangePackage k edits) ->
  support_codes_ok (db w) ->
  same_owner_and_code (products (db w)) (products (db (serve env a w))) /\
  farming_companies (db (serve env a w)) = farming_companies (db w) /\
  package_refs_from w (serve env a w).
Proof.
  intros Hview [Hu Hne].
  destruct a as [request|pid request|selected|k edits]; unfold serve;
    [| | |by destruct (Hview k edits)].
  - destruct (post env request w) as [o w'] eqn:Hpost. cbn [snd].
    pose proof Hpost as Hpost'.
    apply post_cases in Hpost as [[_ Hdb]|(c & Hc & Hcm)].
    { rewrite Hdb. split_and!; [apply same_owner_and_code_refl|done|].
      apply package_refs_same. by rewrite Hdb. }
    destruct Hc as (p & _ & Hp & Hcp & _).
    destruct Hcm as (pkg & sp & data & img & -> & _ & _ & _ & _ & _ & _ & _ & _ & _
                     & Hsp & Hsame & _ & Hdb).
    apply post_summary_package in Hpost'
      as (c' & p' & img' & _ & _ & Hp' & Hcp' & Hpkg & _).
    rewrite Hdb. cbn [products packages farming_companies set_products set_packages].
    split_and!; [|done|].
    + apply (same_owner_and_code_insert _ _ p); [done| |].
      * rewrite Hsame; rewrite Hcp; [done|]. cbn. by eapply Hne.
      * rewrite Hsp, Hcp. done.
    + intros j x Hx. rewrite Hdb in Hx. cbn in Hx.
      destruct (decide (j = next_pk (packages (db w)))) as [->|Hj].
      * rewrite lookup_insert_eq in Hx. injection Hx as <-. right.
        exists p'. rewrite Hpkg. cbn. rewrite Hcp'. done.
      * rewrite lookup_insert_ne in Hx by done. left. by exists j, x.
  - destruct (products (db w) !! pid) as [p|] eqn:Hp; cycle 1.
    { rewrite EditProductView_post_missing by done. cbn [snd].
      split_and!; [apply same_owner_and_code_refl|done|by apply package_refs_same]. }
    assert (Hc : support_code p <> ""%string) by by eapply Hne.
    rewrite (EditProductView_post_eq env pid request w p Hp Hc).
    destruct (submitted_weight request) as [q|];
      [|split_and!; [apply same_owner_and_code_refl|done|by apply package_refs_same]].
    destruct (submitted_price request) as [pr|];
      [|split_and!; [apply same_owner_and_code_refl|done|by apply package_refs_same]].
    destruct (taken _ _ _ _);
      [split_and!; [apply same_owner_and_code_refl|done|by apply package_refs_same]|].
    cbn [snd db set_db products set_products farming_companies].
    split_and!; [by apply (same_owner_and_code_insert _ _ p)|done|].
    by apply package_refs_same.
  - destruct (generate_qr_codes env selected w) as [o w'] eqn:Hgen. cbn [snd].
    apply generate_qr_codes_frame in Hgen as (Hpr & Hf & _ & Hq).
    rewrite Hpr. split_and!; [apply same_owner_and_code_refl|done|].
    intros j x Hx. destruct (Hq j) as [[_ Hn]|(row & name & Hrow & Hx')]; [congruence|].
    left. exists j, row. rewrite Hx' in Hx. injection Hx as <-. done.
Qed.

End RefFacts.

Lemma same_owner_lookup t t' k p :
  same_owner_and_code t t' -> t !! k = Some p ->
  exists p', t' !! k = Some p' /\ support_code p' = support_code p /\
             company p' = company p.
Proof.
  intros H Hp. destruct (H k) as [[Hn _]|(q & p' & Hq & Hp' & ? & ?)]; [congruence|].
  exists p'. by simplify_eq.
Qed.

Lemma requests_agree_mono ps ps' rs :
  (forall k p, ps !! k = Some p ->
     exists p', ps' !! k = Some p' /\ support_code p' = support_code p /\
                company p' = company p) ->
  requests_agree ps rs -> requests_agree ps' rs.
Proof.
  intros Hk Hag j r Hr. destruct (Hag j r Hr) as (p & Hp & Hc & Ho).
  destruct (Hk _ _ Hp) as (p' & Hp' & Hc' & Ho'). exists p'. split; [done|].
  by rewrite Hc, Ho, Hc', Ho'.
Qed.

Lemma AddProductView_post_cases (env : Env) session form s o s' :
  AddProductView_post env session form s = (o, s') ->
  requests s' = requests s /\
  (db (world s') = db (world s) \/
   exists cid x,
     farmer_logged_in session (db (world s)) cid /\
     taken support_code (products (db (world s)))
       (next_pk (products (db (world s))))
       (support_code (added_product env (world s) cid x)) = false /\
     company (added_product env (world s) cid x) = cid /\
     db (world s')
     = set_products
         (<[next_pk (products (db (world s))) := added_product env (world s) cid x]>
            (products (db (world s)))) (db (world s))).
Proof.
  intros Hpost. unfold AddProductView_post, vbind, lift in Hpost.
  destruct (AddProductView_get_company_from_session session (world s))
    as [oc w1] eqn:Hc.
  apply AddProductView_get_company_from_session_inv in Hc
    as (-> & [[-> Hno]|(cid & -> & Hlog)]).
  { injection Hpost as <- <-. split; [done|by left]. }
  cbn [requests world] in Hpost.
  destruct (ShrimpProductForm_save form) as [x|] eqn:Hform; cycle 1.
  { injection Hpost as <- <-. split; [done|by left]. }
  assert (Hx : support_code (set_company cid x) = ""%string /\
               product_id (set_company cid x) = None).
  { unfold ShrimpProductForm_save in Hform.
    destruct (form_product_name form), (form_weight form),
      (form_shrimp_type form), (form_price form); by simplify_eq. }
  destruct Hx as [Hcode Hid].
  pose proof (ShrimpProduct_save_new_eq env (set_company cid x) (world s) Hcode)
    as Hsave.
  cbv zeta in Hsave. rewrite Hid in Hsave.
  cbn [requests world] in Hpost. rewrite Hsave in Hpost.
  change (Ident.new_support_code (urandom env (draws (world s))))
    with (support_code (added_product env (world s) cid x)) in Hpost.
  destruct (taken support_code _ _ _) eqn:Ht.
  - injection Hpost as <- <-. split; [done|by left].
  - injection Hpost as <- <-. split; [done|right].
    exists cid, x. by split_and!.
Qed.

Lemma site_serve_ok (env : Env) a s :
  by_a_view a -> site_ok s -> site_ok (site_serve env a s).
Proof.
  intros Hview (Hsc & Hown & Hrq & Hpk).
  destruct a as [a|session pid|request pk st|request pk|pid|session form];
    unfold site_serve.
  - assert (Ha : forall k edits, a <> ChangePackage k edits)
      by (intros k edits ->; exact Hview).
    destruct (serve_refs env a (world s) Ha Hsc) as (Hso & Hf & Hrefs).
    destruct (serve_support_codes env a (world s) Hsc) as [Hsc' _].
    unfold site_ok, copies_agree. split_and!; cbn [world requests].
    + done.
    + intros k p' Hp'. rewrite Hf.
      destruct (Hso k) as [[_ Hn]|(p & q & Hp & Hq & _ & Hc)]; [congruence|].
      assert (q = p') as -> by congruence. rewrite Hc. by eapply Hown.
    + eapply requests_agree_mono; [|done]. intros k p. by apply same_owner_lookup.
    + intros k x Hx.
      destruct (Hrefs k x Hx) as [(j & x0 & Hx0 & -> & ->)|(p & Hp & ->)].
      * destruct (Hpk j x0 Hx0) as (p & Hp & ->).
        destruct (same_owner_lookup _ _ _ _ Hso Hp) as (p' & ? & _ & ?). by exists p'.
      * destruct (same_owner_lookup _ _ _ _ Hso Hp) as (p' & ? & _ & ?). by exists p'.
  - destruct (RequestProductView_post env session pid s) as [o s'] eqn:Hpost.
    cbn [snd]. pose proof Hpost as Hpost'.
    apply RequestProductView_post_inv in Hpost as (Hdb & _ & H).
    unfold site_ok, copies_agree. rewrite Hdb. split_and!; try done.
    destruct H as [[-> _]|(cid & x & p & f & Hty & Hid & Hx & Hp & Hf)]; [done|].
    rewrite (RequestProductView_post_eq env session pid s cid x p f) in Hpost'
      by done.
    injection Hpost' as _ <-. cbn [requests]. intros k r.
    destruct (decide (k = next_pk (requests s))) as [->|Hk].
    + rewrite lookup_insert_eq. intros [= <-]. by exists p.
    + rewrite lookup_insert_ne by done. apply Hrq.
  - destruct (update_request_status request pk st s) as [o s'] eqn:Hpost.
    cbn [snd]. pose proof Hpost as Hpost'.
    apply update_request_status_inv in Hpost as [[r Hcan]|[Hw Hr]]; cycle 1.
    { unfold site_ok, copies_agree. by rewrite Hw, Hr. }
    destruct (update_request_status_eq request pk st s r Hcan) as [o' Heq].
    rewrite Heq in Hpost'. injection Hpost' as _ <-.
    unfold site_ok, copies_agree. split_and!; try done.
    cbn [world requests]. intros k r'.
    destruct (decide (k = pk)) as [->|Hk].
    + rewrite lookup_insert_eq. intros [= <-].
      destruct Hcan as (_ & _ & _ & _ & Hr). by apply (Hrq pk r).
    + rewrite lookup_insert_ne by done. apply Hrq.
  - destruct (delete_request request pk s) as [o s'] eqn:Hpost.
    cbn [snd]. pose proof Hpost as Hpost'.
    apply delete_request_inv in Hpost as [[r Hcan]|[Hw Hr]]; cycle 1.
    { unfold site_ok, copies_agree. by rewrite Hw, Hr. }
    rewrite (delete_request_eq request pk s r Hcan) in Hpost'.
    injection Hpost' as _ <-.
    unfold site_ok, copies_agree. split_and!; try done.
    cbn [world requests]. intros k r'.
    intros [_ Hr']%lookup_delete_Some. by eapply Hrq.
  - destruct (products (db (world s)) !! pid) as [p|] eqn:Hp; cycle 1.
    { rewrite DeleteProductView_post_missing by done. by cbn [snd]. }
    rewrite (DeleteProductView_post_eq pid s p Hp). cbn [snd].
    destruct Hsc as [Hu Hne].
    unfold site_ok, copies_agree, support_codes_ok.
    cbn [world requests db set_db products packages farming_companies
         set_products set_packages].
    split_and!.
    + intros i j a b [_ Hi]%lookup_delete_Some [_ Hj]%lookup_delete_Some.
      by eapply Hu.
    + intros k q [_ Hq]%lookup_delete_Some. by eapply Hne.
    + intros k q [_ Hq]%lookup_delete_Some. by eapply Hown.
    + intros k r [Hr Hpr]%map_lookup_filter_Some. cbn [snd] in Hpr.
      destruct (Hrq k r Hr) as (q & Hq & ?). exists q.
      by rewrite lookup_delete_ne.
    + intros k x [Hx Hpx]%map_lookup_filter_Some. cbn [snd] in Hpx.
      destruct (Hpk k x Hx) as (q & Hq & ?). exists q.
      by rewrite lookup_delete_ne.
  - destruct (AddProductView_post env session form s) as [o s'] eqn:Hpost.
    cbn [snd].
    apply AddProductView_post_cases in Hpost
      as (Hr & [Hdb|(cid & x & Hlog & Ht & Hc & Hdb)]).
    { unfold site_ok, copies_agree. by rewrite Hdb, Hr. }
    destruct Hsc as [Hu Hne].
    assert (Hfresh : products (db (world s))
                       !! next_pk (products (db (world s))) = None)
      by apply next_pk_fresh.
    assert (Hkeep : forall k q, products (db (world s)) !! k = Some q ->
              exists q', <[next_pk (products (db (world s))) :=
                             added_product env (world s) cid x]>
                           (products (db (world s))) !! k = Some q' /\
                         support_code q' = support_code q /\
                         company q' = company q).
    { intros k q Hq. exists q. rewrite lookup_insert_ne; [done|]. congruence. }
    unfold site_ok, copies_agree, support_codes_ok. rewrite Hdb, Hr.
    cbn [products packages farming_companies set_products].
    split_and!.
    + by apply unique_on_insert.
    + intros k q. destruct (decide (k = next_pk (products (db (world s)))))
        as [->|Hk].
      * rewrite lookup_insert_eq. intros [= <-].
        eapply code_format_nonempty, IdentFacts.new_support_code_hex.
      * rewrite lookup_insert_ne by done. apply Hne.
    + intros k q. destruct (decide (k = next_pk (products (db (world s)))))
        as [->|Hk].
      * rewrite lookup_insert_eq. intros [= <-]. rewrite Hc.
        by destruct Hlog as (_ & _ & _ & ?).
      * rewrite lookup_insert_ne by done. apply Hown.
    + by eapply requests_agree_mono.
    + intros k pkg Hpkg. destruct (Hpk k pkg Hpkg) as (q & Hq & ?).
      destruct (Hkeep _ _ Hq) as (q' & Hq' & _ & Hc'). exists q'.
      split; [done|]. congruence.
Qed.

(** X18.  The copies stay consistent.  A request stores the support code
    and the owner of its product, a package the farming company of its
    product.  Over any sequence of requests that go through a view or through
    the admin's regeneration action -- package creations, product edits,
    artifact regenerations, purchase requests, approvals, rejections and
    deletions of requests, product deletions and product registrations --
    every request and every package keeps naming an existing product and
    agreeing with it on those columns, every product keeps an existing
    owner, and support codes stay assigned and distinct.  The admin's change
    form of a package is not among these requests. *)
Theorem site_keeps_copies_consistent (env : Env) (actions : list site_action)
    (s : Site) :
  Forall by_a_view actions ->
  site_ok s -> site_ok (site_serve_all env actions s).
Proof.
  revert s. induction actions as [|a actions IH]; intros s Hviews Hok; [done|].
  apply Forall_cons in Hviews as [Hview Hviews].
  apply IH; [done|]. by apply site_serve_ok.
Qed.

Lemma site_keeps_copies_consistent_witness :
  site_ok
    (site_serve_all Scenario.env_ok
       [RequestProduct Sample.exporter 3;
        Shop (EditProduct 3 Scenario2.restock);
        UpdateRequestStatus (Sample.by_post Sample.farmer) 2 "approved";
        Shop (CreatePackage (Scenario.request 5 10));
        Shop (GenerateQrCodes [1]);
        AddProduct Sample.farmer Sample.whiteleg;
        DeleteProduct 3]
       Sample.site_asked).
Proof.
  apply site_keeps_copies_consistent.
  { repeat constructor. }
  destruct shop_constraints as [Hu Hne _ Hown].
  unfold site_ok, copies_agree. split_and!.
  - by split.
  - exact Hown.
  - intros k r Hr. unfold Sample.site_asked in Hr. cbn [requests] in Hr.
    apply lookup_singleton_Some in Hr as [_ <-]. by exists Scenario.tiger.
  - intros k pkg Hpkg. done.
Defined.
